(** * stayhomeandlearn.org: the site build pipeline of [lambda_function.py]

    The module downloads the sheets of one workbook into [data/], renders
    [template/template.html] over them into [site/index.html], and uploads
    [site/] to a bucket.  This file embeds the three stages and their
    orchestrator and proves the properties the specification states about
    them.

    Conventions of the embedding.
    - A Python [str] is a [string]: the sequence of the bytes of its UTF-8
      encoding.  Every character the code inspects (digits, [_], [.], [/],
      newline) is ASCII, and UTF-8 keeps both the boundaries of such characters
      and the code point order, so searching and comparing bytes agrees with
      searching and comparing code points.
    - The file system is a tree of directories and regular files, with names
      compared byte by byte (no symbolic links, no permissions; what is
      printed, written and read is encoded in UTF-8).  The names that the disk holds and the names that
      the module spells out are names the file system accepts; where the
      module builds a path from data, the title of a sheet, the limits
      [NAME_MAX] and [PATH_MAX] of the system are checked.
    - The entries of a directory are a list, in the order of [iterdir].  The
      place of a new name in that order is the file system's own choice; the
      model lists it last.  What a run leaves in a directory is therefore
      stated up to the order of the entries ([Permutation], or what is found
      at each path) wherever the place of a new entry would show.
    - Exceptions are values of [exn]; a stage is a function from the world to
      a result and the world it leaves behind, so what was written before an
      exception stays written. *)

From Stdlib Require Import Ascii String List Bool Arith Lia Permutation Sorted.
From stdpp Require Import base option list strings pretty gmap.

Import ListNotations.
Local Open Scope list_scope.

(** ** Strings *)

Module Str.

(** [c in s], for a single character [c]. *)
Fixpoint mem (c : ascii) (s : string) : bool :=
  match s with
  | EmptyString => false
  | String a s' => Ascii.eqb a c || mem c s'
  end.

(** [s.startswith(p)]. *)
Fixpoint starts_with (p s : string) : bool :=
  match p, s with
  | EmptyString, _ => true
  | String _ _, EmptyString => false
  | String a p', String b s' => Ascii.eqb a b && starts_with p' s'
  end.

(** [sub in s]: some suffix of [s] starts with [sub]. *)
Fixpoint contains (sub s : string) : bool :=
  starts_with sub s ||
  match s with
  | EmptyString => false
  | String _ s' => contains sub s'
  end.

(** [s.rfind(".")] as the pair of what precedes the last dot and what
    follows it; [None] when [s] has no dot. *)
Fixpoint rsplit_dot (s : string) : option (string * string) :=
  match s with
  | EmptyString => None
  | String c s' =>
      match rsplit_dot s' with
      | Some (stem, ext) => Some (String c stem, ext)
      | None => if Ascii.eqb c "."%char then Some (EmptyString, s') else None
      end
  end.

(** [s.split("/")]: the pieces between slashes, empty ones included. *)
Fixpoint split_slash (s : string) : list string :=
  match s with
  | EmptyString => [EmptyString]
  | String c s' =>
      if Ascii.eqb c "/"%char then EmptyString :: split_slash s'
      else match split_slash s' with
           | [] => [String c EmptyString]
           | piece :: pieces => String c piece :: pieces
           end
  end.

(** [sep.join(parts)]. *)
Fixpoint join (sep : string) (parts : list string) : string :=
  match parts with
  | [] => EmptyString
  | [p] => p
  | p :: rest => p +:+ sep +:+ join sep rest
  end.

End Str.

(** ** The constants of the module *)

Definition IGNORED_FILES : list string := ["template.html"; ".DS_Store"].

Definition LISTS_MAPPING : gmap string string :=
  <["learning_resources" := "&#128218; Learning Resources"]>
  (<["productivity" := "&#128187; Productivity"]>
  (<["health" := "&#x1F3CB; Health & Fitness"]>
  (<["entertainment" := "&#x1F4FA; Entertainment"]> ∅))).

Definition CONTENT_TYPE_MAPPING : gmap string string :=
  <[".css" := "text/css"]>
  (<[".html" := "text/html"]>
  (<[".jpg" := "image/jpeg"]>
  (<[".xml" := "text/xml"]> ∅))).

(** [d.get(k, default)]. *)
Definition dict_get (d : gmap string string) (k default : string) : string :=
  match d !! k with
  | Some v => v
  | None => default
  end.

(** [name in IGNORED_FILES]. *)
Definition in_list (name : string) (l : list string) : bool :=
  existsb (String.eqb name) l.

(** ** The regular expression of [generate_site]

    [re.search(r"[0-9]_(.*?)\.csv", name)] tries every start position from
    the left; at a position it needs one ASCII digit, an underscore, then the
    shortest run of characters other than newline that is followed by
    [.csv].  The functions below are the pattern's pieces. *)

Module Re.

(** [[0-9]] *)
Definition digit (c : ascii) : bool :=
  (48 <=? nat_of_ascii c) && (nat_of_ascii c <=? 57).

(** [.] without [re.DOTALL]: every character except the newline. *)
Definition dot (c : ascii) : bool := negb (Ascii.eqb c "010"%char).

(** [(.*?)\.csv] at the start of [s]: the lazy star first tries to stop,
    and takes one more character only when [.csv] does not follow.  The
    value is the text captured by the group. *)
Fixpoint lazy_group_csv (s : string) : option string :=
  if Str.starts_with ".csv" s then Some EmptyString
  else match s with
       | EmptyString => None
       | String c s' =>
           if dot c then
             match lazy_group_csv s' with
             | Some g => Some (String c g)
             | None => None
             end
           else None
       end.

(** The whole pattern at the start of [s]. *)
Definition match_here (s : string) : option string :=
  match s with
  | String d (String u rest) =>
      if digit d && Ascii.eqb u "_"%char then lazy_group_csv rest else None
  | _ => None
  end.

(** [re.search(pattern, s)]: the leftmost position at which the pattern
    matches; the value is [group(1)] of the match, [None] for no match. *)
Fixpoint search (s : string) : option string :=
  match match_here s with
  | Some g => Some g
  | None =>
      match s with
      | EmptyString => None
      | String _ s' => search s'
      end
  end.

End Re.

(** ** [pathlib]: names and suffixes *)

(** [PurePath.suffix] of a final component [name] (CPython 3.8): the text
    from the last dot on, unless that dot is the first or the last character
    of the name. *)
Definition suffix (name : string) : string :=
  match Str.rsplit_dot name with
  | Some (String _ _, String c ext) => String "."%char (String c ext)
  | _ => EmptyString
  end.

(** [PurePath.__truediv__] for a POSIX path: the components of [base / s].
    The string is cut at slashes, empty pieces and [.] are dropped, [..] is
    kept; a string that starts with a slash is absolute and replaces [base].
    The first component of the pair is the directory the walk starts from. *)
Definition path_parts (s : string) : list string :=
  List.filter (fun c => negb (String.eqb c "") && negb (String.eqb c "."))
    (Str.split_slash s).

Definition path_div (base : list string) (s : string) : list string * list string :=
  (if Str.starts_with "/" s then [] else base, path_parts s).

(** [str(base / s)], the text given to [open]: the root and the components
    with a slash between them.  [base] is absolute; a string that starts
    with exactly two slashes keeps both as its root. *)
Definition path_text (base : list string) (s : string) : string :=
  (if Str.starts_with "//" s && negb (Str.starts_with "///" s) then "//" else "/")
  +:+ Str.join "/" (fst (path_div base s) ++ snd (path_div base s)).

(** ** The file system *)

#[local] Set Warnings "-register-all".

Inductive node : Type :=
| File (data : string)
| Dir (entries : list (string * node)).

(** A path is the list of the names from the root directory down. *)
Abbreviation path := (list string).

Module Entries.

(** The entry called [name], when the directory has one. *)
Fixpoint get (name : string) (es : list (string * node)) : option node :=
  match es with
  | [] => None
  | (n, x) :: rest => if String.eqb n name then Some x else get name rest
  end.

(** Bind [name] to [x]: in place when the name exists, as a new last entry
    otherwise.  The place of a new entry is the model's choice: a file
    system lists it where its own order puts it. *)
Fixpoint set (name : string) (x : node) (es : list (string * node))
  : list (string * node) :=
  match es with
  | [] => [(name, x)]
  | (n, y) :: rest =>
      if String.eqb n name then (n, x) :: rest else (n, y) :: set name x rest
  end.

(** Unlink [name]. *)
Definition remove (name : string) (es : list (string * node))
  : list (string * node) :=
  List.filter (fun e => negb (String.eqb (fst e) name)) es.

Definition put (name : string) (o : option node) (es : list (string * node))
  : list (string * node) :=
  match o with
  | Some x => set name x es
  | None => remove name es
  end.

Definition names (es : list (string * node)) : list string := map fst es.

End Entries.

(** ** Exceptions, results and the world *)

Inductive exn : Type :=
| FileNotFoundError
| FileExistsError
| NotADirectoryError
| IsADirectoryError
| AttributeError          (* [None.group]: the pattern did not match *)
| TemplateNotFound
| ValueError              (* a NUL in a path given to [open] *)
| OSError_ENAMETOOLONG    (* [OSError], errno [ENAMETOOLONG]: File name too long *)
| LibraryError (what : string).   (* raised by a collaborator *)

Inductive result (A : Type) : Type :=
| Ok (a : A)
| Raise (e : exn).

Arguments Ok {A} a.
Arguments Raise {A} e.

Definition is_ok {A} (r : result A) : bool :=
  match r with Ok _ => true | Raise _ => false end.

(** What [upload_file] is asked to do: the local file, its bytes, the key and
    the content type of [ExtraArgs]. *)
Record s3_call : Type := {
  Filename : path;
  Body : string;
  Key : string;
  ContentType : string }.

(** A stored object: its bytes and its content type. *)
Record s3_object : Type := {
  obj_body : string;
  obj_content_type : string }.

Record world : Type := {
  fs : node;                          (* the local disk, from [/] *)
  bucket : gmap string s3_object;     (* dev-stayhomeandlearn.org *)
  requests : list s3_call;            (* the [upload_file] calls made so far *)
  stdout : list string }.             (* the lines printed so far *)

Definition with_fs (w : world) (t : node) : world :=
  {| fs := t; bucket := bucket w; requests := requests w; stdout := stdout w |}.

(** A row of [csv.DictReader]: field name and value, in header order. *)
Abbreviation row := (list (string * string)).

(** [(original_name, processed_name, list_ind)] *)
Abbreviation category := (string * string * list row)%type.

Record sheet : Type := {
  title : string;
  get_all_values : result (list (list string)) }.

Record datetime : Type := { year : nat; month : nat; day : nat }.

(** Everything the module gets from outside: where it is installed, what its
    collaborators answer, and the library functions it calls on strings. *)
Record env : Type := {
  (* [Path(__file__).parent], as the absolute path of that directory *)
  ROOT_DIR : path;
  (* credentials, [gspread.authorize], [client.open], [workbook.worksheets] *)
  open_workbook : result (list sheet);
  (* [datetime.now()] *)
  now : datetime;
  (* [boto3.Session(profile_name="personal")] and [session.resource("s3")] *)
  s3_resource : result unit;
  (* whether the storage service accepts a call *)
  s3_accepts : s3_call -> result unit;
  (* [csv.writer(f).writerows(values)]: the text written *)
  csv_writerows : list (list string) -> string;
  (* [[row for row in csv.DictReader(f)]] on the text of [f] *)
  csv_DictReader : string -> result (list row);
  (* compiling the source of a template found in the directory that the
     loader searches *)
  jinja2_compile : node -> string -> result unit;
  (* [template.render(lists, intro_text, last_update, meta_content)] *)
  jinja2_render :
    node -> string -> list category -> string -> string -> string -> result string }.

(** The state-and-exception monad of the stages. *)
Definition M (A : Type) : Type := world -> result A * world.

Definition ret {A} (a : A) : M A := fun w => (Ok a, w).

Definition raise {A} (e : exn) : M A := fun w => (Raise e, w).

Definition bind {A B} (m : M A) (k : A -> M B) : M B :=
  fun w =>
    match m w with
    | (Ok a, w') => k a w'
    | (Raise e, w') => (Raise e, w')
    end.

#[global] Instance M_ret : MRet M := @ret.
#[global] Instance M_bind : MBind M := fun A B k m => bind m k.

(** Lift a result that needs no state. *)
Definition lift {A} (r : result A) : M A := fun w => (r, w).

(** [for x in l: body(x)] *)
Fixpoint for_each {A} (l : list A) (body : A -> M unit) : M unit :=
  match l with
  | [] => ret tt
  | x :: rest => body x ;; for_each rest body
  end.

(** [[f(x) for x in l]], left to right. *)
Fixpoint map_each {A B} (l : list A) (f : A -> M B) : M (list B) :=
  match l with
  | [] => ret []
  | x :: rest => y ← f x; ys ← map_each rest f; ret (y :: ys)
  end.

(** ** Walking and changing the tree *)

Module Fs.

(** The node at [p] below [o]; [o] is [None] where nothing exists. *)
Fixpoint get (p : path) (o : option node) : option node :=
  match p with
  | [] => o
  | c :: p' =>
      match o with
      | Some (Dir es) => get p' (Entries.get c es)
      | _ => None
      end
  end.

(** Change what [p] names: [f] sees what is there and answers what shall be
    there ([None]: nothing).  A missing directory on the way is an error,
    unless [mk] asks to create it as [os.makedirs] does; a regular file on
    the way is an error. *)
Fixpoint update (mk : bool) (p : path)
    (f : option node -> result (option node)) (o : option node)
  : result (option node) :=
  match p with
  | [] => f o
  | c :: p' =>
      match o with
      | Some (Dir es) =>
          match update mk p' f (Entries.get c es) with
          | Ok r => Ok (Some (Dir (Entries.put c r es)))
          | Raise e => Raise e
          end
      | Some (File _) => Raise NotADirectoryError
      | None =>
          if mk then
            match update mk p' f None with
            | Ok r => Ok (Some (Dir (Entries.put c r [])))
            | Raise e => Raise e
            end
          else Raise FileNotFoundError
      end
  end.

(** The limits of the system (Linux): the bytes of one name, and the bytes
    of a path with the NUL that ends it. *)
Definition NAME_MAX : nat := 255.
Definition PATH_MAX : nat := 4096.

(** The kernel's walk over a path that may hold [..]: [cur] is where the
    walk stands, and [..] steps to the parent of a directory that exists
    (the parent of the root is the root).  A name of more than [NAME_MAX]
    bytes is refused where the walk looks it up in a directory; where the
    walk stands on nothing or on a regular file, that error comes first: it
    is raised by the [..] that follows or by the operation at the end of the
    walk. *)
Fixpoint resolve (t : node) (cur : path) (raw : list string) : result path :=
  match raw with
  | [] => Ok cur
  | c :: raw' =>
      if String.eqb c ".." then
        match get cur (Some t) with
        | Some (Dir _) => resolve t (removelast cur) raw'
        | Some (File _) => Raise NotADirectoryError
        | None => Raise FileNotFoundError
        end
      else
        match get cur (Some t) with
        | Some (Dir _) =>
            if NAME_MAX <? String.length c then Raise OSError_ENAMETOOLONG
            else resolve t (cur ++ [c]) raw'
        | _ => resolve t (cur ++ [c]) raw'
        end
  end.

End Fs.

(** Run a change of the tree at the root; the root itself stays a node. *)
Definition change (mk : bool) (p : path)
    (f : option node -> result (option node)) : M unit :=
  fun w =>
    match Fs.update mk p f (Some (fs w)) with
    | Ok (Some t) => (Ok tt, with_fs w t)
    | Ok None => (Ok tt, w)
    | Raise e => (Raise e, w)
    end.

Definition lookup_path (p : path) : M (option node) :=
  fun w => (Ok (Fs.get p (Some (fs w))), w).

(** [open(p, "w")] followed by writing [data] and closing, for a path [p]
    whose names the disk holds or the module spells out; the path built from
    a title goes through [write_file_at], which checks the limits. *)
Definition write_file (p : path) (data : string) : M unit :=
  change false p (fun o =>
    match o with
    | Some (Dir _) => Raise IsADirectoryError
    | _ => Ok (Some (File data))
    end).

(** [Path.mkdir()] *)
Definition mkdir (p : path) : M unit :=
  change false p (fun o =>
    match o with
    | Some _ => Raise FileExistsError
    | None => Ok (Some (Dir []))
    end).

(** [shutil.rmtree(p, ignore_errors=True)]: a directory goes with all it
    holds; anything else stays, and the error is dropped. *)
Definition rmtree_ignore_errors (p : path) : M unit :=
  fun w =>
    match change false p (fun o =>
            match o with
            | Some (Dir _) => Ok None
            | Some (File _) => Raise NotADirectoryError
            | None => Raise FileNotFoundError
            end) w with
    | (Ok _, w') => (Ok tt, w')
    | (Raise _, _) => (Ok tt, w)
    end.

(** [Path.iterdir()], as the list of the entries: each is the name and the
    node it names. *)
Definition iterdir (p : path) : M (list (string * node)) :=
  fun w =>
    match Fs.get p (Some (fs w)) with
    | Some (Dir es) => (Ok es, w)
    | Some (File _) => (Raise NotADirectoryError, w)
    | None => (Raise FileNotFoundError, w)
    end.

(** [shutil.copytree(src, dst)] of the directory [src] with entries [es]:
    [dst] is made with [os.makedirs] and must not exist. *)
Definition copytree (es : list (string * node)) (dst : path) : M unit :=
  change true dst (fun o =>
    match o with
    | Some _ => Raise FileExistsError
    | None => Ok (Some (Dir es))
    end).

(** [shutil.copy(src, dst)] of the regular file [src] called [name] holding
    [data]: into [dst] under the same name when [dst] is a directory, onto
    [dst] otherwise. *)
Definition copy (name data : string) (dst : path) : M unit :=
  o ← lookup_path dst;
  match o with
  | Some (Dir _) => write_file (dst ++ [name]) data
  | _ => write_file dst data
  end.

(** [open(p, "r")] and reading all of it. *)
Definition read_entry (x : node) : M string :=
  match x with
  | File data => ret data
  | Dir _ => raise IsADirectoryError
  end.

(** [open(base / s, "w")], written and closed: the one path the module
    builds from data.  Python refuses a NUL before it calls the system; the
    system refuses a path of [PATH_MAX] bytes or more before it walks it,
    and a name of more than [NAME_MAX] bytes during the walk. *)
Definition write_file_at (base : path) (s : string) (data : string) : M unit :=
  fun w =>
    let '(start, raw) := path_div base s in
    if Str.mem "000"%char s then (Raise ValueError, w)
    else if Fs.PATH_MAX <=? String.length (path_text base s)
    then (Raise OSError_ENAMETOOLONG, w)
    else match Fs.resolve (fs w) start raw with
         | Ok p => write_file p data w
         | Raise e => (Raise e, w)
         end.

Definition print (line : string) : M unit :=
  fun w => (Ok tt,
            {| fs := fs w; bucket := bucket w; requests := requests w;
               stdout := stdout w ++ [line] |}).

(** An accepted call creates the object at its key, or overwrites it. *)
Definition put_object (b : gmap string s3_object) (c : s3_call)
  : gmap string s3_object :=
  <[Key c := {| obj_body := Body c; obj_content_type := ContentType c |}]> b.

(** [Bucket.upload_file(Filename, Key, ExtraArgs)]: the call is recorded;
    when the service accepts it the object is stored. *)
Definition upload_file (E : env) (c : s3_call) : M unit :=
  fun w =>
    match s3_accepts E c with
    | Ok _ =>
        (Ok tt,
         {| fs := fs w; bucket := put_object (bucket w) c;
            requests := requests w ++ [c]; stdout := stdout w |})
    | Raise e =>
        (Raise e,
         {| fs := fs w; bucket := bucket w;
            requests := requests w ++ [c]; stdout := stdout w |})
    end.

(** ** Directories and texts of the module *)

Definition TEMPLATE_DIR (E : env) : path := ROOT_DIR E ++ ["template"].
Definition CSS_DIR (E : env) : path := TEMPLATE_DIR E ++ ["css"].
Definition SITE_DIR (E : env) : path := ROOT_DIR E ++ ["site"].
Definition DATA_DIR (E : env) : path := ROOT_DIR E ++ ["data"].

(** The double quote, which the texts below hold ten times. *)
Definition dq : string := String (ascii_of_nat 34) EmptyString.

Definition INTRO_TEXT : string :=
"
<b>COVID-19 continues disrupting lives.</b> Some are going through severe health situations. Others have lost their jobs. And by now, many of us are quarantined in our homes.
<br><br>
Life may feel tough now, but don't despair. This can be a time to learn new things, get better at your craft or enjoy (virtual) time with friends and family. 
<br><br>
<b>This page is a list of high-quality resources available for free or cheaper than usual due to the COVID-19:</b>
<a href=" +:+ dq +:+ "#learning_resources" +:+ dq +:+ "> Learning Resources</a>,
<a href=" +:+ dq +:+ "#health" +:+ dq +:+ "> Health & Fitness</a>,
<a href=" +:+ dq +:+ "#productivity" +:+ dq +:+ "> Productivity</a>, and
<a href=" +:+ dq +:+ "#entertainment" +:+ dq +:+ "> Entertainment</a>.
<br><br>
If you like them, use them or share them with others. If you know of something that is not here, <a href=" +:+ dq +:+ "https://docs.google.com/forms/d/e/1FAIpQLSf6qLcvJGWS3VltKV99sO0KhBxmWxb0sdIpVu93OolL42s7rQ/viewform?usp=sf_link" +:+ dq +:+ ">please let me know</a>.
".

Definition META_CONTENT : string :=
"
A list of +50 high-quality resources available for free or cheaper than usual due to the COVID-19
".

(** ** The date stamp *)

Definition month_names : list string :=
  ["January"; "February"; "March"; "April"; "May"; "June"; "July";
   "August"; "September"; "October"; "November"; "December"].

(** [strftime("%B %-d, %Y")] in the C locale: full month name, day of the
    month without padding, year. *)
Definition strftime_B_d_Y (d : datetime) : string :=
  nth (month d - 1) month_names "" +:+ " " +:+ pretty (day d) +:+ ", "
  +:+ pretty (year d).

(** ** Stage 1: [download_sheets] *)

(** The body of the loop over [workbook.worksheets()]. *)
Definition download_sheet (E : env) (worksheet : sheet) : M unit :=
  let filename := title worksheet +:+ ".csv" in
  sheet_values ← lift (get_all_values worksheet);
  print ("Downloading: " +:+ title worksheet);;
  write_file_at (DATA_DIR E) filename (csv_writerows E sheet_values).

Definition download_sheets (E : env) : M unit :=
  rmtree_ignore_errors (DATA_DIR E);;
  mkdir (DATA_DIR E);;
  worksheets ← lift (open_workbook E);
  for_each worksheets (download_sheet E).

(** ** Stage 2: [generate_site] *)

(** The body of the loop over [TEMPLATE_DIR.iterdir()]. *)
Definition copy_entry (E : env) (filename : string * node) : M unit :=
  match snd filename with
  | Dir es => copytree es (SITE_DIR E ++ [fst filename])
  | File data =>
      if negb (String.eqb (fst filename) "template.html")
         && negb (String.eqb (fst filename) ".DS_Store")
      then copy (fst filename) data (SITE_DIR E)
      else ret tt
  end.

Definition copy_template (E : env) : M unit :=
  entries ← iterdir (TEMPLATE_DIR E);
  for_each entries (copy_entry E).

(** [template_env.get_template(name)] with a [FileSystemLoader] on
    [TEMPLATE_DIR]: the template must be a regular file there, and it must
    compile.  The value is the directory the loader searches and the source
    of the template. *)
Definition get_template (E : env) (name : string) : M (node * string) :=
  o ← lookup_path (TEMPLATE_DIR E);
  match o with
  | Some (Dir es) =>
      match Entries.get name es with
      | Some (File src) =>
          lift (jinja2_compile E (Dir es) src);; ret (Dir es, src)
      | _ => raise TemplateNotFound
      end
  | _ => raise TemplateNotFound
  end.

(** [list.sort()] on paths of one directory: ascending by name, stable.
    [x] goes before the first [y] that is not smaller than it. *)
Fixpoint insert_sorted (x : string * node) (l : list (string * node))
  : list (string * node) :=
  match l with
  | [] => [x]
  | y :: l' =>
      if String.leb (fst x) (fst y) then x :: y :: l'
      else y :: insert_sorted x l'
  end.

Definition sort (l : list (string * node)) : list (string * node) :=
  fold_right insert_sorted [] l.

(** The [.csv] entries of [DATA_DIR], sorted. *)
Definition csv_files (E : env) : M (list (string * node)) :=
  entries ← iterdir (DATA_DIR E);
  ret (sort (List.filter
               (fun filename => String.eqb (suffix (fst filename)) ".csv")
               entries)).

(** [re.search(r"[0-9]_(.*?)\.csv", name).group(1)] *)
Definition original_name_of (name : string) : M string :=
  match Re.search name with
  | Some g => ret g
  | None => raise AttributeError
  end.

(** The body of the loop over [csv_files]: one element of [lists_all]. *)
Definition read_list (E : env) (csv_file : string * node) : M category :=
  original_name ← original_name_of (fst csv_file);
  let processed_name := dict_get LISTS_MAPPING original_name original_name in
  text ← read_entry (snd csv_file);
  list_ind ← lift (csv_DictReader E text);
  ret (original_name, processed_name, list_ind).

(** The loop that fills [lists_all]. *)
Definition collect_lists (E : env) : M (list category) :=
  files ← csv_files E;
  map_each files (read_list E).

(** What [generate_site] hands to the template, and what comes back. *)
Definition render_index (E : env) : M string :=
  template ← get_template E "template.html";
  lists_all ← collect_lists E;
  let curr_date := strftime_B_d_Y (now E) in
  lift (jinja2_render E (fst template) (snd template)
          lists_all INTRO_TEXT curr_date META_CONTENT).

Definition generate_site (E : env) : M unit :=
  rmtree_ignore_errors (SITE_DIR E);;
  mkdir (SITE_DIR E);;
  copy_template E;;
  output ← render_index E;
  write_file (SITE_DIR E ++ ["index.html"]) output.

(** ** Stage 3: [upload_recursively_to_s3] *)

Definition content_type_of (name : string) : string :=
  dict_get CONTENT_TYPE_MAPPING (suffix name) "application/octet-stream".

(** [dir] is the directory walked and [x] the node it names. *)
Fixpoint upload_recursively_to_s3 (E : env) (dir : path) (x : node)
    (prefix : string) : M unit :=
  match x with
  | File _ => raise NotADirectoryError
  | Dir es =>
      (fix each (es : list (string * node)) : M unit :=
         match es with
         | [] => ret tt
         | (name, y) :: rest =>
             match y with
             | Dir _ =>
                 upload_recursively_to_s3 E (dir ++ [name]) y
                   (prefix +:+ name +:+ "/")
             | File data =>
                 if negb (in_list name IGNORED_FILES) then
                   upload_file E {| Filename := dir ++ [name];
                                    Body := data;
                                    Key := prefix +:+ name;
                                    ContentType := content_type_of name |}
                 else ret tt
             end;;
             each rest
         end) es
  end.

(** ** The orchestrator: [build_site] *)

Definition upload_site (E : env) : M unit :=
  o ← lookup_path (SITE_DIR E);
  match o with
  | Some x => upload_recursively_to_s3 E (SITE_DIR E) x ""
  | None => raise FileNotFoundError
  end.

Definition build_site (E : env) : M unit :=
  download_sheets E;;
  generate_site E;;
  lift (s3_resource E);;
  upload_site E.

(** * Vocabulary of the statements *)

(** [name] is [<digit>_<key>.csv]. *)
Definition has_form (name key : string) : Prop :=
  exists d, Re.digit d = true /\ name = String d ("_" +:+ key +:+ ".csv").

(** The pattern occurs somewhere in [s]: a digit, an underscore, a text
    without newline and [.csv], in a row. *)
Definition pattern_occurs (s : string) : Prop :=
  exists pre d mid post,
    Re.digit d = true /\ Str.mem "010" mid = false /\
    s = pre +:+ String d ("_" +:+ mid +:+ ".csv" +:+ post).

(** Two paths part ways: after a common start each goes on with a name of
    its own. *)
Definition diverge (p q : path) : Prop :=
  exists c a b p' q', a <> b /\ p = c ++ a :: p' /\ q = c ++ b :: q'.

(** The regular files below [x], each with the names that lead to it from
    [x] and with its bytes, in the order of the walk. *)
Fixpoint files_under (x : node) : list (list string * string) :=
  match x with
  | File _ => []
  | Dir es =>
      (fix each (es : list (string * node)) : list (list string * string) :=
         match es with
         | [] => []
         | (name, y) :: rest =>
             match y with
             | File data => [([name], data)]
             | Dir _ => map (fun f => (name :: fst f, snd f)) (files_under y)
             end ++ each rest
         end) es
  end.

(** The files below the entries of a directory: the loop of [files_under]. *)
Fixpoint files_in (es : list (string * node)) : list (list string * string) :=
  match es with
  | [] => []
  | (name, y) :: rest =>
      match y with
      | File data => [([name], data)]
      | Dir _ => map (fun f => (name :: fst f, snd f)) (files_under y)
      end ++ files_in rest
  end.

(** The loop of [upload_recursively_to_s3] over the entries of [dir]. *)
Fixpoint upload_entries (E : env) (dir : path) (prefix : string)
    (es : list (string * node)) : M unit :=
  match es with
  | [] => ret tt
  | (name, y) :: rest =>
      match y with
      | Dir _ =>
          upload_recursively_to_s3 E (dir ++ [name]) y (prefix +:+ name +:+ "/")
      | File data =>
          if negb (in_list name IGNORED_FILES) then
            upload_file E {| Filename := dir ++ [name];
                             Body := data;
                             Key := prefix +:+ name;
                             ContentType := content_type_of name |}
          else ret tt
      end;;
      upload_entries E dir prefix rest
  end.

(** The call that publishes the file [f] found below [dir], when the keys
    of [dir] start with [prefix]. *)
Definition request_at (dir : path) (prefix : string) (f : list string * string)
  : s3_call :=
  {| Filename := dir ++ fst f;
     Body := snd f;
     Key := prefix +:+ Str.join "/" (fst f);
     ContentType := content_type_of (List.last (fst f) "") |}.

(** The call that publishes the file [f] found below [root]: the key is the
    path of the file relative to [root]. *)
Definition request_for (root : path) (f : list string * string) : s3_call :=
  {| Filename := root ++ fst f;
     Body := snd f;
     Key := Str.join "/" (fst f);
     ContentType := content_type_of (List.last (fst f) "") |}.

Definition ignored (f : list string * string) : bool :=
  in_list (List.last (fst f) "") IGNORED_FILES.

(** The bucket after the calls [cs] were accepted, in order. *)
Definition store (cs : list s3_call) (b : gmap string s3_object)
  : gmap string s3_object :=
  fold_left put_object cs b.

(** The bucket and the record of the calls are the same in both worlds. *)
Definition same_store (w w' : world) : Prop :=
  bucket w' = bucket w /\ requests w' = requests w.

(** [w'] differs from [w] at most in the part of the disk below [P] and on
    the way to it. *)
Definition same_outside (P : path) (w w' : world) : Prop :=
  same_store w w' /\ stdout w' = stdout w /\
  forall q, diverge P q -> Fs.get q (Some (fs w')) = Fs.get q (Some (fs w)).

(** Whatever the outcome of [m], the world it leaves is related by [R] to
    the world it found. *)
Definition preserves {A} (R : world -> world -> Prop) (m : M A) : Prop :=
  forall w, R w (snd (m w)).

(** The entries of the template directory that [generate_site] copies. *)
Definition copied (filename : string * node) : bool :=
  match snd filename with
  | Dir _ => true
  | File _ =>
      negb (String.eqb (fst filename) "template.html")
      && negb (String.eqb (fst filename) ".DS_Store")
  end.

(** Ascending order of the names: [a] is listed before [b] when its name is
    smaller or the same. *)
Definition name_le (a b : string * node) : Prop :=
  String.le (fst a) (fst b).

(** The element of [lists_all] that the loop of [generate_site] makes of
    the data file [csv_file]. *)
Definition listed_as (E : env) (csv_file : string * node) (c : category) : Prop :=
  exists key text rows,
    Re.search (fst csv_file) = Some key /\
    snd csv_file = File text /\
    csv_DictReader E text = Ok rows /\
    c = (key, dict_get LISTS_MAPPING key key, rows).

(** [filename.suffix == ".csv"] *)
Definition is_csv (filename : string * node) : bool :=
  String.eqb (suffix (fst filename)) ".csv".

(** The calls that publish the site [x]: one for each file below it that is
    not ignored, in the order of the walk. *)
Definition site_requests (E : env) (x : node) : list s3_call :=
  map (request_for (SITE_DIR E))
    (List.filter (fun f => negb (ignored f)) (files_under x)).

(** The content type that the table gives to an extension. *)
Definition content_type_table (ext : string) : string :=
  if String.eqb ext ".css" then "text/css"
  else if String.eqb ext ".html" then "text/html"
  else if String.eqb ext ".jpg" then "image/jpeg"
  else if String.eqb ext ".xml" then "text/xml"
  else "application/octet-stream".

(** The file that [download_sheets] makes of a sheet. *)
Definition sheet_file (E : env) (s : sheet) : string * node :=
  (title s +:+ ".csv",
   File (csv_writerows E
           match get_all_values s with
           | Ok values => values
           | Raise _ => []
           end)).

(** The file of a sheet can be opened: its name has at most [NAME_MAX]
    bytes and the text of its path fewer than [PATH_MAX]. *)
Definition within_limits (E : env) (s : sheet) : Prop :=
  String.length (title s +:+ ".csv") <= Fs.NAME_MAX /\
  String.length (path_text (DATA_DIR E) (title s +:+ ".csv")) < Fs.PATH_MAX.

(** One run of the fetcher over the workbook [sheets] returns and leaves in
    the data directory exactly one file for each sheet, named after the
    title of the sheet: the entries of the directory are the files of the
    sheets, in some order. *)
Definition one_file_per_sheet (E : env) (w : world) (sheets : list sheet) : Prop :=
  exists w' files,
    download_sheets E w = (Ok tt, w') /\
    Fs.get (DATA_DIR E) (Some (fs w')) = Some (Dir files) /\
    length files = length sheets /\
    Permutation files (map (sheet_file E) sheets).

(** * A sample installation

    The module installed in [/app], with a template directory, a workbook of
    two sheets and collaborators that answer.  The library functions are
    stand-ins that keep what they are given in view: the rows joined by
    commas and newlines, one row holding the text read, and a page made of
    the template source, the keys and labels of the lists and the date. *)

Definition show_lists (lists : list category) : string :=
  Str.join "|" (map (fun c => fst (fst c) +:+ "=" +:+ snd (fst c)) lists).

Definition sample_sheets : list sheet :=
  [ {| title := "2_health";
       get_all_values := Ok [["title"; "url"]; ["Yoga"; "http://y"]] |};
    {| title := "1_learning_resources";
       get_all_values := Ok [["title"; "url"]; ["Course"; "http://x"]] |} ].

Definition sample_env : env :=
  {| ROOT_DIR := ["app"];
     open_workbook := Ok sample_sheets;
     now := {| year := 2020; month := 4; day := 3 |};
     s3_resource := Ok tt;
     s3_accepts := fun _ => Ok tt;
     csv_writerows := fun rows => Str.join "
" (map (Str.join ",") rows);
     csv_DictReader := fun text => Ok [[("text", text)]];
     jinja2_compile := fun _ _ => Ok tt;
     jinja2_render := fun _ src lists _ date _ =>
       Ok (src +:+ "[" +:+ show_lists lists +:+ "]" +:+ date) |}.

(** The same installation with another answer of the spreadsheet service. *)
Definition sample_env_with (reply : result (list sheet)) : env :=
  {| ROOT_DIR := ROOT_DIR sample_env;
     open_workbook := reply;
     now := now sample_env;
     s3_resource := s3_resource sample_env;
     s3_accepts := s3_accepts sample_env;
     csv_writerows := csv_writerows sample_env;
     csv_DictReader := csv_DictReader sample_env;
     jinja2_compile := jinja2_compile sample_env;
     jinja2_render := jinja2_render sample_env |}.

Definition sample_template : list (string * node) :=
  [ ("template.html", File "T");
    ("css", Dir [("style.css", File "c")]);
    ("logo.jpg", File "j");
    (".DS_Store", File "x") ].

(** The disk with the template directory [tes] and, when given, a data
    directory. *)
Definition sample_disk (tes : list (string * node))
    (data : option (list (string * node))) : node :=
  Dir [("app",
        Dir ([("template", Dir tes); ("lambda_function.py", File "py")]
             ++ match data with
                | Some files => [("data", Dir files)]
                | None => []
                end))].

Definition world_of (disk : node) : world :=
  {| fs := disk; bucket := ∅; requests := []; stdout := [] |}.

Definition sample_world : world := world_of (sample_disk sample_template None).

(** A site directory ready to be published, with files of several
    extensions, in [/app]. *)
Definition sample_site : list (string * node) :=
  [ ("css", Dir [("style.css", File "c")]);
    ("index.html", File "page");
    ("logo.jpg", File "j");
    ("sitemap.xml", File "m");
    ("photo.JPG", File "p");
    ("README", File "r");
    ("template.html", File "T") ].

Definition sample_site_world : world :=
  world_of (Dir [("app", Dir [("site", Dir sample_site)])]).

(** A workbook with one sheet, whose title holds a slash. *)
Definition slash_sheet : sheet :=
  {| title := "a/b"; get_all_values := Ok [["title"; "url"]] |}.

(** * Vocabulary of the further statements *)

(** What is found at a path: nothing, a directory, or a regular file and
    its bytes.  Two trees in which the same is found at every path differ at
    most in the order of their listings. *)
Inductive found : Type :=
| Nothing
| Directory
| Regular (data : string).

Definition look (p : path) (t : node) : found :=
  match Fs.get p (Some t) with
  | None => Nothing
  | Some (Dir _) => Directory
  | Some (File data) => Regular data
  end.

(** [c * n] *)
Fixpoint run_of (n : nat) (c : ascii) : string :=
  match n with
  | 0 => EmptyString
  | S n' => String c (run_of n' c)
  end.

(** A sheet that can be read, with a title of 300 bytes. *)
Definition long_sheet : sheet :=
  {| title := run_of 300 "x"; get_all_values := Ok [["title"; "url"]] |}.

(** Every character of [s] satisfies [f]. *)
Fixpoint all_chars (f : ascii -> bool) (s : string) : bool :=
  match s with
  | EmptyString => true
  | String c s' => f c && all_chars f s'
  end.

(** The bucket, the record of the calls and the disk away from [P] are the
    same in both worlds; what was printed may differ. *)
Definition disk_same_outside (P : path) (w w' : world) : Prop :=
  same_store w w' /\
  forall q, diverge P q -> Fs.get q (Some (fs w')) = Fs.get q (Some (fs w)).

(** The outcome of [m] is the same in every world. *)
Definition constant {A} (m : M A) : Prop :=
  forall w w', fst (m w) = fst (m w').

(** A tree as a file system has it: in every directory no two entries have
    the same name, and no name holds a slash. *)
Fixpoint well_formed (x : node) : Prop :=
  match x with
  | File _ => True
  | Dir es =>
      List.NoDup (Entries.names es) /\
      (fix all (es : list (string * node)) : Prop :=
         match es with
         | [] => True
         | (name, y) :: rest =>
             Str.mem "/" name = false /\ well_formed y /\ all rest
         end) es
  end.

(** The loop of [well_formed] over the entries of a directory. *)
Fixpoint well_formed_entries (es : list (string * node)) : Prop :=
  match es with
  | [] => True
  | (name, y) :: rest =>
      Str.mem "/" name = false /\ well_formed y /\ well_formed_entries rest
  end.

(** The object that an accepted call stores. *)
Definition object_of (c : s3_call) : s3_object :=
  {| obj_body := Body c; obj_content_type := ContentType c |}.

(** The sample installation with a storage service that rejects the calls
    for the key [key] and accepts the others. *)
Definition sample_env_rejecting (key : string) : env :=
  {| ROOT_DIR := ROOT_DIR sample_env;
     open_workbook := open_workbook sample_env;
     now := now sample_env;
     s3_resource := s3_resource sample_env;
     s3_accepts := fun c =>
       if String.eqb (Key c) key then Raise (LibraryError "S3UploadFailedError")
       else Ok tt;
     csv_writerows := csv_writerows sample_env;
     csv_DictReader := csv_DictReader sample_env;
     jinja2_compile := jinja2_compile sample_env;
     jinja2_render := jinja2_render sample_env |}.

(** * Properties *)

(** ** The definitions at work *)

Example suffix_examples :
  suffix "1_health.csv" = ".csv" /\ suffix "a.tar.gz" = ".gz" /\
  suffix ".csv" = "" /\ suffix "README" = "" /\ suffix "a." = "".
Proof. repeat split; reflexivity. Qed.

Example search_examples :
  Re.search "1_health.csv" = Some "health" /\
  Re.search "12_a_b.csv" = Some "a_b" /\
  Re.search "notes.csv" = None.
Proof. repeat split; reflexivity. Qed.

Example path_div_examples :
  path_div ["app"; "data"] "1_health.csv" = (["app"; "data"], ["1_health.csv"]) /\
  path_div ["app"; "data"] "x/../y.csv" = (["app"; "data"], ["x"; ".."; "y.csv"]) /\
  path_div ["app"; "data"] "/tmp/z.csv" = ([], ["tmp"; "z.csv"]) /\
  path_div ["app"; "data"] "./b//c.csv" = (["app"; "data"], ["b"; "c.csv"]).
Proof. repeat split; reflexivity. Qed.

Example strftime_example :
  strftime_B_d_Y {| year := 2020; month := 4; day := 3 |} = "April 3, 2020".
Proof. reflexivity. Qed.

Example intro_text_length : String.length INTRO_TEXT = 908.
Proof. reflexivity. Qed.

(** The end-to-end example of the specification: two sheets, whatever their
    order in the workbook, give the two sections in the order of the file
    names, and the page is published as [text/html]. *)
Example build_site_example :
  fst (build_site sample_env sample_world) = Ok tt /\
  Fs.get (SITE_DIR sample_env ++ ["index.html"])
    (Some (fs (snd (build_site sample_env sample_world))))
  = Some (File "T[learning_resources=&#128218; Learning Resources|health=&#x1F3CB; Health & Fitness]April 3, 2020") /\
  obj_content_type <$>
    (bucket (snd (build_site sample_env sample_world)) !! "index.html")
  = Some "text/html" /\
  obj_content_type <$>
    (bucket (snd (build_site sample_env sample_world)) !! "css/style.css")
  = Some "text/css" /\
  length (requests (snd (build_site sample_env sample_world))) = 3.
Proof. vm_compute. repeat split; reflexivity. Qed.

(** ** Strings *)

#[local] Arguments String.append !_ _ / : simpl nomatch.
#[local] Arguments Ascii.eqb !_ !_ : simpl nomatch.

Lemma append_nil_r (s : string) : s +:+ "" = s.
Proof. induction s as [|c s IH]; simpl; [reflexivity | now rewrite IH]. Qed.

Lemma append_assoc (a b c : string) : (a +:+ b) +:+ c = a +:+ (b +:+ c).
Proof. induction a as [|x a IH]; simpl; [reflexivity | now rewrite IH]. Qed.

Lemma prefix_app (p s : string) : Str.starts_with p (p +:+ s) = true.
Proof.
  induction p as [|c p IH]; simpl; [reflexivity |].
  now rewrite Ascii.eqb_refl.
Qed.

Lemma prefix_inv (p s : string) :
  Str.starts_with p s = true -> exists t, s = p +:+ t.
Proof.
  revert s. induction p as [|c p IH]; intros s H.
  - now exists s.
  - destruct s as [|d s]; [discriminate |]. simpl in H.
    apply andb_true_iff in H as [Hc H]. apply Ascii.eqb_eq in Hc as ->.
    destruct (IH _ H) as [t ->]. now exists t.
Qed.

Lemma mem_app (c : ascii) (a b : string) :
  Str.mem c (a +:+ b) = Str.mem c a || Str.mem c b.
Proof.
  induction a as [|x a IH]; simpl; [reflexivity |].
  now rewrite IH, orb_assoc.
Qed.

Lemma contains_cons_false (sub : string) (c : ascii) (s : string) :
  Str.contains sub (String c s) = false ->
  Str.starts_with sub (String c s) = false /\ Str.contains sub s = false.
Proof. simpl. intros H. now apply orb_false_iff in H. Qed.

(** [.csv] cannot start inside a text that is free of it and end in the
    [.csv] that follows the text. *)
Lemma csv_no_overlap (k tail : string) :
  k <> "" -> Str.contains ".csv" k = false ->
  Str.starts_with ".csv" (k +:+ ".csv" +:+ tail) = false.
Proof.
  intros Hne Hc.
  destruct k as [|a1 k]; [congruence |].
  apply contains_cons_false in Hc as [Hp _].
  destruct k as [|a2 [|a3 [|a4 k]]]; simpl in *;
    repeat match goal with
           | |- context [Ascii.eqb ?a ?b] => destruct (Ascii.eqb a b); simpl in *
           end;
    try reflexivity; discriminate.
Qed.

(** ** The pattern *)

Lemma lazy_group_csv_cons (c : ascii) (s : string) :
  Re.lazy_group_csv (String c s) =
  if Str.starts_with ".csv" (String c s) then Some EmptyString
  else if Re.dot c
       then match Re.lazy_group_csv s with
            | Some g => Some (String c g)
            | None => None
            end
       else None.
Proof. reflexivity. Qed.

Lemma lazy_group_csv_exact (key tail : string) :
  Str.mem "010" key = false -> Str.contains ".csv" key = false ->
  Re.lazy_group_csv (key +:+ ".csv" +:+ tail) = Some key.
Proof.
  induction key as [|c key IH]; intros Hnl Hc.
  - reflexivity.
  - assert (Hp : Str.starts_with ".csv" (String c key +:+ ".csv" +:+ tail) = false)
      by (apply csv_no_overlap; [discriminate | exact Hc]).
    apply contains_cons_false in Hc as [_ Hc].
    simpl in Hnl. apply orb_false_iff in Hnl as [Hc0 Hnl].
    change (String c key +:+ ".csv" +:+ tail)
      with (String c (key +:+ ".csv" +:+ tail)) in *.
    rewrite lazy_group_csv_cons, Hp. unfold Re.dot. rewrite Hc0.
    cbn [negb]. now rewrite IH.
Qed.

(** The lazy group succeeds whenever [.csv] follows a text without newline... *)
Lemma lazy_group_csv_some (mid tail : string) :
  Str.mem "010" mid = false ->
  exists g, Re.lazy_group_csv (mid +:+ ".csv" +:+ tail) = Some g.
Proof.
  induction mid as [|c mid IH]; intros Hnl.
  - now exists EmptyString.
  - simpl in Hnl. apply orb_false_iff in Hnl as [Hc0 Hnl].
    destruct (IH Hnl) as [g Hg].
    change (String c mid +:+ ".csv" +:+ tail)
      with (String c (mid +:+ ".csv" +:+ tail)).
    rewrite lazy_group_csv_cons.
    destruct (Str.starts_with _ _); [now eexists |].
    unfold Re.dot. rewrite Hc0. cbn [negb]. rewrite Hg. now eexists.
Qed.

(** ... and what it captures is such a text. *)
Lemma lazy_group_csv_inv (s g : string) :
  Re.lazy_group_csv s = Some g ->
  Str.mem "010" g = false /\ exists tail, s = g +:+ ".csv" +:+ tail.
Proof.
  revert g. induction s as [|c s IH]; intros g H.
  - discriminate.
  - rewrite lazy_group_csv_cons in H.
    destruct (Str.starts_with ".csv" (String c s)) eqn:Hp.
    + injection H as <-. split; [reflexivity |]. now apply prefix_inv in Hp.
    + unfold Re.dot in H. destruct (Ascii.eqb c "010") eqn:Hc; [discriminate |].
      cbn [negb] in H. destruct (Re.lazy_group_csv s) as [g'|]; [| discriminate].
      injection H as <-. destruct (IH g' eq_refl) as [Hnl [tail ->]].
      split; [simpl; now rewrite Hc | now exists tail].
Qed.

Lemma search_of_match (s g : string) :
  Re.match_here s = Some g -> Re.search s = Some g.
Proof. intros H. destruct s; simpl in *; now rewrite H. Qed.

Lemma search_cons (c : ascii) (s : string) :
  Re.search (String c s) =
  match Re.match_here (String c s) with
  | Some g => Some g
  | None => Re.search s
  end.
Proof. reflexivity. Qed.

Lemma search_form (d : ascii) (key : string) :
  Re.digit d = true ->
  Str.mem "010" key = false -> Str.contains ".csv" key = false ->
  Re.search (String d ("_" +:+ key +:+ ".csv")) = Some key.
Proof.
  intros Hd Hnl Hc. apply search_of_match.
  change ("_" +:+ key +:+ ".csv") with (String "_" (key +:+ ".csv")).
  unfold Re.match_here. rewrite Hd. cbn [andb Ascii.eqb Bool.eqb].
  rewrite <- (append_nil_r ".csv"). now apply lazy_group_csv_exact.
Qed.

Lemma match_here_inv (s g : string) :
  Re.match_here s = Some g ->
  exists d post, Re.digit d = true /\ Str.mem "010" g = false /\
                 s = String d ("_" +:+ g +:+ ".csv" +:+ post).
Proof.
  destruct s as [|d [|u rest]]; try discriminate. unfold Re.match_here.
  destruct (Re.digit d) eqn:Hd; [| discriminate].
  destruct (Ascii.eqb u "_") eqn:Hu; [| discriminate]. cbn [andb]. intros H.
  apply Ascii.eqb_eq in Hu as ->.
  apply lazy_group_csv_inv in H as [Hnl [post ->]].
  now exists d, post.
Qed.

Lemma search_some_occurs (s g : string) :
  Re.search s = Some g -> pattern_occurs s.
Proof.
  induction s as [|c s IH].
  - discriminate.
  - rewrite search_cons. destruct (Re.match_here (String c s)) as [g'|] eqn:Hm.
    + intros _. apply match_here_inv in Hm as (d & post & Hd & Hnl & ->).
      now exists EmptyString, d, g', post.
    + intros H. destruct (IH H) as (pre & d & mid & post & Hd & Hnl & ->).
      now exists (String c pre), d, mid, post.
Qed.

Lemma occurs_search_some (s : string) :
  pattern_occurs s -> exists g, Re.search s = Some g.
Proof.
  intros (pre & d & mid & post & Hd & Hnl & ->).
  induction pre as [|c pre IH].
  - destruct (lazy_group_csv_some mid post Hnl) as [g Hg].
    exists g. apply search_of_match.
    change (EmptyString +:+ String d ("_" +:+ mid +:+ ".csv" +:+ post))
      with (String d (String "_" (mid +:+ ".csv" +:+ post))).
    unfold Re.match_here. rewrite Hd. cbn [andb Ascii.eqb Bool.eqb]. exact Hg.
  - change (String c pre +:+ String d ("_" +:+ mid +:+ ".csv" +:+ post))
      with (String c (pre +:+ String d ("_" +:+ mid +:+ ".csv" +:+ post))).
    rewrite search_cons. destruct (Re.match_here _); [now eexists | exact IH].
Qed.

Lemma search_none_iff (s : string) :
  Re.search s = None <-> ~ pattern_occurs s.
Proof.
  split.
  - intros H Ho. destruct (occurs_search_some s Ho) as [g Hg]. congruence.
  - intros H. destruct (Re.search s) as [g|] eqn:Hs; [| reflexivity].
    exfalso. apply H. now apply search_some_occurs in Hs.
Qed.

(** ** Directory entries *)

Lemma string_eqb_false (a b : string) : a <> b -> String.eqb a b = false.
Proof. intros H. now apply String.eqb_neq. Qed.

Lemma entries_get_set_same (name : string) (x : node) es :
  Entries.get name (Entries.set name x es) = Some x.
Proof.
  induction es as [|[n y] es IH]; simpl.
  - now rewrite String.eqb_refl.
  - destruct (String.eqb n name) eqn:Hn; simpl; rewrite Hn; [reflexivity | exact IH].
Qed.

Lemma entries_get_set_ne (a b : string) (x : node) es :
  a <> b -> Entries.get b (Entries.set a x es) = Entries.get b es.
Proof.
  intros Hab. induction es as [|[n y] es IH]; simpl.
  - destruct (String.eqb a b) eqn:Hn; [| reflexivity].
    apply String.eqb_eq in Hn. congruence.
  - destruct (String.eqb n a) eqn:Hn; simpl.
    + apply String.eqb_eq in Hn as ->.
      now rewrite (string_eqb_false a b Hab).
    + now rewrite IH.
Qed.

Lemma entries_get_remove_same (name : string) es :
  Entries.get name (Entries.remove name es) = None.
Proof.
  unfold Entries.remove.
  induction es as [|[n y] es IH]; simpl; [reflexivity |].
  destruct (String.eqb n name) eqn:Hn; simpl; [exact IH |].
  now rewrite Hn.
Qed.

Lemma entries_get_remove_ne (a b : string) es :
  a <> b -> Entries.get b (Entries.remove a es) = Entries.get b es.
Proof.
  intros Hab. unfold Entries.remove.
  induction es as [|[n y] es IH]; simpl; [reflexivity |].
  destruct (String.eqb n a) eqn:Hn; simpl.
  - apply String.eqb_eq in Hn as ->.
    now rewrite (string_eqb_false a b Hab).
  - now rewrite IH.
Qed.

Lemma entries_get_put_same (name : string) (o : option node) es :
  Entries.get name (Entries.put name o es) = o.
Proof.
  destruct o; simpl; [apply entries_get_set_same | apply entries_get_remove_same].
Qed.

Lemma entries_get_put_ne (a b : string) (o : option node) es :
  a <> b -> Entries.get b (Entries.put a o es) = Entries.get b es.
Proof.
  destruct o; simpl; [apply entries_get_set_ne | apply entries_get_remove_ne].
Qed.

Lemma entries_get_none (name : string) es :
  Entries.get name es = None <-> ~ In name (Entries.names es).
Proof.
  induction es as [|[n y] es IH]; simpl.
  - tauto.
  - destruct (String.eqb n name) eqn:Hn.
    + apply String.eqb_eq in Hn. split; [discriminate | tauto].
    + apply String.eqb_neq in Hn. rewrite IH. tauto.
Qed.

Lemma entries_get_in (name : string) (x : node) es :
  List.NoDup (Entries.names es) -> In (name, x) es ->
  Entries.get name es = Some x.
Proof.
  induction es as [|[n y] es IH]; simpl; intros Hnd Hin; [contradiction |].
  apply NoDup_cons_iff in Hnd as [Hn Hnd].
  destruct Hin as [[= -> ->]|Hin].
  - now rewrite String.eqb_refl.
  - destruct (String.eqb n name) eqn:Hq; [| now apply IH].
    apply String.eqb_eq in Hq as ->. exfalso. apply Hn.
    change name with (fst (name, x)). now apply in_map.
Qed.

Lemma entries_get_some_in (name : string) (x : node) es :
  Entries.get name es = Some x -> In (name, x) es.
Proof.
  induction es as [|[n y] es IH]; simpl; [discriminate |].
  destruct (String.eqb n name) eqn:Hq.
  - apply String.eqb_eq in Hq as ->. intros [= ->]. now left.
  - intros H. right. now apply IH.
Qed.

Lemma entries_set_fresh (name : string) (x : node) es :
  Entries.get name es = None -> Entries.set name x es = es ++ [(name, x)].
Proof.
  induction es as [|[n y] es IH]; simpl; [reflexivity |].
  destruct (String.eqb n name); [discriminate |].
  intros H. now rewrite IH.
Qed.

Lemma entries_remove_absent (name : string) es :
  Entries.get name es = None -> Entries.remove name es = es.
Proof.
  unfold Entries.remove.
  induction es as [|[n y] es IH]; simpl; [reflexivity |].
  destruct (String.eqb n name); [discriminate |].
  simpl. intros H. now rewrite IH.
Qed.

(** ** Walking and changing the tree *)

#[local] Arguments Entries.put : simpl never.

Lemma get_none (p : path) : Fs.get p None = None.
Proof. now destruct p. Qed.

Lemma get_app (p q : path) (o : option node) :
  Fs.get (p ++ q) o = Fs.get q (Fs.get p o).
Proof.
  revert o. induction p as [|c p IH]; intros o; simpl; [reflexivity |].
  destruct o as [[|es]|]; try (now rewrite get_none). apply IH.
Qed.

(** A change below a directory that exists rewrites one entry of it. *)
Lemma update_child (mk : bool) (D : path) (name : string)
    (f : option node -> result (option node)) (o : option node) es :
  Fs.get D o = Some (Dir es) ->
  match f (Entries.get name es) with
  | Ok r =>
      exists t, Fs.update mk (D ++ [name]) f o = Ok (Some t) /\
                Fs.get D (Some t) = Some (Dir (Entries.put name r es))
  | Raise e => Fs.update mk (D ++ [name]) f o = Raise e
  end.
Proof.
  revert o. induction D as [|c D IH]; intros o HD; simpl in HD.
  - subst o. simpl. destruct (f (Entries.get name es)); [| reflexivity].
    eexists. split; reflexivity.
  - destruct o as [[|es0]|]; try discriminate.
    specialize (IH _ HD). simpl.
    destruct (f (Entries.get name es)) as [r|e].
    + destruct IH as (t & -> & Ht). eexists. split; [reflexivity |].
      simpl. now rewrite entries_get_put_same.
    + now rewrite IH.
Qed.

(** What a change leaves alone: every path that parts ways with it. *)
Lemma update_frame (mk : bool) (p q : path)
    (f : option node -> result (option node)) (o o' : option node) :
  diverge p q -> Fs.update mk p f o = Ok o' -> Fs.get q o' = Fs.get q o.
Proof.
  intros (c & a & b & p' & q' & Hab & -> & ->). revert o o'.
  induction c as [|x c IH]; intros o o' H; simpl in *.
  - destruct o as [[|es]|]; try discriminate.
    + destruct (Fs.update mk p' f (Entries.get a es)); [| discriminate].
      injection H as <-. now rewrite entries_get_put_ne.
    + destruct mk; [| discriminate].
      destruct (Fs.update true p' f None); [| discriminate].
      injection H as <-. rewrite entries_get_put_ne by exact Hab.
      simpl. apply get_none.
  - destruct o as [[|es]|]; try discriminate.
    + destruct (Fs.update mk (c ++ a :: p') f (Entries.get x es)) eqn:Hu;
        [| discriminate].
      injection H as <-. rewrite entries_get_put_same. now apply IH.
    + destruct mk; [| discriminate].
      destruct (Fs.update true (c ++ a :: p') f None) eqn:Hu; [| discriminate].
      injection H as <-. rewrite entries_get_put_same.
      rewrite (IH _ _ Hu). apply get_none.
Qed.

Lemma diverge_siblings (R : path) (a b : string) (p q : path) :
  a <> b -> diverge (R ++ a :: p) (R ++ b :: q).
Proof. intros H. now exists R, a, b, p, q. Qed.

Lemma diverge_app (P r q : path) : diverge P q -> diverge (P ++ r) q.
Proof.
  intros (c & a & b & p' & q' & Hab & -> & ->).
  exists c, a, b, (p' ++ r), q'. rewrite <- app_assoc. now simpl.
Qed.

(** ** The monad *)

Lemma bind_run {A B} (m : M A) (k : A -> M B) (w : world) :
  (m ≫= k) w =
  match m w with
  | (Ok a, w') => k a w'
  | (Raise e, w') => (Raise e, w')
  end.
Proof. reflexivity. Qed.

Lemma bind_ok {A B} (m : M A) (k : A -> M B) (w w' : world) (a : A) :
  m w = (Ok a, w') -> (m ≫= k) w = k a w'.
Proof. intros H. now rewrite bind_run, H. Qed.

Lemma bind_raise {A B} (m : M A) (k : A -> M B) (w w' : world) (e : exn) :
  m w = (Raise e, w') -> (m ≫= k) w = (Raise e, w').
Proof. intros H. now rewrite bind_run, H. Qed.

Section Preserves.

Variable R : world -> world -> Prop.
Hypothesis R_refl : forall w, R w w.
Hypothesis R_trans : forall a b c, R a b -> R b c -> R a c.

Lemma preserves_ret {A} (a : A) : preserves R (ret a).
Proof. intros w. apply R_refl. Qed.

Lemma preserves_raise {A} (e : exn) : preserves R (@raise A e).
Proof. intros w. apply R_refl. Qed.

Lemma preserves_lift {A} (r : result A) : preserves R (lift r).
Proof. intros w. apply R_refl. Qed.

Lemma preserves_bind {A B} (m : M A) (k : A -> M B) :
  preserves R m -> (forall a, preserves R (k a)) -> preserves R (m ≫= k).
Proof.
  intros Hm Hk w. rewrite bind_run. specialize (Hm w).
  destruct (m w) as [[a|e] w']; simpl in *; [| exact Hm].
  eapply R_trans; [exact Hm | apply Hk].
Qed.

Lemma preserves_for_each {A} (l : list A) (body : A -> M unit) :
  (forall x, preserves R (body x)) -> preserves R (for_each l body).
Proof.
  intros Hb. induction l as [|x l IH]; simpl.
  - apply preserves_ret.
  - apply preserves_bind; [apply Hb | intros _; exact IH].
Qed.

Lemma preserves_map_each {A B} (l : list A) (f : A -> M B) :
  (forall x, preserves R (f x)) -> preserves R (map_each l f).
Proof.
  intros Hf. induction l as [|x l IH]; simpl.
  - apply preserves_ret.
  - apply preserves_bind; [apply Hf | intros y].
    apply preserves_bind; [exact IH | intros ys; apply preserves_ret].
Qed.

End Preserves.

Lemma same_store_refl (w : world) : same_store w w.
Proof. now split. Qed.

Lemma same_store_trans (a b c : world) :
  same_store a b -> same_store b c -> same_store a c.
Proof. intros [H1 H2] [H3 H4]. split; congruence. Qed.

Lemma same_outside_refl (P : path) (w : world) : same_outside P w w.
Proof. repeat split. Qed.

Lemma same_outside_trans (P : path) (a b c : world) :
  same_outside P a b -> same_outside P b c -> same_outside P a c.
Proof.
  intros (S1 & O1 & F1) (S2 & O2 & F2). split; [| split].
  - eapply same_store_trans; eassumption.
  - congruence.
  - intros q Hq. rewrite F2, F1; auto.
Qed.

(** ** The operations on files *)

Lemma change_same_outside (mk : bool) (P r : path)
    (f : option node -> result (option node)) :
  preserves (same_outside P) (change mk (P ++ r) f).
Proof.
  intros w. unfold change.
  destruct (Fs.update mk (P ++ r) f (Some (fs w))) as [[t|]|e] eqn:Hu; simpl;
    try apply same_outside_refl.
  repeat split. intros q Hq. simpl.
  eapply update_frame; [| exact Hu]. now apply diverge_app.
Qed.

Lemma write_file_same_outside (P r : path) (data : string) :
  preserves (same_outside P) (write_file (P ++ r) data).
Proof. apply change_same_outside. Qed.

Lemma mkdir_same_outside (P r : path) :
  preserves (same_outside P) (mkdir (P ++ r)).
Proof. apply change_same_outside. Qed.

Lemma copytree_same_outside (P r : path) es :
  preserves (same_outside P) (copytree es (P ++ r)).
Proof. apply change_same_outside. Qed.

Lemma rmtree_same_outside (P r : path) :
  preserves (same_outside P) (rmtree_ignore_errors (P ++ r)).
Proof.
  intros w. unfold rmtree_ignore_errors.
  pose proof (change_same_outside false P r
    (fun o => match o with
              | Some (Dir _) => Ok None
              | Some (File _) => Raise NotADirectoryError
              | None => Raise FileNotFoundError
              end) w) as H.
  destruct (change _ _ _ w) as [[u|e] w']; simpl in *;
    [exact H | apply same_outside_refl].
Qed.

Lemma copy_same_outside (P : path) (name data : string) :
  preserves (same_outside P) (copy name data P).
Proof.
  unfold copy. apply preserves_bind.
  - apply same_outside_trans.
  - intros w. apply same_outside_refl.
  - intros [[d|es]|].
    + rewrite <- (app_nil_r P) at 2. apply write_file_same_outside.
    + apply write_file_same_outside.
    + rewrite <- (app_nil_r P) at 2. apply write_file_same_outside.
Qed.

(** A change of one entry of a directory that exists. *)
Lemma change_child (mk : bool) (D : path) (name : string)
    (f : option node -> result (option node)) (w : world) es :
  Fs.get D (Some (fs w)) = Some (Dir es) ->
  match f (Entries.get name es) with
  | Ok r =>
      exists t, change mk (D ++ [name]) f w = (Ok tt, with_fs w t) /\
                Fs.get D (Some t) = Some (Dir (Entries.put name r es))
  | Raise e => change mk (D ++ [name]) f w = (Raise e, w)
  end.
Proof.
  intros HD. pose proof (update_child mk D name f _ es HD) as H.
  unfold change. destruct (f (Entries.get name es)) as [r|e].
  - destruct H as (t & -> & Ht). now exists t.
  - now rewrite H.
Qed.

(** [rmtree] then [mkdir]: a fresh empty directory, unless a regular file
    has the name. *)
Lemma reset_dir (R : path) (name : string) (w : world) es :
  Fs.get R (Some (fs w)) = Some (Dir es) ->
  (forall d, Entries.get name es <> Some (File d)) ->
  exists t,
    (rmtree_ignore_errors (R ++ [name]);; mkdir (R ++ [name])) w
      = (Ok tt, with_fs w t) /\
    Fs.get R (Some t)
      = Some (Dir (Entries.set name (Dir []) (Entries.remove name es))).
Proof.
  intros HR Hnf.
  pose proof (change_child false R name
    (fun o => match o with
              | Some (Dir _) => Ok None
              | Some (File _) => Raise NotADirectoryError
              | None => Raise FileNotFoundError
              end) w es HR) as Hrm.
  destruct (Entries.get name es) as [[d|sub]|] eqn:Hg.
  - now destruct (Hnf d).
  - destruct Hrm as (t1 & Hrm & Ht1).
    pose proof (change_child false R name
      (fun o => match o with
                | Some _ => Raise FileExistsError
                | None => Ok (Some (Dir []))
                end) (with_fs w t1) _ Ht1) as Hmk.
    rewrite entries_get_put_same in Hmk. destruct Hmk as (t2 & Hmk & Ht2).
    exists t2. split; [| exact Ht2].
    erewrite bind_ok; [exact Hmk |].
    unfold rmtree_ignore_errors. now rewrite Hrm.
  - pose proof (change_child false R name
      (fun o => match o with
                | Some _ => Raise FileExistsError
                | None => Ok (Some (Dir []))
                end) w es HR) as Hmk.
    rewrite Hg in Hmk. destruct Hmk as (t2 & Hmk & Ht2).
    exists t2. split.
    + erewrite bind_ok; [exact Hmk |].
      unfold rmtree_ignore_errors. now rewrite Hrm.
    + rewrite Ht2. unfold Entries.put. now rewrite entries_remove_absent.
Qed.

Lemma reset_dir_blocked (R : path) (name d : string) (w : world) es :
  Fs.get R (Some (fs w)) = Some (Dir es) ->
  Entries.get name es = Some (File d) ->
  (rmtree_ignore_errors (R ++ [name]);; mkdir (R ++ [name])) w
    = (Raise FileExistsError, w).
Proof.
  intros HR Hg.
  pose proof (change_child false R name
    (fun o => match o with
              | Some (Dir _) => Ok None
              | Some (File _) => Raise NotADirectoryError
              | None => Raise FileNotFoundError
              end) w es HR) as Hrm.
  pose proof (change_child false R name
    (fun o => match o with
              | Some _ => Raise FileExistsError
              | None => Ok (Some (Dir []))
              end) w es HR) as Hmk.
  rewrite Hg in Hrm, Hmk.
  erewrite bind_ok; [exact Hmk |].
  unfold rmtree_ignore_errors. now rewrite Hrm.
Qed.

Lemma entries_get_app_fresh (n name : string) (x : node) es :
  n <> name -> Entries.get n (es ++ [(name, x)]) = Entries.get n es.
Proof.
  intros Hn. induction es as [|[m y] es IH]; simpl.
  - destruct (String.eqb name n) eqn:Hq; [| reflexivity].
    apply String.eqb_eq in Hq. congruence.
  - now rewrite IH.
Qed.

(** ** The copy of the template directory *)

(** Each entry that is copied becomes a new last entry of the site
    directory, in the order of the listing. *)
Lemma copy_loop (E : env) (entries : list (string * node)) :
  List.NoDup (Entries.names entries) ->
  forall (w : world) ses,
    Fs.get (SITE_DIR E) (Some (fs w)) = Some (Dir ses) ->
    (forall n, In n (Entries.names entries) -> Entries.get n ses = None) ->
    exists t,
      for_each entries (copy_entry E) w = (Ok tt, with_fs w t) /\
      Fs.get (SITE_DIR E) (Some t)
        = Some (Dir (ses ++ List.filter copied entries)).
Proof.
  induction entries as [|[name x] entries IH]; intros Hnd w ses Hs Hfresh.
  - exists (fs w). simpl. rewrite app_nil_r. split; [now destruct w | exact Hs].
  - apply NoDup_cons_iff in Hnd as [Hname Hnd].
    assert (Hn : Entries.get name ses = None) by (apply Hfresh; now left).
    assert (Hstep : exists t1,
      copy_entry E (name, x) w = (Ok tt, with_fs w t1) /\
      Fs.get (SITE_DIR E) (Some t1)
        = Some (Dir (ses ++ List.filter copied [(name, x)]))).
    { unfold copy_entry, copied. simpl. destruct x as [data|sub].
      - destruct (negb (String.eqb name "template.html")
                  && negb (String.eqb name ".DS_Store")).
        + pose proof (change_child false (SITE_DIR E) name
            (fun o => match o with
                      | Some (Dir _) => Raise IsADirectoryError
                      | _ => Ok (Some (File data))
                      end) w ses Hs) as Hc.
          rewrite Hn in Hc. destruct Hc as (t1 & Hc & Ht1).
          exists t1. split.
          * unfold copy. erewrite bind_ok; [| unfold lookup_path; reflexivity].
            rewrite Hs. exact Hc.
          * rewrite Ht1. unfold Entries.put. now rewrite entries_set_fresh.
        + exists (fs w). rewrite app_nil_r. split; [now destruct w | exact Hs].
      - pose proof (change_child true (SITE_DIR E) name
          (fun o => match o with
                    | Some _ => Raise FileExistsError
                    | None => Ok (Some (Dir sub))
                    end) w ses Hs) as Hc.
        rewrite Hn in Hc. destruct Hc as (t1 & Hc & Ht1).
        exists t1. split; [exact Hc |].
        rewrite Ht1. unfold Entries.put. now rewrite entries_set_fresh. }
    destruct Hstep as (t1 & Hb & Ht1).
    destruct (IH Hnd (with_fs w t1) _ Ht1) as (t2 & Hrest & Ht2).
    { intros n Hin. assert (n <> name) by (intros ->; contradiction).
      simpl. destruct (copied (name, x)); simpl.
      - rewrite entries_get_app_fresh by assumption. apply Hfresh. now right.
      - rewrite app_nil_r. apply Hfresh. now right. }
    exists t2. split.
    + change (for_each ((name, x) :: entries) (copy_entry E))
        with (copy_entry E (name, x) ;; for_each entries (copy_entry E)).
      erewrite bind_ok; [exact Hrest | exact Hb].
    + rewrite Ht2, <- app_assoc. simpl.
      now destruct (copied (name, x)).
Qed.

Lemma seq_assoc {A} (m n : M unit) (k : M A) (w : world) :
  (m;; n;; k) w = ((m;; n);; k) w.
Proof.
  rewrite !bind_run. destruct (m w) as [[[]|e] w1]; [| reflexivity].
  now rewrite bind_run.
Qed.

(** ** What reads and never writes *)

Lemma eq_world_trans (a b c : world) : a = b -> b = c -> a = c.
Proof. congruence. Qed.

Ltac reads_only :=
  repeat first
    [ apply preserves_ret; reflexivity
    | apply preserves_raise; reflexivity
    | apply preserves_lift; reflexivity
    | apply preserves_bind; [exact eq_world_trans | | intros ?]
    | apply preserves_map_each; [reflexivity | exact eq_world_trans | intros ?]
    | progress (intros ?; reflexivity) ].

Lemma lookup_path_reads (p : path) : preserves eq (lookup_path p).
Proof. intros w. reflexivity. Qed.

Lemma iterdir_reads (p : path) : preserves eq (iterdir p).
Proof.
  intros w. unfold iterdir.
  now destruct (Fs.get p (Some (fs w))) as [[|]|].
Qed.

Lemma get_template_reads (E : env) (name : string) :
  preserves eq (get_template E name).
Proof.
  unfold get_template. apply preserves_bind;
    [exact eq_world_trans | apply lookup_path_reads | intros o].
  destruct o as [[|es]|]; [reads_only | | reads_only].
  destruct (Entries.get name es) as [[src|]|]; reads_only.
Qed.

Lemma read_list_reads (E : env) (csv_file : string * node) :
  preserves eq (read_list E csv_file).
Proof.
  unfold read_list, original_name_of, read_entry.
  apply preserves_bind; [exact eq_world_trans | | intros g].
  - destruct (Re.search (fst csv_file)); reads_only.
  - apply preserves_bind; [exact eq_world_trans | | intros text; reads_only].
    destruct (snd csv_file); reads_only.
Qed.

Lemma csv_files_reads (E : env) : preserves eq (csv_files E).
Proof.
  unfold csv_files. apply preserves_bind;
    [exact eq_world_trans | apply iterdir_reads | intros es; reads_only].
Qed.

Lemma collect_lists_reads (E : env) : preserves eq (collect_lists E).
Proof.
  unfold collect_lists. apply preserves_bind;
    [exact eq_world_trans | apply csv_files_reads | intros files].
  apply preserves_map_each;
    [reflexivity | exact eq_world_trans | apply read_list_reads].
Qed.

Lemma render_index_reads (E : env) : preserves eq (render_index E).
Proof.
  unfold render_index. apply preserves_bind;
    [exact eq_world_trans | apply get_template_reads | intros template].
  apply preserves_bind;
    [exact eq_world_trans | apply collect_lists_reads | intros lists; reads_only].
Qed.

Lemma reads_run {A} (m : M A) (w : world) :
  preserves eq m -> m w = (fst (m w), w).
Proof. intros H. rewrite (H w) at 3. now destruct (m w). Qed.

(** ** [generate_site] up to the rendering *)

(** Where the module is installed: [ROOT_DIR] is a directory with the
    entries [res]; [site] is not a regular file there; [template] is a
    directory with the entries [tes], no two of the same name. *)
Lemma site_prepared {A} (E : env) (k : M A) (w : world) res tes :
  Fs.get (ROOT_DIR E) (Some (fs w)) = Some (Dir res) ->
  (forall d, Entries.get "site" res <> Some (File d)) ->
  Entries.get "template" res = Some (Dir tes) ->
  List.NoDup (Entries.names tes) ->
  exists t,
    (rmtree_ignore_errors (SITE_DIR E);; mkdir (SITE_DIR E);;
     copy_template E;; k) w = k (with_fs w t) /\
    Fs.get (SITE_DIR E) (Some t) = Some (Dir (List.filter copied tes)).
Proof.
  intros Hroot Hsite Htpl Hnd.
  destruct (reset_dir (ROOT_DIR E) "site" w res Hroot Hsite) as (t0 & Hreset & Ht0).
  assert (Hs0 : Fs.get (SITE_DIR E) (Some t0) = Some (Dir [])).
  { unfold SITE_DIR. rewrite get_app, Ht0. simpl.
    now rewrite entries_get_set_same. }
  assert (Ht : Fs.get (TEMPLATE_DIR E) (Some t0) = Some (Dir tes)).
  { unfold TEMPLATE_DIR. rewrite get_app, Ht0. simpl.
    rewrite entries_get_set_ne by discriminate.
    rewrite entries_get_remove_ne by discriminate. now rewrite Htpl. }
  destruct (copy_loop E tes Hnd (with_fs w t0) [] Hs0) as (t1 & Hloop & Ht1).
  { intros n _. reflexivity. }
  exists t1. split; [| exact Ht1].
  rewrite seq_assoc. erewrite bind_ok; [| exact Hreset].
  erewrite bind_ok; [reflexivity |].
  unfold copy_template. erewrite bind_ok; [exact Hloop |].
  unfold iterdir. simpl. now rewrite Ht.
Qed.

Lemma entries_names_filter (f : string * node -> bool) es :
  List.NoDup (Entries.names es) -> List.NoDup (Entries.names (List.filter f es)).
Proof.
  induction es as [|[n x] es IH]; simpl; intros H; [constructor |].
  apply NoDup_cons_iff in H as [Hn H].
  destruct (f (n, x)); simpl; [| now apply IH].
  constructor; [| now apply IH].
  intros Hin. apply Hn. unfold Entries.names in *.
  apply in_map_iff in Hin as (e & <- & He). apply filter_In in He as [He _].
  now apply in_map.
Qed.

(** Writing [index.html] leaves every directory of the site in place. *)
Lemma write_index_keeps_directories (E : env) (w : world) ses name sub :
  Fs.get (SITE_DIR E) (Some (fs w)) = Some (Dir ses) ->
  Entries.get name ses = Some (Dir sub) ->
  Fs.get (SITE_DIR E ++ [name])
    (Some (fs (snd ((output ← render_index E;
                     write_file (SITE_DIR E ++ ["index.html"]) output) w))))
  = Some (Dir sub).
Proof.
  intros Hs Hn.
  assert (Hkeep : Fs.get (SITE_DIR E ++ [name]) (Some (fs w)) = Some (Dir sub))
    by (rewrite get_app, Hs; simpl; now rewrite Hn).
  rewrite bind_run, (reads_run _ w (render_index_reads E)).
  destruct (fst (render_index E w)) as [output|e]; [| exact Hkeep].
  pose proof (change_child false (SITE_DIR E) "index.html"
    (fun o => match o with
              | Some (Dir _) => Raise IsADirectoryError
              | _ => Ok (Some (File output))
              end) w ses Hs) as Hc.
  unfold write_file.
  destruct (String.eqb "index.html" name) eqn:Hq.
  - apply String.eqb_eq in Hq as <-. rewrite Hn in Hc. now rewrite Hc.
  - apply String.eqb_neq in Hq.
    destruct (Entries.get "index.html" ses) as [[d|sub']|].
    + destruct Hc as (t & -> & Ht). simpl. rewrite get_app, Ht. simpl.
      rewrite entries_get_put_ne by exact Hq. now rewrite Hn.
    + now rewrite Hc.
    + destruct Hc as (t & -> & Ht). simpl. rewrite get_app, Ht. simpl.
      rewrite entries_get_put_ne by exact Hq. now rewrite Hn.
Qed.

(** C10.  The exclusion of [template.html] and [.DS_Store] in
    [generate_site] is on the branch of the entries that are not
    directories.  Every entry of the template directory that is a directory
    is in the site directory after the run, with all it holds, whatever its
    name ([template.html] and [.DS_Store] included) and whether or not the
    run then goes on to write [index.html]. *)
Theorem template_directory_copied_whatever_its_name
    (E : env) (w : world) res tes (name : string) sub :
  Fs.get (ROOT_DIR E) (Some (fs w)) = Some (Dir res) ->
  (forall d, Entries.get "site" res <> Some (File d)) ->
  Entries.get "template" res = Some (Dir tes) ->
  List.NoDup (Entries.names tes) ->
  In (name, Dir sub) tes ->
  Fs.get (SITE_DIR E ++ [name]) (Some (fs (snd (generate_site E w))))
  = Some (Dir sub).
Proof.
  intros Hroot Hsite Htpl Hnd Hin. unfold generate_site.
  destruct (site_prepared E
              (output ← render_index E;
               write_file (SITE_DIR E ++ ["index.html"]) output)
              w res tes Hroot Hsite Htpl Hnd) as (t & -> & Ht).
  apply write_index_keeps_directories with (ses := List.filter copied tes).
  - exact Ht.
  - apply entries_get_in; [now apply entries_names_filter |].
    apply filter_In. split; [exact Hin | reflexivity].
Qed.

(** ** Sorting the paths *)

Lemma name_le_trans (a b c : string * node) :
  name_le a b -> name_le b c -> name_le a c.
Proof. unfold name_le. intros H1 H2. now transitivity (fst b). Qed.

Lemma insert_sorted_perm (x : string * node) l :
  Permutation (insert_sorted x l) (x :: l).
Proof.
  induction l as [|y l IH]; simpl; [reflexivity |].
  destruct (String.leb (fst x) (fst y)); [reflexivity |].
  rewrite IH. apply perm_swap.
Qed.

Lemma sort_perm l : Permutation (sort l) l.
Proof.
  induction l as [|x l IH]; simpl; [reflexivity |].
  rewrite insert_sorted_perm. now constructor.
Qed.

Lemma insert_sorted_sorted (x : string * node) l :
  StronglySorted name_le l -> StronglySorted name_le (insert_sorted x l).
Proof.
  induction l as [|y l IH]; simpl; intros Hs.
  - repeat constructor.
  - apply StronglySorted_inv in Hs as [Hs Hy].
    destruct (String.leb (fst x) (fst y)) eqn:Hxy.
    + assert (Hle : name_le x y) by (now apply Is_true_true).
      constructor; [now constructor |].
      constructor; [exact Hle |].
      eapply List.Forall_impl; [| exact Hy]. intros z Hz.
      eapply name_le_trans; eassumption.
    + assert (Hle : name_le y x).
      { destruct (total String.le (fst x) (fst y)) as [H|H]; [| exact H].
        apply Is_true_true in H. congruence. }
      constructor; [now apply IH |].
      eapply Permutation_Forall; [symmetry; apply insert_sorted_perm |].
      now constructor.
Qed.

Lemma sort_sorted l : StronglySorted name_le (sort l).
Proof.
  induction l as [|x l IH]; simpl; [constructor | now apply insert_sorted_sorted].
Qed.

(** Two sorted listings of the same entries are the same list when no name
    occurs twice. *)
Lemma sorted_perm_unique (l1 l2 : list (string * node)) :
  StronglySorted name_le l1 -> StronglySorted name_le l2 ->
  Permutation l1 l2 -> List.NoDup (Entries.names l1) -> l1 = l2.
Proof.
  revert l2. induction l1 as [|x l1 IH]; intros l2 S1 S2 Hp Hnd.
  - apply Permutation_nil in Hp. now subst.
  - destruct l2 as [|y l2];
      [apply Permutation_sym, Permutation_nil in Hp; discriminate |].
    apply StronglySorted_inv in S1 as [S1 Hx].
    apply StronglySorted_inv in S2 as [S2 Hy].
    simpl in Hnd. apply NoDup_cons_iff in Hnd as [Hxn Hnd].
    assert (Hxy : x = y).
    { assert (Hin1 : In x (y :: l2))
        by (eapply Permutation_in; [exact Hp | now left]).
      assert (Hin2 : In y (x :: l1))
        by (eapply Permutation_in; [symmetry; exact Hp | now left]).
      destruct Hin1 as [->|Hin1]; [reflexivity |].
      destruct Hin2 as [->|Hin2]; [reflexivity |].
      rewrite List.Forall_forall in Hx, Hy.
      pose proof (Hx _ Hin2) as Hle1. pose proof (Hy _ Hin1) as Hle2.
      unfold name_le in *.
      assert (Heq : fst x = fst y) by (now apply (anti_symm String.le)).
      exfalso. apply Hxn. rewrite Heq. now apply in_map. }
    subst y. f_equal. apply IH; try assumption.
    now apply Permutation_cons_inv in Hp.
Qed.

Lemma sort_permutation_invariant (l1 l2 : list (string * node)) :
  Permutation l1 l2 -> List.NoDup (Entries.names l1) -> sort l1 = sort l2.
Proof.
  intros Hp Hnd. apply sorted_perm_unique; try apply sort_sorted.
  - now rewrite !sort_perm.
  - eapply Permutation_NoDup; [| exact Hnd].
    unfold Entries.names. apply Permutation_map. symmetry. apply sort_perm.
Qed.

Lemma filter_permutation {A} (f : A -> bool) (l1 l2 : list A) :
  Permutation l1 l2 -> Permutation (List.filter f l1) (List.filter f l2).
Proof.
  induction 1 as [|x l l' _ IH|x y l|l l' l'' _ IH1 _ IH2]; simpl.
  - reflexivity.
  - destruct (f x); [now constructor | exact IH].
  - destruct (f x), (f y); try reflexivity. apply perm_swap.
  - now transitivity (List.filter f l').
Qed.

(** ** Taking a run apart *)

Lemma bind_ok_inv {A B} (m : M A) (k : A -> M B) (w w' : world) (b : B) :
  (m ≫= k) w = (Ok b, w') ->
  exists a w1, m w = (Ok a, w1) /\ k a w1 = (Ok b, w').
Proof.
  rewrite bind_run. destruct (m w) as [[a|e] w1]; [| discriminate].
  intros H. now exists a, w1.
Qed.

Lemma preserves_of_reads {A} (R : world -> world -> Prop) (m : M A) :
  (forall w, R w w) -> preserves eq m -> preserves R m.
Proof. intros Hr Hm w. rewrite <- (Hm w). apply Hr. Qed.

Lemma update_get_same (mk : bool) (p : path)
    (f : option node -> result (option node)) (o o' : option node) :
  Fs.update mk p f o = Ok o' ->
  exists r, f (Fs.get p o) = Ok r /\ Fs.get p o' = r.
Proof.
  revert o o'. induction p as [|c p IH]; intros o o' H; simpl in *.
  - now exists o'.
  - destruct o as [[|es]|]; try discriminate.
    + destruct (Fs.update mk p f (Entries.get c es)) as [r0|] eqn:Hu;
        [| discriminate].
      injection H as <-. destruct (IH _ _ Hu) as (r & Hf & Hr).
      exists r. split; [exact Hf |]. now rewrite entries_get_put_same.
    + destruct mk; [| discriminate].
      destruct (Fs.update true p f None) as [r0|] eqn:Hu; [| discriminate].
      injection H as <-. destruct (IH _ _ Hu) as (r & Hf & Hr).
      exists r. rewrite get_none in Hf. split; [exact Hf |].
      now rewrite entries_get_put_same.
Qed.

Lemma write_file_ok (p : path) (data : string) (w w' : world) :
  write_file p data w = (Ok tt, w') ->
  Fs.get p (Some (fs w')) = Some (File data).
Proof.
  unfold write_file, change.
  destruct (Fs.update _ _ _ _) as [[t|]|e] eqn:Hu; try discriminate.
  - intros [= <-]. apply update_get_same in Hu as (r & Hf & Hr).
    simpl. rewrite Hr.
    destruct (Fs.get p (Some (fs w))) as [[|]|]; congruence.
  - intros [= <-]. apply update_get_same in Hu as (r & Hf & Hr).
    rewrite get_none in Hr. subst r.
    destruct (Fs.get p (Some (fs w))) as [[|]|]; discriminate.
Qed.

Lemma map_each_ok_inv {A B} (f : A -> M B) (l : list A) (w w' : world) ys :
  (forall x, preserves eq (f x)) ->
  map_each l f w = (Ok ys, w') ->
  w' = w /\ Forall2 (fun x y => fst (f x w) = Ok y) l ys.
Proof.
  intros Hf. revert ys. induction l as [|x l IH]; intros ys; simpl.
  - intros [= <- <-]. split; [reflexivity | constructor].
  - intros H. apply bind_ok_inv in H as (y & w1 & Hx & H).
    apply bind_ok_inv in H as (ys' & w2 & Hl & H).
    injection H as <- <-.
    assert (w1 = w) by (rewrite (Hf x w), Hx; reflexivity). subst w1.
    destruct (IH _ Hl) as [-> HF]. split; [reflexivity |].
    constructor; [now rewrite Hx | exact HF].
Qed.

Lemma read_list_ok_inv (E : env) (csv_file : string * node) (w : world) c :
  fst (read_list E csv_file w) = Ok c -> listed_as E csv_file c.
Proof.
  unfold read_list, original_name_of, read_entry.
  rewrite bind_run. destruct (Re.search (fst csv_file)) as [key|] eqn:Hs;
    [| discriminate].
  simpl. rewrite bind_run. destruct (snd csv_file) as [text|] eqn:Hx;
    [| discriminate].
  simpl. rewrite bind_run. unfold lift.
  destruct (csv_DictReader E text) as [rows|] eqn:Hr; [| discriminate].
  simpl. intros [= <-]. now exists key, text, rows.
Qed.

(** The lists of a run that made them: the [.csv] entries of the data
    directory in ascending order of their names, each read in turn. *)
Lemma collect_lists_ok_inv (E : env) (w w' : world) ddir cats :
  Fs.get (DATA_DIR E) (Some (fs w)) = Some (Dir ddir) ->
  collect_lists E w = (Ok cats, w') ->
  Forall2 (listed_as E) (sort (List.filter is_csv ddir)) cats.
Proof.
  intros Hd H. unfold collect_lists in H.
  apply bind_ok_inv in H as (files & w1 & Hfiles & H).
  unfold csv_files in Hfiles. apply bind_ok_inv in Hfiles as (es & w2 & Hes & Hf).
  unfold iterdir in Hes. rewrite Hd in Hes. injection Hes as <- <-.
  injection Hf as <- <-.
  apply map_each_ok_inv in H as [_ H]; [| apply read_list_reads].
  eapply Forall2_impl; [exact H |].
  intros f c Hc. eapply read_list_ok_inv. exact Hc.
Qed.

Lemma get_template_ok_inv (E : env) (name : string) (w w' : world) tdir src :
  get_template E name w = (Ok (tdir, src), w') ->
  Fs.get (TEMPLATE_DIR E) (Some (fs w)) = Some tdir /\
  Fs.get [name] (Some tdir) = Some (File src).
Proof.
  unfold get_template. rewrite bind_run. unfold lookup_path.
  destruct (Fs.get (TEMPLATE_DIR E) (Some (fs w))) as [[|es]|]; try discriminate.
  destruct (Entries.get name es) as [[src'|]|] eqn:Hg; try discriminate.
  rewrite bind_run. unfold lift.
  destruct (jinja2_compile E (Dir es) src'); [| discriminate].
  intros [= <- <- <-]. split; [reflexivity |]. simpl. now rewrite Hg.
Qed.

Lemma render_index_ok_inv (E : env) (w w' : world) ddir html :
  Fs.get (DATA_DIR E) (Some (fs w)) = Some (Dir ddir) ->
  render_index E w = (Ok html, w') ->
  w' = w /\
  exists tdir src cats,
    Fs.get (TEMPLATE_DIR E) (Some (fs w)) = Some tdir /\
    Fs.get ["template.html"] (Some tdir) = Some (File src) /\
    Forall2 (listed_as E) (sort (List.filter is_csv ddir)) cats /\
    jinja2_render E tdir src cats INTRO_TEXT (strftime_B_d_Y (now E))
      META_CONTENT = Ok html.
Proof.
  intros Hd H.
  assert (Hw : w' = w).
  { pose proof (render_index_reads E w) as Hr. rewrite H in Hr. now symmetry. }
  split; [exact Hw |]. subst w'. unfold render_index in H.
  apply bind_ok_inv in H as ([tdir src] & w1 & Ht & H).
  assert (w1 = w).
  { pose proof (get_template_reads E "template.html" w) as Hr.
    rewrite Ht in Hr. now symmetry. }
  subst w1. apply bind_ok_inv in H as (cats & w2 & Hc & H).
  apply get_template_ok_inv in Ht as [Ht Hsrc].
  exists tdir, src, cats. repeat split; try assumption.
  - eapply collect_lists_ok_inv; eassumption.
  - unfold lift in H. simpl in H. congruence.
Qed.

(** [generate_site] writes below [site] and nowhere else. *)
Lemma copy_template_same_outside (E : env) :
  preserves (same_outside (SITE_DIR E)) (copy_template E).
Proof.
  unfold copy_template. apply preserves_bind.
  - apply same_outside_trans.
  - apply preserves_of_reads; [apply same_outside_refl | apply iterdir_reads].
  - intros entries. apply preserves_for_each.
    + apply same_outside_refl.
    + apply same_outside_trans.
    + intros [name [data|sub]]; unfold copy_entry; simpl.
      * destruct (_ && _).
        -- apply copy_same_outside.
        -- apply preserves_ret, same_outside_refl.
      * apply copytree_same_outside.
Qed.

Lemma generate_site_same_outside (E : env) :
  preserves (same_outside (SITE_DIR E)) (generate_site E).
Proof.
  unfold generate_site.
  apply preserves_bind; [apply same_outside_trans | | intros _].
  { rewrite <- (app_nil_r (SITE_DIR E)) at 2. apply rmtree_same_outside. }
  apply preserves_bind; [apply same_outside_trans | | intros _].
  { rewrite <- (app_nil_r (SITE_DIR E)) at 2. apply mkdir_same_outside. }
  apply preserves_bind; [apply same_outside_trans | | intros _].
  { apply copy_template_same_outside. }
  apply preserves_bind; [apply same_outside_trans | | intros output].
  { apply preserves_of_reads; [apply same_outside_refl | apply render_index_reads]. }
  apply write_file_same_outside.
Qed.

Lemma site_data_diverge (E : env) (q : path) :
  diverge (SITE_DIR E) (DATA_DIR E ++ q).
Proof.
  unfold SITE_DIR, DATA_DIR. rewrite <- app_assoc. simpl.
  now apply diverge_siblings.
Qed.

Lemma site_template_diverge (E : env) (q : path) :
  diverge (SITE_DIR E) (TEMPLATE_DIR E ++ q).
Proof.
  unfold SITE_DIR, TEMPLATE_DIR. rewrite <- app_assoc. simpl.
  now apply diverge_siblings.
Qed.

(** A run of [generate_site] that returns: the page is the rendering of the
    lists made of the data directory as it was found. *)
Lemma generate_site_ok_inv (E : env) (w w' : world) ddir :
  Fs.get (DATA_DIR E) (Some (fs w)) = Some (Dir ddir) ->
  generate_site E w = (Ok tt, w') ->
  exists tdir src cats html,
    Fs.get (TEMPLATE_DIR E) (Some (fs w)) = Some tdir /\
    Fs.get ["template.html"] (Some tdir) = Some (File src) /\
    Forall2 (listed_as E) (sort (List.filter is_csv ddir)) cats /\
    jinja2_render E tdir src cats INTRO_TEXT (strftime_B_d_Y (now E))
      META_CONTENT = Ok html /\
    Fs.get (SITE_DIR E ++ ["index.html"]) (Some (fs w')) = Some (File html).
Proof.
  intros Hd H. unfold generate_site in H.
  apply bind_ok_inv in H as ([] & w1 & H1 & H).
  apply bind_ok_inv in H as ([] & w2 & H2 & H).
  apply bind_ok_inv in H as ([] & w3 & H3 & H).
  apply bind_ok_inv in H as (html & w4 & H4 & H).
  assert (Hsame : forall q, diverge (SITE_DIR E) q ->
                            Fs.get q (Some (fs w3)) = Fs.get q (Some (fs w))).
  { pose proof (rmtree_same_outside (SITE_DIR E) [] w) as (_ & _ & F1).
    pose proof (mkdir_same_outside (SITE_DIR E) [] w1) as (_ & _ & F2).
    pose proof (copy_template_same_outside E w2) as (_ & _ & F3).
    rewrite app_nil_r in F1, F2. rewrite H1 in F1. rewrite H2 in F2.
    rewrite H3 in F3. simpl in F1, F2, F3.
    intros q Hq. now rewrite F3, F2, F1. }
  assert (Hd3 : Fs.get (DATA_DIR E) (Some (fs w3)) = Some (Dir ddir)).
  { rewrite <- Hd. pose proof (site_data_diverge E []) as Hdv.
    rewrite app_nil_r in Hdv. now apply Hsame. }
  destruct (render_index_ok_inv E w3 w4 ddir html Hd3 H4)
    as (-> & tdir & src & cats & Ht & Hsrc & Hc & Hr).
  exists tdir, src, cats, html. repeat split; try assumption.
  - rewrite <- Ht. symmetry. pose proof (site_template_diverge E []) as Hdv.
    rewrite app_nil_r in Hdv. now apply Hsame.
  - eapply write_file_ok. exact H.
Qed.

Lemma listed_as_functional (E : env) (f : string * node) (c c' : category) :
  listed_as E f c -> listed_as E f c' -> c = c'.
Proof.
  intros (k & t & r & Hk & Ht & Hr & ->) (k' & t' & r' & Hk' & Ht' & Hr' & ->).
  rewrite Hk in Hk'. injection Hk' as <-. rewrite Ht in Ht'. injection Ht' as <-.
  rewrite Hr in Hr'. now injection Hr' as <-.
Qed.

Lemma listed_as_all_functional (E : env) files (cats cats' : list category) :
  Forall2 (listed_as E) files cats -> Forall2 (listed_as E) files cats' ->
  cats = cats'.
Proof.
  intros H. revert cats'. induction H as [|f c files cats Hc _ IH]; intros cats' H'.
  - now inversion H'.
  - inversion H' as [|? c' ? cats'' Hc' H'']; subst. f_equal.
    + eapply listed_as_functional; eassumption.
    + now apply IH.
Qed.


(** C9.  Two runs of [generate_site] with the same clock and collaborators,
    over the same template directory and over data directories that hold the
    same files (listed in whatever order), write the same [index.html], byte
    for byte; the date stamp is the same too, the clock being fixed. *)
Theorem rendering_is_deterministic
    (E : env) (w1 w2 w1' w2' : world) d1 d2 :
  Fs.get (TEMPLATE_DIR E) (Some (fs w1)) = Fs.get (TEMPLATE_DIR E) (Some (fs w2)) ->
  Fs.get (DATA_DIR E) (Some (fs w1)) = Some (Dir d1) ->
  Fs.get (DATA_DIR E) (Some (fs w2)) = Some (Dir d2) ->
  Permutation d1 d2 ->
  List.NoDup (Entries.names d1) ->
  generate_site E w1 = (Ok tt, w1') ->
  generate_site E w2 = (Ok tt, w2') ->
  exists html,
    Fs.get (SITE_DIR E ++ ["index.html"]) (Some (fs w1')) = Some (File html) /\
    Fs.get (SITE_DIR E ++ ["index.html"]) (Some (fs w2')) = Some (File html).
Proof.
  intros Ht H1 H2 Hp Hnd R1 R2.
  destruct (generate_site_ok_inv E w1 w1' d1 H1 R1)
    as (tdir & src & cats & html & Ht1 & Hs1 & Hc1 & Hr1 & Hi1).
  destruct (generate_site_ok_inv E w2 w2' d2 H2 R2)
    as (tdir' & src' & cats' & html' & Ht2 & Hs2 & Hc2 & Hr2 & Hi2).
  exists html. split; [exact Hi1 |].
  rewrite Ht, Ht2 in Ht1. injection Ht1 as ->.
  rewrite Hs2 in Hs1. injection Hs1 as ->.
  assert (Hfiles : sort (List.filter is_csv d1) = sort (List.filter is_csv d2)).
  { apply sort_permutation_invariant.
    - now apply filter_permutation.
    - now apply entries_names_filter. }
  rewrite Hfiles in Hc1.
  rewrite (listed_as_all_functional E _ _ _ Hc1 Hc2) in Hr1.
  rewrite Hr2 in Hr1. injection Hr1 as ->. exact Hi2.
Qed.

Lemma Forall2_pick {A B} (R : A -> B -> Prop) (l : list A) (l' : list B) (x : A) :
  Forall2 R l l' -> In x l -> exists y, R x y.
Proof.
  induction 1 as [|a b l l' Hab _ IH]; intros Hin; [contradiction |].
  destruct Hin as [->|Hin]; [now exists b | now apply IH].
Qed.

(** A data file whose name the pattern does not match stops the run. *)
Lemma unmatched_name_aborts (E : env) (w : world) ddir (name : string) x :
  Fs.get (DATA_DIR E) (Some (fs w)) = Some (Dir ddir) ->
  In (name, x) ddir ->
  suffix name = ".csv" ->
  Re.search name = None ->
  exists e, fst (generate_site E w) = Raise e.
Proof.
  intros Hd Hin Hsuf Hs.
  destruct (generate_site E w) as [[[]|e] w'] eqn:Hrun; [| now exists e].
  exfalso.
  destruct (generate_site_ok_inv E w w' ddir Hd Hrun)
    as (tdir & src & cats & html & _ & _ & Hc & _).
  assert (Hfile : In (name, x) (sort (List.filter is_csv ddir))).
  { eapply Permutation_in; [symmetry; apply sort_perm |].
    apply filter_In. split; [exact Hin |].
    unfold is_csv. simpl. rewrite Hsuf. reflexivity. }
  destruct (Forall2_pick _ _ _ _ Hc Hfile) as (c & key & _ & _ & Hk & _).
  simpl in Hk. congruence.
Qed.

(** C1, as the code has it.  The key of [<digit>_<key>.csv] is returned
    exactly when the key holds neither a newline nor the text [.csv] (the
    group is lazy and stops at the first [.csv]).  The pattern is searched,
    not anchored: extraction fails, with [AttributeError], exactly for the
    names in which the pattern occurs nowhere; a [.csv] entry of the data
    directory with such a name makes [generate_site] raise, it is not
    skipped. *)
Theorem key_extraction :
  (forall (d : ascii) (key : string) (w : world),
      Re.digit d = true ->
      Str.mem "010" key = false ->
      Str.contains ".csv" key = false ->
      original_name_of (String d ("_" +:+ key +:+ ".csv")) w = (Ok key, w)) /\
  (forall (name : string) (w : world),
      original_name_of name w = (Raise AttributeError, w)
      <-> ~ pattern_occurs name) /\
  (forall (E : env) (w : world) ddir (name : string) x,
      Fs.get (DATA_DIR E) (Some (fs w)) = Some (Dir ddir) ->
      In (name, x) ddir ->
      suffix name = ".csv" ->
      ~ pattern_occurs name ->
      exists e, fst (generate_site E w) = Raise e).
Proof.
  split; [| split].
  - intros d key w Hd Hnl Hc. unfold original_name_of.
    now rewrite search_form.
  - intros name w. rewrite <- search_none_iff. unfold original_name_of.
    destruct (Re.search name); split; intros H; try discriminate; reflexivity.
  - intros E w ddir name x Hd Hin Hsuf Hno.
    eapply unmatched_name_aborts; try eassumption.
    now apply search_none_iff.
Qed.

(** ** The display label *)

Lemma lists_mapping_lookup (key : string) :
  LISTS_MAPPING !! key =
  if String.eqb key "learning_resources" then Some "&#128218; Learning Resources"
  else if String.eqb key "productivity" then Some "&#128187; Productivity"
  else if String.eqb key "health" then Some "&#x1F3CB; Health & Fitness"
  else if String.eqb key "entertainment" then Some "&#x1F4FA; Entertainment"
  else None.
Proof.
  unfold LISTS_MAPPING.
  repeat match goal with
  | |- context [String.eqb key ?k] =>
      let H := fresh "Hk" in
      destruct (String.eqb key k) eqn:H;
      [ apply String.eqb_eq in H; subst key;
        repeat (rewrite lookup_insert_ne by discriminate);
        now rewrite lookup_insert_eq
      | apply String.eqb_neq in H; rewrite (lookup_insert_ne _ k key) by congruence ]
  end.
  apply lookup_empty.
Qed.

(** C7.  The label of a category is the entry of [LISTS_MAPPING] for its
    key when the table has one, and the key itself, unchanged, when it has
    none; the table has the four entries of the source. *)
Theorem display_label_is_mapped_or_raw
    (E : env) (csv_file : string * node) (w w' : world)
    (original_name processed_name : string) (list_ind : list row) :
  read_list E csv_file w = (Ok (original_name, processed_name, list_ind), w') ->
  Re.search (fst csv_file) = Some original_name /\
  (forall label, LISTS_MAPPING !! original_name = Some label ->
                 processed_name = label) /\
  (LISTS_MAPPING !! original_name = None -> processed_name = original_name) /\
  (original_name = "learning_resources" ->
     processed_name = "&#128218; Learning Resources") /\
  (original_name = "productivity" -> processed_name = "&#128187; Productivity") /\
  (original_name = "health" -> processed_name = "&#x1F3CB; Health & Fitness") /\
  (original_name = "entertainment" ->
     processed_name = "&#x1F4FA; Entertainment") /\
  (~ In original_name
       ["learning_resources"; "productivity"; "health"; "entertainment"] ->
     processed_name = original_name).
Proof.
  intros H.
  assert (Hl : listed_as E csv_file (original_name, processed_name, list_ind))
    by (apply (read_list_ok_inv E csv_file w); now rewrite H).
  destruct Hl as (key & text & rows & Hk & _ & _ & [= -> -> ->]).
  split; [exact Hk |]. unfold dict_get.
  repeat split.
  - intros label Hlab. now rewrite Hlab.
  - intros Hnone. now rewrite Hnone.
  - intros ->. now rewrite lists_mapping_lookup.
  - intros ->. now rewrite lists_mapping_lookup.
  - intros ->. now rewrite lists_mapping_lookup.
  - intros ->. now rewrite lists_mapping_lookup.
  - intros Hnot. rewrite lists_mapping_lookup.
    repeat match goal with
    | |- context [String.eqb key ?k] =>
        let H := fresh "Hk" in
        destruct (String.eqb key k) eqn:H;
        [ apply String.eqb_eq in H; exfalso; apply Hnot; subst key; simpl; tauto |]
    end.
    reflexivity.
Qed.

(** ** The walk of the publisher *)

#[local] Arguments in_list : simpl never.

Lemma node_nested_ind (P : node -> Prop) :
  (forall data, P (File data)) ->
  (forall es, Forall (fun e => P (snd e)) es -> P (Dir es)) ->
  forall x, P x.
Proof.
  intros Hf Hd. fix IH 1. intros [data|es]; [apply Hf |].
  apply Hd. induction es as [|[n y] es IHes]; constructor; [apply IH | exact IHes].
Qed.

Lemma upload_dir_unfold (E : env) (dir : path) (prefix : string) es :
  upload_recursively_to_s3 E dir (Dir es) prefix = upload_entries E dir prefix es.
Proof.
  simpl. induction es as [|[name y] es IH]; [reflexivity |].
  simpl. now rewrite IH.
Qed.

Lemma files_under_unfold es : files_under (Dir es) = files_in es.
Proof.
  simpl. induction es as [|[name y] es IH]; [reflexivity |].
  simpl. now rewrite IH.
Qed.

Lemma files_in_nonempty es (f : list string * string) :
  In f (files_in es) -> fst f <> [].
Proof.
  induction es as [|[name y] es IH]; simpl; [contradiction |].
  intros Hin. apply in_app_or in Hin as [Hin|Hin]; [| now apply IH].
  destruct y as [data|sub].
  - destruct Hin as [<-|[]]. discriminate.
  - apply in_map_iff in Hin as (g & <- & _). discriminate.
Qed.

Lemma for_each_app {A} (l1 l2 : list A) (body : A -> M unit) (w : world) :
  for_each (l1 ++ l2) body w = (for_each l1 body;; for_each l2 body) w.
Proof.
  revert w. induction l1 as [|x l1 IH]; intros w; simpl.
  - reflexivity.
  - rewrite !bind_run. destruct (body x w) as [[[]|e] w1]; [| reflexivity].
    rewrite IH. now rewrite bind_run.
Qed.

Lemma seq_ret_tt (m : M unit) (w : world) : (m;; ret tt) w = m w.
Proof. rewrite bind_run. now destruct (m w) as [[[]|e] w1]. Qed.

Lemma join_cons (name : string) (p : list string) :
  p <> [] -> Str.join "/" (name :: p) = name +:+ "/" +:+ Str.join "/" p.
Proof. destruct p; [congruence | reflexivity]. Qed.

Lemma last_cons (name : string) (p : list string) :
  p <> [] -> List.last (name :: p) "" = List.last p "".
Proof. destruct p; [congruence | reflexivity]. Qed.

Lemma request_at_step (dir : path) (prefix name : string)
    (f : list string * string) :
  fst f <> [] ->
  request_at dir prefix (name :: fst f, snd f)
  = request_at (dir ++ [name]) (prefix +:+ name +:+ "/") f.
Proof.
  intros Hne. unfold request_at. simpl fst. simpl snd.
  rewrite join_cons, last_cons by exact Hne.
  rewrite <- app_assoc. simpl app.
  now rewrite !append_assoc.
Qed.

Lemma ignored_step (name : string) (f : list string * string) :
  fst f <> [] -> ignored (name :: fst f, snd f) = ignored f.
Proof. intros Hne. unfold ignored. simpl fst. now rewrite last_cons. Qed.

(** The calls for the files below a subdirectory, seen from its parent. *)
Lemma requests_of_subdirectory (dir : path) (prefix name : string)
    (fs' : list (list string * string)) :
  (forall f, In f fs' -> fst f <> []) ->
  map (request_at dir prefix)
    (List.filter (fun f => negb (ignored f))
       (map (fun f => (name :: fst f, snd f)) fs'))
  = map (request_at (dir ++ [name]) (prefix +:+ name +:+ "/"))
      (List.filter (fun f => negb (ignored f)) fs').
Proof.
  induction fs' as [|f fs' IH]; intros Hne; [reflexivity |].
  assert (Hf : fst f <> []) by (apply Hne; now left).
  simpl. rewrite ignored_step by exact Hf.
  destruct (negb (ignored f)); simpl.
  - rewrite request_at_step by exact Hf. f_equal. apply IH.
    intros g Hg. apply Hne. now right.
  - apply IH. intros g Hg. apply Hne. now right.
Qed.

Lemma upload_entries_cons (E : env) (dir : path) (prefix name : string)
    (y : node) rest :
  upload_entries E dir prefix ((name, y) :: rest) =
  (match y with
   | Dir _ =>
       upload_recursively_to_s3 E (dir ++ [name]) y (prefix +:+ name +:+ "/")
   | File data =>
       if negb (in_list name IGNORED_FILES) then
         upload_file E {| Filename := dir ++ [name]; Body := data;
                          Key := prefix +:+ name;
                          ContentType := content_type_of name |}
       else ret tt
   end;;
   upload_entries E dir prefix rest).
Proof. reflexivity. Qed.

Lemma files_in_cons (name : string) (y : node) rest :
  files_in ((name, y) :: rest) =
  match y with
  | File data => [([name], data)]
  | Dir _ => map (fun f => (name :: fst f, snd f)) (files_under y)
  end ++ files_in rest.
Proof. reflexivity. Qed.

(** The walk makes the calls for the files below the directory that are not
    ignored, in the order of the walk. *)
Lemma upload_as_calls (E : env) (x : node) :
  forall (dir : path) (prefix : string) (w : world),
    upload_recursively_to_s3 E dir x prefix w =
    match x with
    | File _ => (Raise NotADirectoryError, w)
    | Dir _ =>
        for_each
          (map (request_at dir prefix)
             (List.filter (fun f => negb (ignored f)) (files_under x)))
          (upload_file E) w
    end.
Proof.
  induction x as [data|es IHes] using node_nested_ind; intros dir prefix w.
  - reflexivity.
  - rewrite upload_dir_unfold, files_under_unfold. revert w.
    induction es as [|[name y] es IH]; intros w; [reflexivity |].
    apply Forall_cons_iff in IHes as [Hy Hes]. specialize (IH Hes).
    rewrite upload_entries_cons, files_in_cons.
    rewrite List.filter_app, List.map_app, for_each_app, !bind_run.
    destruct y as [data|sub].
    + assert (Hstep :
        (if negb (in_list name IGNORED_FILES)
         then upload_file E {| Filename := dir ++ [name]; Body := data;
                               Key := prefix +:+ name;
                               ContentType := content_type_of name |}
         else ret tt) w
        = for_each
            (map (request_at dir prefix)
               (List.filter (fun f => negb (ignored f)) [([name], data)]))
            (upload_file E) w).
      { unfold ignored. cbn [List.filter fst snd List.last].
        destruct (in_list name IGNORED_FILES); cbn [negb map for_each];
          [reflexivity | symmetry; apply seq_ret_tt]. }
      rewrite Hstep.
      destruct (for_each _ _ w) as [[[]|e] w1]; [apply IH | reflexivity].
    + cbn [snd] in Hy. rewrite (Hy (dir ++ [name]) (prefix +:+ name +:+ "/") w).
      rewrite requests_of_subdirectory
        by (rewrite files_under_unfold; apply files_in_nonempty).
      destruct (for_each _ _ w) as [[[]|e] w1]; [apply IH | reflexivity].
Qed.

(** ** The calls and the bucket *)

Lemma store_cons (c : s3_call) cs (b : gmap string s3_object) :
  store (c :: cs) b = store cs (put_object b c).
Proof. reflexivity. Qed.

Lemma store_lookup_other (cs : list s3_call) (b : gmap string s3_object)
    (k : string) :
  ~ In k (map Key cs) -> store cs b !! k = b !! k.
Proof.
  revert b. induction cs as [|c cs IH]; intros b Hk; [reflexivity |].
  rewrite store_cons, IH by (intros H; apply Hk; now right).
  unfold put_object. apply lookup_insert_ne. intros Heq. apply Hk. now left.
Qed.

Lemma store_keeps (cs : list s3_call) (b : gmap string s3_object) (k : string) :
  is_Some (b !! k) -> is_Some (store cs b !! k).
Proof.
  revert b. induction cs as [|c cs IH]; intros b Hk; [exact Hk |].
  rewrite store_cons. apply IH. unfold put_object.
  destruct (decide (Key c = k)) as [->|Hne].
  - rewrite lookup_insert_eq. now eexists.
  - now rewrite lookup_insert_ne.
Qed.

(** A run of the calls [calls]: some first part of them was tried; all of
    the tried ones were accepted and stored, except the last when the run
    raised. *)
Lemma run_calls (E : env) (calls : list s3_call) (w : world) :
  exists accepted tried rest,
    calls = tried ++ rest /\
    incl accepted tried /\
    requests (snd (for_each calls (upload_file E) w)) = requests w ++ tried /\
    bucket (snd (for_each calls (upload_file E) w)) = store accepted (bucket w) /\
    fs (snd (for_each calls (upload_file E) w)) = fs w /\
    stdout (snd (for_each calls (upload_file E) w)) = stdout w /\
    (fst (for_each calls (upload_file E) w) = Ok tt ->
     tried = calls /\ accepted = calls).
Proof.
  revert w. induction calls as [|c calls IH]; intros w.
  - exists [], [], []. simpl. rewrite app_nil_r. repeat split; try reflexivity.
    intros x [].
  - simpl for_each. rewrite bind_run. unfold upload_file at 1 3 5 7 9.
    destruct (s3_accepts E c) as [u|e].
    + match goal with
      | |- context [for_each calls (upload_file E) ?w1] =>
          destruct (IH w1) as (acc & tried & rest & Hc & Hi & Hr & Hb & Hf & Ho & Hok)
      end.
      exists (c :: acc), (c :: tried), rest. simpl in *.
      repeat split; try assumption;
        try match goal with
            | H : _ = Ok tt |- _ => destruct (Hok H) as [-> ->]; reflexivity
            end.
      * now rewrite Hc.
      * intros x [->|Hx]; [now left | right; now apply Hi].
      * rewrite Hr, <- app_assoc. reflexivity.
    + exists [], [c], calls. simpl.
      repeat split; try reflexivity; try discriminate.
      intros x [].
Qed.

Lemma run_calls_accepted (E : env) (calls : list s3_call) (w : world) :
  (forall c, In c calls -> s3_accepts E c = Ok tt) ->
  fst (for_each calls (upload_file E) w) = Ok tt.
Proof.
  revert w. induction calls as [|c calls IH]; intros w Hacc; [reflexivity |].
  simpl for_each. rewrite bind_run. unfold upload_file at 1.
  rewrite (Hacc c) by now left. apply IH. intros c' Hc'. apply Hacc. now right.
Qed.

Lemma upload_site_run (E : env) (w : world) ses :
  Fs.get (SITE_DIR E) (Some (fs w)) = Some (Dir ses) ->
  upload_site E w = for_each (site_requests E (Dir ses)) (upload_file E) w.
Proof.
  intros Hs. unfold upload_site. rewrite bind_run. unfold lookup_path.
  rewrite Hs. apply upload_as_calls.
Qed.

Lemma request_for_injective (root : path) (f g : list string * string) :
  request_for root f = request_for root g -> f = g.
Proof.
  destruct f as [p d], g as [q e]. unfold request_for. simpl.
  intros [= Hp Hd _ _]. apply app_inv_head in Hp. now subst.
Qed.

Lemma last_app_nonempty (root p : list string) :
  p <> [] -> List.last (root ++ p) "" = List.last p "".
Proof.
  intros Hp. induction root as [|c root IH]; [reflexivity |].
  simpl app. rewrite last_cons; [exact IH |].
  destruct root; simpl; [exact Hp | discriminate].
Qed.

(** Every call for the site is the call for a file below it. *)
Lemma site_requests_inv (E : env) (x : node) (c : s3_call) :
  In c (site_requests E x) ->
  exists p data,
    In (p, data) (files_under x) /\ p <> [] /\
    in_list (List.last p "") IGNORED_FILES = false /\
    c = request_for (SITE_DIR E) (p, data).
Proof.
  unfold site_requests. intros Hc.
  apply in_map_iff in Hc as ([p data] & <- & Hf).
  apply filter_In in Hf as [Hf Hi].
  exists p, data. repeat split; try assumption.
  - destruct x as [|es]; [contradiction |].
    rewrite files_under_unfold in Hf.
    now apply files_in_nonempty in Hf.
  - unfold ignored in Hi. simpl in Hi. now apply negb_true_iff in Hi.
Qed.

(** C5.  When the storage service accepts the calls for the files of the
    site, [upload_recursively_to_s3] on the site directory returns, and the
    calls it has made are those for the files below the directory whose name
    is not in [IGNORED_FILES], each once and in the order of the walk: a file
    is uploaded if and only if its name is not in the list, and the key of
    its call is its path relative to the site directory, the names joined
    with slashes. *)
Theorem publisher_uploads_all_but_ignored (E : env) (w : world) ses :
  Fs.get (SITE_DIR E) (Some (fs w)) = Some (Dir ses) ->
  (forall c, In c (site_requests E (Dir ses)) -> s3_accepts E c = Ok tt) ->
  fst (upload_site E w) = Ok tt /\
  requests (snd (upload_site E w)) = requests w ++ site_requests E (Dir ses) /\
  (forall p data,
      In (p, data) (files_under (Dir ses)) ->
      (In {| Filename := SITE_DIR E ++ p; Body := data;
             Key := Str.join "/" p;
             ContentType := content_type_of (List.last p "") |}
          (site_requests E (Dir ses))
       <-> in_list (List.last p "") IGNORED_FILES = false)) /\
  (forall c,
      In c (site_requests E (Dir ses)) ->
      exists p data,
        In (p, data) (files_under (Dir ses)) /\
        Filename c = SITE_DIR E ++ p /\ Key c = Str.join "/" p).
Proof.
  intros Hs Hacc. rewrite (upload_site_run E w ses Hs).
  pose proof (run_calls_accepted E _ w Hacc) as Hok.
  destruct (run_calls E (site_requests E (Dir ses)) w)
    as (acc & tried & rest & _ & _ & Hr & _ & _ & _ & Hall).
  destruct (Hall Hok) as [-> _].
  split; [exact Hok |]. split; [exact Hr |]. split.
  - intros p data Hf. split.
    + intros Hc. apply site_requests_inv in Hc as (q & e & _ & _ & Hi & Heq).
      change {| Filename := SITE_DIR E ++ p; Body := data;
                Key := Str.join "/" p;
                ContentType := content_type_of (List.last p "") |}
        with (request_for (SITE_DIR E) (p, data)) in Heq.
      apply request_for_injective in Heq. injection Heq as -> ->. exact Hi.
    + intros Hi. unfold site_requests.
      apply (in_map (request_for (SITE_DIR E)) _ (p, data)).
      apply filter_In. split; [exact Hf |].
      unfold ignored. simpl. now rewrite Hi.
  - intros c Hc. apply site_requests_inv in Hc as (p & data & Hf & _ & _ & ->).
    now exists p, data.
Qed.

Lemma content_type_lookup (name : string) :
  content_type_of name = content_type_table (suffix name).
Proof.
  unfold content_type_of, content_type_table, dict_get, CONTENT_TYPE_MAPPING.
  generalize (suffix name) as ext. intros ext.
  repeat match goal with
  | |- context [String.eqb ext ?k] =>
      let H := fresh "Hk" in
      destruct (String.eqb ext k) eqn:H;
      [ apply String.eqb_eq in H; subst ext;
        repeat (rewrite lookup_insert_ne by discriminate);
        now rewrite lookup_insert_eq
      | apply String.eqb_neq in H; rewrite (lookup_insert_ne _ k ext) by congruence ]
  end.
  now rewrite lookup_empty.
Qed.

(** What [upload_site] does to the world, whatever its outcome. *)
Lemma upload_site_effect (E : env) (w : world) :
  exists accepted tried,
    incl accepted tried /\
    requests (snd (upload_site E w)) = requests w ++ tried /\
    bucket (snd (upload_site E w)) = store accepted (bucket w) /\
    forall c, In c tried ->
      exists ses, Fs.get (SITE_DIR E) (Some (fs w)) = Some (Dir ses) /\
                  In c (site_requests E (Dir ses)).
Proof.
  destruct (Fs.get (SITE_DIR E) (Some (fs w))) as [[data|ses]|] eqn:Hs.
  - exists [], []. unfold upload_site. rewrite bind_run. unfold lookup_path.
    rewrite Hs. simpl. rewrite app_nil_r. repeat split; try reflexivity.
    + intros x [].
    + intros c [].
  - rewrite (upload_site_run E w ses Hs).
    destruct (run_calls E (site_requests E (Dir ses)) w)
      as (acc & tried & rest & Hc & Hi & Hr & Hb & _).
    exists acc, tried. repeat split; try assumption.
    intros c Hin. exists ses. split; [reflexivity |].
    rewrite Hc. apply in_or_app. now left.
  - exists [], []. unfold upload_site. rewrite bind_run. unfold lookup_path.
    rewrite Hs. simpl. rewrite app_nil_r. repeat split; try reflexivity.
    + intros x [].
    + intros c [].
Qed.

(** C6.  The publisher gives every file it uploads the content type of its
    extension.  Every call that [upload_recursively_to_s3] makes for the site
    carries the content type that [CONTENT_TYPE_MAPPING] gives to the suffix
    of the file's name; and when the storage service accepts the calls, every
    file below the site directory whose name is not ignored does get a call,
    for its own path, key and bytes, that carries that content type.  The
    type is [text/css] for [.css], [text/html] for [.html], [image/jpeg] for
    [.jpg], [text/xml] for [.xml], and [application/octet-stream] for every
    other suffix, the empty one included. *)
Theorem content_type_follows_extension (E : env) (w : world) :
  (exists new,
      requests (snd (upload_site E w)) = requests w ++ new /\
      forall c, In c new ->
        ContentType c = content_type_table (suffix (List.last (Filename c) ""))) /\
  (forall ses p data,
      Fs.get (SITE_DIR E) (Some (fs w)) = Some (Dir ses) ->
      (forall c, In c (site_requests E (Dir ses)) -> s3_accepts E c = Ok tt) ->
      In (p, data) (files_under (Dir ses)) ->
      in_list (List.last p "") IGNORED_FILES = false ->
      exists new c,
        requests (snd (upload_site E w)) = requests w ++ new /\ In c new /\
        Filename c = SITE_DIR E ++ p /\ Key c = Str.join "/" p /\
        Body c = data /\
        ContentType c = content_type_table (suffix (List.last p ""))) /\
  content_type_table ".css" = "text/css" /\
  content_type_table ".html" = "text/html" /\
  content_type_table ".jpg" = "image/jpeg" /\
  content_type_table ".xml" = "text/xml" /\
  (forall ext, ~ In ext [".css"; ".html"; ".jpg"; ".xml"] ->
               content_type_table ext = "application/octet-stream").
Proof.
  split; [| split; [| repeat split]].
  - destruct (upload_site_effect E w) as (acc & tried & _ & Hr & _ & Hin).
    exists tried. split; [exact Hr |]. intros c Hc.
    destruct (Hin c Hc) as (ses & _ & Hreq).
    apply site_requests_inv in Hreq as (p & data & _ & Hp & _ & ->).
    unfold request_for. simpl.
    rewrite last_app_nonempty by exact Hp. apply content_type_lookup.
  - intros ses p data Hs Hacc Hf Hi.
    pose proof (run_calls_accepted E _ w Hacc) as Hok.
    destruct (run_calls E (site_requests E (Dir ses)) w)
      as (acc & tried & rest & _ & _ & Hr & _ & _ & _ & Hall).
    destruct (Hall Hok) as [-> _].
    exists (site_requests E (Dir ses)), (request_for (SITE_DIR E) (p, data)).
    split; [| split].
    + rewrite (upload_site_run E w ses Hs). exact Hr.
    + unfold site_requests.
      apply (in_map (request_for (SITE_DIR E)) _ (p, data)).
      apply filter_In. split; [exact Hf |].
      unfold ignored. simpl. now rewrite Hi.
    + unfold request_for. simpl. repeat split. apply content_type_lookup.
  - intros ext Hnot. unfold content_type_table.
    repeat match goal with
    | |- context [String.eqb ext ?k] =>
        let H := fresh "Hk" in
        destruct (String.eqb ext k) eqn:H;
        [ apply String.eqb_eq in H; exfalso; apply Hnot; subst ext; simpl; tauto |]
    end.
    reflexivity.
Qed.

(** C8.  All that [upload_recursively_to_s3] does to the bucket is to store
    the objects of calls it has made: the bucket it leaves is the bucket it
    found with those objects put at their keys.  So every key that had an
    object still has one, and a key that is not the relative path of a file
    of the site keeps its object unchanged.  This holds whatever the outcome
    of the run. *)
Theorem publisher_never_deletes (E : env) (w : world) :
  (exists accepted,
      incl accepted (requests (snd (upload_site E w))) /\
      bucket (snd (upload_site E w)) = store accepted (bucket w)) /\
  (forall k, is_Some (bucket w !! k) ->
             is_Some (bucket (snd (upload_site E w)) !! k)) /\
  (forall k,
      (forall ses p data,
          Fs.get (SITE_DIR E) (Some (fs w)) = Some (Dir ses) ->
          In (p, data) (files_under (Dir ses)) -> Str.join "/" p <> k) ->
      bucket (snd (upload_site E w)) !! k = bucket w !! k).
Proof.
  destruct (upload_site_effect E w) as (acc & tried & Hi & Hr & Hb & Hin).
  split; [| split].
  - exists acc. split; [| exact Hb].
    rewrite Hr. intros c Hc. apply in_or_app. right. now apply Hi.
  - intros k Hk. rewrite Hb. now apply store_keeps.
  - intros k Hk. rewrite Hb. apply store_lookup_other.
    intros Hkey. apply in_map_iff in Hkey as (c & Hc & Hacc).
    destruct (Hin c (Hi c Hacc)) as (ses & Hs & Hreq).
    apply site_requests_inv in Hreq as (p & data & Hf & _ & _ & ->).
    simpl in Hc. exact (Hk ses p data Hs Hf Hc).
Qed.

(** ** The orchestrator *)

Lemma same_outside_store (P : path) (w w' : world) :
  same_outside P w w' -> same_store w w'.
Proof. now intros [H _]. Qed.

Lemma change_same_store (mk : bool) (p : path)
    (f : option node -> result (option node)) :
  preserves same_store (change mk p f).
Proof.
  intros w. eapply same_outside_store.
  apply (change_same_outside mk [] p f w).
Qed.

Lemma write_file_at_same_store (base : path) (s data : string) :
  preserves same_store (write_file_at base s data).
Proof.
  intros w. unfold write_file_at, path_div.
  destruct (Str.mem "000" s); [apply same_store_refl |].
  destruct (Fs.PATH_MAX <=? _); [apply same_store_refl |].
  destruct (Fs.resolve _ _ _); [| apply same_store_refl].
  apply change_same_store.
Qed.

Lemma download_sheets_same_store (E : env) :
  preserves same_store (download_sheets E).
Proof.
  unfold download_sheets.
  apply preserves_bind; [apply same_store_trans | | intros _].
  { intros w. eapply same_outside_store.
    apply (rmtree_same_outside [] (DATA_DIR E) w). }
  apply preserves_bind; [apply same_store_trans | | intros _].
  { apply change_same_store. }
  apply preserves_bind; [apply same_store_trans | | intros worksheets].
  { apply preserves_lift, same_store_refl. }
  apply preserves_for_each;
    [apply same_store_refl | apply same_store_trans | intros worksheet].
  apply preserves_bind; [apply same_store_trans | | intros values].
  { apply preserves_lift, same_store_refl. }
  apply preserves_bind; [apply same_store_trans | | intros _].
  { intros w. now split. }
  apply write_file_at_same_store.
Qed.

Lemma generate_site_same_store (E : env) :
  preserves same_store (generate_site E).
Proof.
  intros w. eapply same_outside_store. apply generate_site_same_outside.
Qed.

(** C4.  [build_site] runs the fetcher, then the renderer on the world the
    fetcher left, then the publisher on the world the renderer left.  When a
    stage raises, [build_site] raises the same exception and the world is the
    one that stage left: no later stage has done anything, and in particular
    no call to the bucket was made. *)
Theorem stages_run_in_sequence (E : env) (w : world) :
  (forall e w1,
      download_sheets E w = (Raise e, w1) ->
      build_site E w = (Raise e, w1) /\ same_store w w1) /\
  (forall w1 e w2,
      download_sheets E w = (Ok tt, w1) ->
      generate_site E w1 = (Raise e, w2) ->
      build_site E w = (Raise e, w2) /\ same_store w w2) /\
  (forall w1 w2,
      download_sheets E w = (Ok tt, w1) ->
      generate_site E w1 = (Ok tt, w2) ->
      build_site E w = (lift (s3_resource E);; upload_site E) w2 /\
      same_store w w2).
Proof.
  assert (Hfetch : forall r w1, download_sheets E w = (r, w1) -> same_store w w1).
  { intros r w1 H. pose proof (download_sheets_same_store E w) as Hs.
    now rewrite H in Hs. }
  assert (Hrender : forall w1 r w2,
             generate_site E w1 = (r, w2) -> same_store w1 w2).
  { intros w1 r w2 H. pose proof (generate_site_same_store E w1) as Hs.
    now rewrite H in Hs. }
  unfold build_site. split; [| split].
  - intros e w1 H. split; [| eapply Hfetch; exact H].
    now rewrite bind_run, H.
  - intros w1 e w2 H1 H2. split.
    + now rewrite bind_run, H1, bind_run, H2.
    + eapply same_store_trans; [eapply Hfetch | eapply Hrender]; eassumption.
  - intros w1 w2 H1 H2. split.
    + now rewrite bind_run, H1, bind_run, H2.
    + eapply same_store_trans; [eapply Hfetch | eapply Hrender]; eassumption.
Qed.

(** ** The fetcher *)

Lemma str_length_append (a b : string) :
  String.length (a +:+ b) = String.length a + String.length b.
Proof. induction a as [|c a IH]; simpl; [reflexivity | now rewrite IH]. Qed.

Lemma append_inj_l (a b c : string) : a +:+ c = b +:+ c -> a = b.
Proof.
  revert b. induction a as [|x a IH]; intros [|y b] H; simpl in H.
  - reflexivity.
  - apply (f_equal String.length) in H. simpl in H.
    rewrite str_length_append in H. lia.
  - apply (f_equal String.length) in H. simpl in H.
    rewrite str_length_append in H. lia.
  - injection H as -> H. f_equal. now apply IH.
Qed.

Lemma split_slash_plain (s : string) :
  Str.mem "/" s = false -> Str.split_slash s = [s].
Proof.
  induction s as [|c s IH]; simpl; [reflexivity |].
  intros H. apply orb_false_iff in H as [Hc H].
  rewrite Hc, (IH H). reflexivity.
Qed.

Lemma starts_with_slash_plain (s : string) :
  Str.mem "/" s = false -> Str.starts_with "/" s = false.
Proof.
  destruct s as [|c s]; simpl; [reflexivity |].
  intros H. apply orb_false_iff in H as [Hc _].
  rewrite Ascii.eqb_sym, Hc. reflexivity.
Qed.

(** A name without slash is one component of the path. *)
Lemma path_div_plain (base : path) (name : string) :
  Str.mem "/" name = false -> name <> "" -> name <> "." ->
  path_div base name = (base, [name]).
Proof.
  intros Hs H0 H1. unfold path_div, path_parts.
  rewrite (starts_with_slash_plain _ Hs), (split_slash_plain _ Hs).
  simpl. now rewrite (string_eqb_false _ _ H0), (string_eqb_false _ _ H1).
Qed.

(** The walk over one name that is not [..]. *)
Lemma resolve_plain (t : node) (cur : path) (name : string) :
  name <> ".." ->
  Fs.resolve t cur [name]
  = match Fs.get cur (Some t) with
    | Some (Dir _) =>
        if Fs.NAME_MAX <? String.length name then Raise OSError_ENAMETOOLONG
        else Ok (cur ++ [name])
    | _ => Ok (cur ++ [name])
    end.
Proof.
  intros H2. cbn [Fs.resolve]. rewrite (string_eqb_false _ _ H2).
  now destruct (Fs.get cur (Some t)) as [[d|es]|].
Qed.

(** A name without slash within the limits: the file is opened in [base]. *)
Lemma write_file_at_plain (base : path) (name data : string) (w : world) :
  Str.mem "/" name = false -> Str.mem "000" name = false ->
  name <> "" -> name <> "." -> name <> ".." ->
  String.length name <= Fs.NAME_MAX ->
  String.length (path_text base name) < Fs.PATH_MAX ->
  write_file_at base name data w = write_file (base ++ [name]) data w.
Proof.
  intros Hs Hz H0 H1 H2 Hn Hp. unfold write_file_at.
  rewrite (path_div_plain base name Hs H0 H1), Hz.
  apply Nat.leb_gt in Hp. rewrite Hp.
  rewrite (resolve_plain _ _ _ H2).
  apply Nat.ltb_ge in Hn. rewrite Hn.
  now destruct (Fs.get base (Some (fs w))) as [[d|es]|].
Qed.

(** A name without slash, whatever its length: the file is opened in
    [base], or the name or the path is refused and nothing is done. *)
Lemma write_file_at_plain_cases (base : path) (name data : string) (w : world) :
  Str.mem "/" name = false -> Str.mem "000" name = false ->
  name <> "" -> name <> "." -> name <> ".." ->
  write_file_at base name data w = write_file (base ++ [name]) data w \/
  write_file_at base name data w = (Raise OSError_ENAMETOOLONG, w).
Proof.
  intros Hs Hz H0 H1 H2. unfold write_file_at.
  rewrite (path_div_plain base name Hs H0 H1), Hz.
  destruct (Fs.PATH_MAX <=? _); [now right |].
  rewrite (resolve_plain _ _ _ H2).
  destruct (Fs.get base (Some (fs w))) as [[d|es]|]; try (now left).
  destruct (Fs.NAME_MAX <? String.length name); [now right | now left].
Qed.

Lemma csv_name_plain (t : string) :
  Str.mem "/" t = false -> Str.mem "000" t = false ->
  Str.mem "/" (t +:+ ".csv") = false /\ Str.mem "000" (t +:+ ".csv") = false /\
  t +:+ ".csv" <> "" /\ t +:+ ".csv" <> "." /\ t +:+ ".csv" <> "..".
Proof.
  intros Hs Hz. rewrite !mem_app, Hs, Hz.
  repeat split; try reflexivity;
    intros H; apply (f_equal String.length) in H;
    rewrite str_length_append in H; simpl in H; lia.
Qed.

(** The loop over the sheets appends one file for each sheet. *)
Lemma write_sheets (E : env) (sheets : list sheet) :
  List.NoDup (map title sheets) ->
  (forall s, In s sheets ->
     (exists values, get_all_values s = Ok values) /\
     Str.mem "/" (title s) = false /\ Str.mem "000" (title s) = false /\
     within_limits E s) ->
  forall (w : world) files,
    Fs.get (DATA_DIR E) (Some (fs w)) = Some (Dir files) ->
    (forall s, In s sheets -> Entries.get (title s +:+ ".csv") files = None) ->
    exists w',
      for_each sheets (download_sheet E) w = (Ok tt, w') /\
      Fs.get (DATA_DIR E) (Some (fs w'))
        = Some (Dir (files ++ map (sheet_file E) sheets)).
Proof.
  induction sheets as [|s sheets IH]; intros Hnd Hok w files Hd Hfresh.
  - exists w. simpl. rewrite app_nil_r. now split.
  - simpl in Hnd. apply NoDup_cons_iff in Hnd as [Hs Hnd].
    destruct (Hok s (or_introl eq_refl))
      as ((values & Hv) & Hslash & Hnul & Hlen & Hpath).
    destruct (csv_name_plain _ Hslash Hnul) as (N1 & N2 & N3 & N4 & N5).
    set (w1 := {| fs := fs w; bucket := bucket w; requests := requests w;
                  stdout := stdout w ++ ["Downloading: " +:+ title s] |}).
    pose proof (change_child false (DATA_DIR E) (title s +:+ ".csv")
      (fun o => match o with
                | Some (Dir _) => Raise IsADirectoryError
                | _ => Ok (Some (File (csv_writerows E values)))
                end) w1 files Hd) as Hc.
    rewrite (Hfresh s (or_introl eq_refl)) in Hc.
    destruct Hc as (t & Hc & Ht).
    destruct (IH Hnd (fun s' H' => Hok s' (or_intror H')) (with_fs w1 t)
                (files ++ [sheet_file E s])) as (w' & Hrest & Hd').
    { simpl. rewrite Ht. unfold Entries.put, sheet_file.
      rewrite entries_set_fresh by (apply Hfresh; now left).
      now rewrite Hv. }
    { intros s' Hin. unfold sheet_file. rewrite entries_get_app_fresh.
      - apply Hfresh. now right.
      - intros Heq. apply append_inj_l in Heq. apply Hs. rewrite <- Heq.
        now apply in_map. }
    exists w'. split.
    + change (for_each (s :: sheets) (download_sheet E))
        with (download_sheet E s;; for_each sheets (download_sheet E)).
      erewrite bind_ok; [exact Hrest |].
      unfold download_sheet. erewrite bind_ok; [| unfold lift; rewrite Hv; reflexivity].
      erewrite bind_ok; [| reflexivity].
      rewrite write_file_at_plain by assumption. exact Hc.
    + rewrite Hd', <- app_assoc. reflexivity.
Qed.

(** C2, as the code has it.  For a workbook of [N] sheets that can all be
    read, whose titles are pairwise different, hold neither a slash nor a
    NUL, and give a file name of at most [NAME_MAX] bytes at a path shorter
    than [PATH_MAX], one run of [download_sheets] returns and leaves in the
    data directory exactly [N] files, one for each sheet, each named by the
    title of its sheet followed by [.csv] and holding the rows of that
    sheet.  The order in which the directory lists them is left open. *)
Theorem fetcher_writes_one_file_per_sheet
    (E : env) (w : world) res (sheets : list sheet) :
  Fs.get (ROOT_DIR E) (Some (fs w)) = Some (Dir res) ->
  (forall d, Entries.get "data" res <> Some (File d)) ->
  open_workbook E = Ok sheets ->
  (forall s, In s sheets -> exists values, get_all_values s = Ok values) ->
  List.NoDup (map title sheets) ->
  (forall s, In s sheets ->
     Str.mem "/" (title s) = false /\ Str.mem "000" (title s) = false) ->
  (forall s, In s sheets -> within_limits E s) ->
  one_file_per_sheet E w sheets.
Proof.
  intros Hroot Hdata Hwb Hread Hnd Htitles Hlimits.
  destruct (reset_dir (ROOT_DIR E) "data" w res Hroot Hdata) as (t0 & Hreset & Ht0).
  assert (Hd0 : Fs.get (DATA_DIR E) (Some (fs (with_fs w t0))) = Some (Dir [])).
  { unfold DATA_DIR. simpl. rewrite get_app, Ht0. simpl.
    now rewrite entries_get_set_same. }
  destruct (write_sheets E sheets Hnd
              (fun s H =>
                 conj (Hread s H)
                   (conj (proj1 (Htitles s H))
                      (conj (proj2 (Htitles s H)) (Hlimits s H))))
              (with_fs w t0) [] Hd0 (fun _ _ => eq_refl)) as (w' & Hloop & Hd').
  exists w', (map (sheet_file E) sheets). repeat split.
  - unfold download_sheets. rewrite seq_assoc.
    erewrite bind_ok; [| exact Hreset].
    erewrite bind_ok; [exact Hloop |]. unfold lift. now rewrite Hwb.
  - exact Hd'.
  - apply length_map.
  - apply Permutation_refl.
Qed.

(** * The statements on the sample installation *)

Lemma key_extraction_witness :
  original_name_of "1_health.csv" sample_world = (Ok "health", sample_world) /\
  original_name_of "notes.csv" sample_world
    = (Raise AttributeError, sample_world) /\
  exists e,
    fst (generate_site sample_env
           (world_of (sample_disk sample_template
                        (Some [("notes.csv", File "h")])))) = Raise e.
Proof.
  destruct key_extraction as (Hkey & Hfail & Habort).
  split; [| split].
  - apply (Hkey "1"%char "health" sample_world); reflexivity.
  - apply Hfail. apply search_none_iff. reflexivity.
  - apply (Habort sample_env _ [("notes.csv", File "h")] "notes.csv" (File "h")).
    + reflexivity.
    + simpl. tauto.
    + reflexivity.
    + apply search_none_iff. reflexivity.
Defined.

(** C1 as the specification states it fails on both counts.  The name
    [1_a.csv.csv] is a digit, an underscore, the key [a.csv] and [.csv], and
    the key extracted is [a].  The name [x1_a.csv] does not start with a
    digit, and no exception is raised: the key [a] is extracted and
    [generate_site] returns. *)
Lemma key_extraction_counterexample :
  (has_form "1_a.csv.csv" "a.csv" /\
   original_name_of "1_a.csv.csv" sample_world = (Ok "a", sample_world) /\
   "a" <> "a.csv") /\
  (suffix "x1_a.csv" = ".csv" /\
   (~ exists key, has_form "x1_a.csv" key) /\
   original_name_of "x1_a.csv" sample_world = (Ok "a", sample_world) /\
   fst (generate_site sample_env
          (world_of (sample_disk sample_template
                       (Some [("x1_a.csv", File "h")])))) = Ok tt).
Proof.
  split; [split; [| split] | split; [| split; [| split]]].
  - exists "1"%char. split; reflexivity.
  - reflexivity.
  - discriminate.
  - reflexivity.
  - intros (key & d & Hd & Hname). injection Hname as <- _. discriminate.
  - reflexivity.
  - vm_compute. reflexivity.
Qed.

Lemma fetcher_writes_one_file_per_sheet_witness :
  one_file_per_sheet sample_env sample_world sample_sheets.
Proof.
  apply (fetcher_writes_one_file_per_sheet sample_env sample_world
           [("template", Dir sample_template); ("lambda_function.py", File "py")]).
  - reflexivity.
  - intros d. discriminate.
  - reflexivity.
  - intros s [<-|[<-|[]]]; eexists; reflexivity.
  - repeat constructor; simpl; intuition discriminate.
  - intros s [<-|[<-|[]]]; split; reflexivity.
  - intros s [<-|[<-|[]]]; split; vm_compute; lia.
Defined.

(** C2 as the specification states it fails for a sheet whose title holds a
    slash: the workbook has one sheet, titled [a/b], that can be read; the
    file to write is [data/a/b.csv], the directory [data/a] does not exist,
    [open] raises and the data directory is left empty. *)
Lemma fetcher_slash_title_counterexample :
  open_workbook (sample_env_with (Ok [slash_sheet])) = Ok [slash_sheet] /\
  title slash_sheet = "a/b" /\
  is_ok (get_all_values slash_sheet) = true /\
  fst (download_sheets (sample_env_with (Ok [slash_sheet])) sample_world)
    = Raise FileNotFoundError /\
  Fs.get (DATA_DIR (sample_env_with (Ok [slash_sheet])))
    (Some (fs (snd (download_sheets (sample_env_with (Ok [slash_sheet]))
                      sample_world))))
    = Some (Dir []) /\
  ~ one_file_per_sheet (sample_env_with (Ok [slash_sheet])) sample_world
      [slash_sheet].
Proof.
  repeat split; try reflexivity.
  intros (w' & files & Hrun & _). vm_compute in Hrun. discriminate.
Qed.


Lemma stages_run_in_sequence_witness :
  build_site (sample_env_with (Raise (LibraryError "SpreadsheetNotFound")))
    sample_world
  = (Raise (LibraryError "SpreadsheetNotFound"),
     snd (download_sheets
            (sample_env_with (Raise (LibraryError "SpreadsheetNotFound")))
            sample_world)) /\
  same_store sample_world
    (snd (download_sheets
            (sample_env_with (Raise (LibraryError "SpreadsheetNotFound")))
            sample_world)).
Proof.
  destruct (stages_run_in_sequence
              (sample_env_with (Raise (LibraryError "SpreadsheetNotFound")))
              sample_world) as (Hfetch & _ & _).
  apply Hfetch. vm_compute. reflexivity.
Defined.

Lemma publisher_uploads_all_but_ignored_witness :
  fst (upload_site sample_env
         (world_of (sample_disk sample_template None))) = Raise FileNotFoundError /\
  let ses := [("css", Dir [("style.css", File "c")]);
              ("template.html", File "T");
              ("index.html", File "page")] in
  let w := world_of (Dir [("app", Dir [("site", Dir ses)])]) in
  fst (upload_site sample_env w) = Ok tt /\
  requests (snd (upload_site sample_env w))
  = [ {| Filename := ["app"; "site"; "css"; "style.css"]; Body := "c";
         Key := "css/style.css"; ContentType := "text/css" |};
      {| Filename := ["app"; "site"; "index.html"]; Body := "page";
         Key := "index.html"; ContentType := "text/html" |} ].
Proof.
  split; [reflexivity |]. intros ses w.
  destruct (publisher_uploads_all_but_ignored sample_env w ses)
    as (Hok & Hreq & _).
  - reflexivity.
  - intros c _. reflexivity.
  - split; [exact Hok |]. rewrite Hreq. reflexivity.
Defined.

Lemma content_type_follows_extension_witness :
  (exists c,
      In c (requests (snd (upload_site sample_env sample_site_world))) /\
      Key c = "css/style.css" /\ Body c = "c" /\ ContentType c = "text/css") /\
  (exists c,
      In c (requests (snd (upload_site sample_env sample_site_world))) /\
      Key c = "photo.JPG" /\ Body c = "p" /\
      ContentType c = "application/octet-stream") /\
  (exists c,
      In c (requests (snd (upload_site sample_env sample_site_world))) /\
      Key c = "README" /\ Body c = "r" /\
      ContentType c = "application/octet-stream").
Proof.
  destruct (content_type_follows_extension sample_env sample_site_world)
    as (_ & Hfile & _).
  split; [| split].
  - destruct (Hfile sample_site ["css"; "style.css"] "c")
      as (new & c & Hr & Hc & _ & Hk & Hb & Ht).
    + reflexivity.
    + intros c _. reflexivity.
    + simpl. tauto.
    + reflexivity.
    + exists c. rewrite Hr. repeat split; assumption.
  - destruct (Hfile sample_site ["photo.JPG"] "p")
      as (new & c & Hr & Hc & _ & Hk & Hb & Ht).
    + reflexivity.
    + intros c _. reflexivity.
    + simpl. tauto.
    + reflexivity.
    + exists c. rewrite Hr. repeat split; assumption.
  - destruct (Hfile sample_site ["README"] "r")
      as (new & c & Hr & Hc & _ & Hk & Hb & Ht).
    + reflexivity.
    + intros c _. reflexivity.
    + simpl. tauto.
    + reflexivity.
    + exists c. rewrite Hr. repeat split; assumption.
Defined.

Lemma display_label_is_mapped_or_raw_witness :
  read_list sample_env ("3_health.csv", File "h") sample_world
  = (Ok ("health", "&#x1F3CB; Health & Fitness", [[("text", "h")]]),
     sample_world) /\
  Re.search "3_health.csv" = Some "health" /\
  LISTS_MAPPING !! "health" = Some "&#x1F3CB; Health & Fitness".
Proof.
  assert (Hrun : read_list sample_env ("3_health.csv", File "h") sample_world
                 = (Ok ("health", "&#x1F3CB; Health & Fitness",
                        [[("text", "h")]]), sample_world))
    by (vm_compute; reflexivity).
  destruct (display_label_is_mapped_or_raw sample_env
              ("3_health.csv", File "h") sample_world sample_world
              "health" "&#x1F3CB; Health & Fitness" [[("text", "h")]] Hrun)
    as (Hkey & _).
  split; [exact Hrun | split; [exact Hkey | reflexivity]].
Defined.

Lemma publisher_never_deletes_witness :
  let w := {| fs := Dir [("app", Dir [("site", Dir [("index.html", File "new")])])];
              bucket := <["old.html" := {| obj_body := "old";
                                           obj_content_type := "text/html" |}]> ∅;
              requests := []; stdout := [] |} in
  bucket (snd (upload_site sample_env w)) !! "old.html"
  = Some {| obj_body := "old"; obj_content_type := "text/html" |}.
Proof.
  intros w.
  destruct (publisher_never_deletes sample_env w) as (_ & _ & Hsame).
  rewrite Hsame; [reflexivity |].
  intros ses p data [= <-] [[= <- <-]|[]]. discriminate.
Defined.

Lemma rendering_is_deterministic_witness :
  let d1 := [("2_health.csv", File "h"); ("1_learning_resources.csv", File "l")] in
  let d2 := [("1_learning_resources.csv", File "l"); ("2_health.csv", File "h")] in
  let w1 := world_of (sample_disk sample_template (Some d1)) in
  let w2 := world_of (sample_disk sample_template (Some d2)) in
  exists html,
    Fs.get (SITE_DIR sample_env ++ ["index.html"])
      (Some (fs (snd (generate_site sample_env w1)))) = Some (File html) /\
    Fs.get (SITE_DIR sample_env ++ ["index.html"])
      (Some (fs (snd (generate_site sample_env w2)))) = Some (File html).
Proof.
  intros d1 d2 w1 w2.
  apply (rendering_is_deterministic sample_env w1 w2 _ _ d1 d2).
  - reflexivity.
  - reflexivity.
  - reflexivity.
  - apply perm_swap.
  - repeat constructor; simpl; intuition discriminate.
  - vm_compute. reflexivity.
  - vm_compute. reflexivity.
Defined.

Lemma template_directory_copied_whatever_its_name_witness :
  let tes := [("template.html", Dir [("x", File "1")]); (".DS_Store", Dir [])] in
  let w := world_of (sample_disk tes None) in
  Fs.get (SITE_DIR sample_env ++ ["template.html"])
    (Some (fs (snd (generate_site sample_env w)))) = Some (Dir [("x", File "1")]) /\
  Fs.get (SITE_DIR sample_env ++ [".DS_Store"])
    (Some (fs (snd (generate_site sample_env w)))) = Some (Dir []).
Proof.
  intros tes w. split.
  - apply (template_directory_copied_whatever_its_name sample_env w
             [("template", Dir tes); ("lambda_function.py", File "py")] tes).
    + reflexivity.
    + intros d. discriminate.
    + reflexivity.
    + repeat constructor; simpl; intuition discriminate.
    + simpl. tauto.
  - apply (template_directory_copied_whatever_its_name sample_env w
             [("template", Dir tes); ("lambda_function.py", File "py")] tes).
    + reflexivity.
    + intros d. discriminate.
    + reflexivity.
    + repeat constructor; simpl; intuition discriminate.
    + simpl. tauto.
Defined.

(** * Further properties of the stages *)

(** ** Key extraction *)

Lemma starts_with_app (p a b : string) :
  Str.starts_with p a = true -> Str.starts_with p (a +:+ b) = true.
Proof.
  revert a. induction p as [|c p IH]; intros a H; [reflexivity |].
  destruct a as [|d a]; [discriminate |]. simpl in *.
  apply andb_true_iff in H as [Hc H]. rewrite Hc. simpl. now apply IH.
Qed.

(** The group is lazy: what it captures holds no [.csv]. *)
Lemma lazy_group_csv_shortest (s g : string) :
  Re.lazy_group_csv s = Some g -> Str.contains ".csv" g = false.
Proof.
  revert g. induction s as [|c s IH]; intros g H; [discriminate |].
  pose proof H as Hinv. apply lazy_group_csv_inv in Hinv as [_ [tail Htail]].
  rewrite lazy_group_csv_cons in H.
  destruct (Str.starts_with ".csv" (String c s)) eqn:Hp.
  - injection H as <-. reflexivity.
  - destruct (Re.dot c); [| discriminate].
    destruct (Re.lazy_group_csv s) as [g'|]; [| discriminate].
    injection H as <-.
    change (Str.contains ".csv" (String c g'))
      with (Str.starts_with ".csv" (String c g') || Str.contains ".csv" g').
    rewrite (IH g' eq_refl), orb_false_r.
    destruct (Str.starts_with ".csv" (String c g')) eqn:Hg; [| reflexivity].
    apply (starts_with_app _ _ (".csv" +:+ tail)) in Hg.
    rewrite <- Htail in Hg. congruence.
Qed.

(** X1.  What key extraction returns is always the text between an
    underscore that follows a digit and the first [.csv] after it: the key
    holds neither a newline nor [.csv], and the pattern matches at no
    earlier position of the name. *)
Theorem extracted_key_is_leftmost_shortest
    (name key : string) (w w' : world) :
  original_name_of name w = (Ok key, w') ->
  exists pre d post,
    name = pre +:+ String d ("_" +:+ key +:+ ".csv" +:+ post) /\
    Re.digit d = true /\
    Str.mem "010" key = false /\
    Str.contains ".csv" key = false /\
    forall pre1 c pre2,
      pre = pre1 +:+ String c pre2 ->
      Re.match_here
        (String c pre2 +:+ String d ("_" +:+ key +:+ ".csv" +:+ post)) = None.
Proof.
  unfold original_name_of. destruct (Re.search name) as [g|] eqn:Hs;
    [| discriminate].
  intros [= -> _]. revert Hs. induction name as [|a name IH]; [discriminate |].
  rewrite search_cons. destruct (Re.match_here (String a name)) as [g|] eqn:Hm.
  - intros [= ->].
    destruct name as [|u rest]; [discriminate |]. unfold Re.match_here in Hm.
    destruct (Re.digit a) eqn:Hd; [| discriminate].
    destruct (Ascii.eqb u "_") eqn:Hu; [| discriminate]. cbn [andb] in Hm.
    apply Ascii.eqb_eq in Hu as ->.
    pose proof (lazy_group_csv_shortest _ _ Hm) as Hshort.
    apply lazy_group_csv_inv in Hm as [Hnl [post ->]].
    exists EmptyString, a, post. repeat split; try assumption.
    intros [|x pre1] c pre2 H; discriminate.
  - intros Hs. destruct (IH Hs) as (pre & d & post & -> & Hd & Hnl & Hc & Hleft).
    exists (String a pre), d, post. repeat split; try assumption.
    intros [|x pre1] c pre2 H; simpl in H.
    + injection H as <- <-. exact Hm.
    + injection H as <- H. now apply Hleft with (pre1 := pre1).
Qed.

Lemma digit_not_underscore (c : ascii) :
  Re.digit c = true -> Ascii.eqb c "_" = false.
Proof.
  intros Hd. destruct (Ascii.eqb c "_") eqn:Hu; [| reflexivity].
  apply Ascii.eqb_eq in Hu. subst c. discriminate.
Qed.

(** X2.  The ordinal may have any number of digits: for a name made of
    digits, an underscore, a key without newline and without [.csv], and
    [.csv], key extraction returns the key. *)
Theorem ordinal_may_have_several_digits
    (digits : string) (d : ascii) (key : string) (w : world) :
  all_chars Re.digit digits = true ->
  Re.digit d = true ->
  Str.mem "010" key = false ->
  Str.contains ".csv" key = false ->
  original_name_of (digits +:+ String d ("_" +:+ key +:+ ".csv")) w
  = (Ok key, w).
Proof.
  intros Hds Hd Hnl Hc. unfold original_name_of.
  assert (Hs : Re.search (digits +:+ String d ("_" +:+ key +:+ ".csv"))
               = Some key).
  { induction digits as [|c digits IH].
    - now apply search_form.
    - simpl in Hds. apply andb_true_iff in Hds as [Hcd Hds].
      change (String c digits +:+ String d ("_" +:+ key +:+ ".csv"))
        with (String c (digits +:+ String d ("_" +:+ key +:+ ".csv"))).
      rewrite search_cons.
      assert (Hm : Re.match_here
                     (String c (digits +:+ String d ("_" +:+ key +:+ ".csv")))
                   = None).
      { unfold Re.match_here. destruct digits as [|c' digits].
        - simpl. now rewrite (digit_not_underscore d Hd), andb_false_r.
        - simpl in Hds. apply andb_true_iff in Hds as [Hc' _].
          simpl. now rewrite (digit_not_underscore c' Hc'), andb_false_r. }
      rewrite Hm. now apply IH. }
  now rewrite Hs.
Qed.

(** ** The fetcher *)

(** X3.  [rmtree(..., ignore_errors=True)] leaves a regular file where it
    is, and [mkdir] then finds the name taken: when [data] is a regular file
    [download_sheets] raises [FileExistsError] before it asks for the
    workbook, and when [site] is one [generate_site] raises it before it
    copies or reads anything.  The world is left as it was. *)
Theorem regular_file_blocks_the_reset (E : env) (w : world) res :
  Fs.get (ROOT_DIR E) (Some (fs w)) = Some (Dir res) ->
  (forall d, Entries.get "data" res = Some (File d) ->
             download_sheets E w = (Raise FileExistsError, w)) /\
  (forall d, Entries.get "site" res = Some (File d) ->
             generate_site E w = (Raise FileExistsError, w)).
Proof.
  intros Hroot. split; intros d Hd.
  - unfold download_sheets. rewrite seq_assoc.
    eapply bind_raise. eapply reset_dir_blocked; eassumption.
  - unfold generate_site. rewrite seq_assoc.
    eapply bind_raise. eapply reset_dir_blocked; eassumption.
Qed.

(** X4.  The data directory is emptied before the spreadsheet service is
    asked: when the service fails, [download_sheets] raises its error and
    the data directory is left empty, whatever it held. *)
Theorem failed_fetch_leaves_data_empty (E : env) (w : world) res (e : exn) :
  Fs.get (ROOT_DIR E) (Some (fs w)) = Some (Dir res) ->
  (forall d, Entries.get "data" res <> Some (File d)) ->
  open_workbook E = Raise e ->
  exists t,
    download_sheets E w = (Raise e, with_fs w t) /\
    Fs.get (DATA_DIR E) (Some t) = Some (Dir []).
Proof.
  intros Hroot Hdata Hwb.
  destruct (reset_dir (ROOT_DIR E) "data" w res Hroot Hdata) as (t0 & Hreset & Ht0).
  exists t0. split.
  - unfold download_sheets. rewrite seq_assoc.
    erewrite bind_ok; [| exact Hreset].
    eapply bind_raise. unfold lift. now rewrite Hwb.
  - unfold DATA_DIR. rewrite get_app, Ht0. simpl.
    now rewrite entries_get_set_same.
Qed.

(** X5.  There is no partial-success bookkeeping: when a sheet cannot be
    read, [download_sheets] raises the error of that sheet, the files of the
    sheets before it (sheets whose files can be written: readable, with
    different titles without slash or NUL, within the limits of the system)
    stay in the data directory, and no later sheet is written: the entries
    of the data directory are the files of the sheets before it, in some
    order. *)
Theorem unreadable_sheet_stops_the_fetch
    (E : env) (w : world) res (before after : list sheet) (s : sheet) (e : exn) :
  Fs.get (ROOT_DIR E) (Some (fs w)) = Some (Dir res) ->
  (forall d, Entries.get "data" res <> Some (File d)) ->
  open_workbook E = Ok (before ++ s :: after) ->
  (forall s', In s' before -> exists values, get_all_values s' = Ok values) ->
  List.NoDup (map title before) ->
  (forall s', In s' before ->
     Str.mem "/" (title s') = false /\ Str.mem "000" (title s') = false) ->
  (forall s', In s' before -> within_limits E s') ->
  get_all_values s = Raise e ->
  exists w' files,
    download_sheets E w = (Raise e, w') /\
    Fs.get (DATA_DIR E) (Some (fs w')) = Some (Dir files) /\
    Permutation files (map (sheet_file E) before).
Proof.
  intros Hroot Hdata Hwb Hread Hnd Htitles Hlimits Hs.
  destruct (reset_dir (ROOT_DIR E) "data" w res Hroot Hdata) as (t0 & Hreset & Ht0).
  assert (Hd0 : Fs.get (DATA_DIR E) (Some (fs (with_fs w t0))) = Some (Dir [])).
  { unfold DATA_DIR. simpl. rewrite get_app, Ht0. simpl.
    now rewrite entries_get_set_same. }
  destruct (write_sheets E before Hnd
              (fun s' H =>
                 conj (Hread s' H)
                   (conj (proj1 (Htitles s' H))
                      (conj (proj2 (Htitles s' H)) (Hlimits s' H))))
              (with_fs w t0) [] Hd0 (fun _ _ => eq_refl)) as (w' & Hloop & Hd').
  exists w', (map (sheet_file E) before).
  split; [| split; [exact Hd' | apply Permutation_refl]].
  unfold download_sheets. rewrite seq_assoc.
  erewrite bind_ok; [| exact Hreset].
  erewrite bind_ok; [| unfold lift; rewrite Hwb; reflexivity].
  rewrite for_each_app. erewrite bind_ok; [| exact Hloop].
  simpl for_each. eapply bind_raise.
  unfold download_sheet. eapply bind_raise. unfold lift. now rewrite Hs.
Qed.

Lemma disk_same_outside_refl (P : path) (w : world) : disk_same_outside P w w.
Proof. split; [apply same_store_refl | reflexivity]. Qed.

Lemma disk_same_outside_trans (P : path) (a b c : world) :
  disk_same_outside P a b -> disk_same_outside P b c -> disk_same_outside P a c.
Proof.
  intros [S1 F1] [S2 F2]. split.
  - eapply same_store_trans; eassumption.
  - intros q Hq. rewrite F2, F1; auto.
Qed.

Lemma same_outside_disk (P : path) (w w' : world) :
  same_outside P w w' -> disk_same_outside P w w'.
Proof. intros (S & _ & F). now split. Qed.

Lemma preserves_for_each_in {A} (R : world -> world -> Prop)
    (l : list A) (body : A -> M unit) :
  (forall w, R w w) -> (forall a b c, R a b -> R b c -> R a c) ->
  (forall x, In x l -> preserves R (body x)) -> preserves R (for_each l body).
Proof.
  intros Hr Ht. induction l as [|x l IH]; intros Hb; simpl.
  - now apply preserves_ret.
  - apply preserves_bind; [exact Ht | apply Hb; now left | intros _].
    apply IH. intros y Hy. apply Hb. now right.
Qed.

Lemma download_sheets_disk_frame (E : env) (w : world) :
  (forall sheets s,
      open_workbook E = Ok sheets -> In s sheets ->
      Str.mem "/" (title s) = false /\ Str.mem "000" (title s) = false) ->
  disk_same_outside (DATA_DIR E) w (snd (download_sheets E w)).
Proof.
  intros Htitles. unfold download_sheets. rewrite bind_run.
  pose proof (rmtree_same_outside (DATA_DIR E) [] w) as R1.
  rewrite app_nil_r in R1. apply same_outside_disk in R1.
  destruct (rmtree_ignore_errors (DATA_DIR E) w) as [[[]|e] w1];
    [| exact R1].
  simpl in R1. rewrite bind_run.
  pose proof (mkdir_same_outside (DATA_DIR E) [] w1) as R2.
  rewrite app_nil_r in R2. apply same_outside_disk in R2.
  assert (R12 : disk_same_outside (DATA_DIR E) w (snd (mkdir (DATA_DIR E) w1)))
    by (eapply disk_same_outside_trans; eassumption).
  destruct (mkdir (DATA_DIR E) w1) as [[[]|e] w2]; [| exact R12].
  simpl in R12. rewrite bind_run. unfold lift at 1.
  destruct (open_workbook E) as [sheets|e] eqn:Hwb; [| exact R12].
  eapply disk_same_outside_trans; [exact R12 |].
  apply preserves_for_each_in;
    [apply disk_same_outside_refl | apply disk_same_outside_trans |].
  intros s Hs. destruct (Htitles sheets s eq_refl Hs) as [Hslash Hnul].
  destruct (csv_name_plain _ Hslash Hnul) as (N1 & N2 & N3 & N4 & N5).
  unfold download_sheet.
  apply preserves_bind; [apply disk_same_outside_trans | | intros values].
  { apply preserves_lift, disk_same_outside_refl. }
  apply preserves_bind; [apply disk_same_outside_trans | | intros _].
  { intros w0. split; [split; reflexivity | intros q _; reflexivity]. }
  intros w0.
  destruct (write_file_at_plain_cases (DATA_DIR E) (title s +:+ ".csv")
              (csv_writerows E values) w0 N1 N2 N3 N4 N5) as [-> | ->].
  - apply same_outside_disk, write_file_same_outside.
  - apply disk_same_outside_refl.
Qed.

(** X6.  When no title of the workbook holds a slash or a NUL, the fetcher
    writes below the data directory and nowhere else: whatever the outcome
    of the run, the disk away from [data], the bucket and the record of the
    calls are as they were. *)
Theorem fetcher_writes_only_below_data (E : env) (w : world) :
  (forall sheets s,
      open_workbook E = Ok sheets -> In s sheets ->
      Str.mem "/" (title s) = false /\ Str.mem "000" (title s) = false) ->
  bucket (snd (download_sheets E w)) = bucket w /\
  requests (snd (download_sheets E w)) = requests w /\
  (forall q, Fs.get (TEMPLATE_DIR E ++ q) (Some (fs (snd (download_sheets E w))))
             = Fs.get (TEMPLATE_DIR E ++ q) (Some (fs w))) /\
  (forall q, Fs.get (SITE_DIR E ++ q) (Some (fs (snd (download_sheets E w))))
             = Fs.get (SITE_DIR E ++ q) (Some (fs w))) /\
  (forall q, diverge (DATA_DIR E) q ->
             Fs.get q (Some (fs (snd (download_sheets E w))))
             = Fs.get q (Some (fs w))).
Proof.
  intros Htitles.
  destruct (download_sheets_disk_frame E w Htitles) as ([Hb Hr] & F).
  repeat split; try assumption.
  - intros q. apply F. unfold DATA_DIR, TEMPLATE_DIR. rewrite <- app_assoc.
    simpl. now apply diverge_siblings.
  - intros q. apply F. unfold DATA_DIR, SITE_DIR. rewrite <- app_assoc.
    simpl. now apply diverge_siblings.
Qed.

Lemma split_slash_app (a s : string) :
  Str.mem "/" a = false ->
  Str.split_slash (a +:+ String "/" s) = a :: Str.split_slash s.
Proof.
  induction a as [|c a IH]; intros H.
  - reflexivity.
  - simpl in H. apply orb_false_iff in H as [Hc H].
    change (String c a +:+ String "/" s) with (String c (a +:+ String "/" s)).
    simpl. now rewrite Hc, (IH H).
Qed.

Lemma write_file_at_run (base : path) (s data : string) (w : world) :
  Str.mem "000" s = false ->
  String.length (path_text base s) < Fs.PATH_MAX ->
  write_file_at base s data w
  = match Fs.resolve (fs w) (fst (path_div base s)) (snd (path_div base s)) with
    | Ok p => write_file p data w
    | Raise e => (Raise e, w)
    end.
Proof.
  intros Hz Hp. unfold write_file_at.
  destruct (path_div base s) as [start raw]. rewrite Hz.
  apply Nat.leb_gt in Hp. now rewrite Hp.
Qed.

(** X7.  The title of a sheet is joined to the data directory as it is.  A
    title that starts with [../] names a file in the directory above: when
    the name and the path are within the limits of the system, the rows of
    the sheet are written to [ROOT_DIR], beside the module, and the data
    directory gets no file for that sheet. *)
Theorem dotdot_title_escapes_the_data_directory
    (E : env) (w : world) (s : sheet) (t : string)
    (values : list (list string)) res :
  title s = "../" +:+ t ->
  Str.mem "/" t = false ->
  Str.mem "000" t = false ->
  get_all_values s = Ok values ->
  Fs.get (ROOT_DIR E) (Some (fs w)) = Some (Dir res) ->
  (exists files, Entries.get "data" res = Some (Dir files)) ->
  (forall sub, Entries.get (t +:+ ".csv") res <> Some (Dir sub)) ->
  String.length (t +:+ ".csv") <= Fs.NAME_MAX ->
  String.length (path_text (DATA_DIR E) (title s +:+ ".csv")) < Fs.PATH_MAX ->
  exists w',
    download_sheet E s w = (Ok tt, w') /\
    Fs.get (ROOT_DIR E ++ [t +:+ ".csv"]) (Some (fs w'))
      = Some (File (csv_writerows E values)) /\
    Fs.get (DATA_DIR E) (Some (fs w')) = Fs.get (DATA_DIR E) (Some (fs w)).
Proof.
  intros Ht Hslash Hnul Hv Hroot [files Hdata] Hnodir Hn Hpath.
  destruct (csv_name_plain _ Hslash Hnul) as (N1 & N2 & N3 & N4 & N5).
  rewrite Ht in Hpath.
  set (name := t +:+ ".csv") in *.
  set (w1 := {| fs := fs w; bucket := bucket w; requests := requests w;
                stdout := stdout w ++ ["Downloading: " +:+ title s] |}).
  pose proof (change_child false (ROOT_DIR E) name
    (fun o => match o with
              | Some (Dir _) => Raise IsADirectoryError
              | _ => Ok (Some (File (csv_writerows E values)))
              end) w1 res Hroot) as Hc.
  assert (Hok : exists t',
            write_file (ROOT_DIR E ++ [name]) (csv_writerows E values) w1
              = (Ok tt, with_fs w1 t') /\
            Fs.get (ROOT_DIR E) (Some t')
              = Some (Dir (Entries.put name
                             (Some (File (csv_writerows E values))) res))).
  { destruct (Entries.get name res) as [[d|sub]|] eqn:Hg.
    - exact Hc.
    - now destruct (Hnodir sub).
    - exact Hc. }
  destruct Hok as (t' & Hw & Ht').
  assert (Hne : name <> "data").
  { unfold name. destruct t as [|c t]; [discriminate |].
    intros Heq. apply (f_equal String.length) in Heq.
    rewrite str_length_append in Heq. simpl in Heq. lia. }
  exists (with_fs w1 t'). split; [| split].
  - unfold download_sheet.
    erewrite bind_ok; [| unfold lift; rewrite Hv; reflexivity].
    erewrite bind_ok; [| reflexivity].
    fold w1. rewrite Ht.
    change (("../" +:+ t) +:+ ".csv") with (".." +:+ String "/" name) in *.
    assert (Hz : Str.mem "000" (".." +:+ String "/" name) = false)
      by (simpl; exact N2).
    rewrite (write_file_at_run _ _ _ _ Hz Hpath).
    unfold path_div, path_parts.
    rewrite (split_slash_app ".." name eq_refl), (split_slash_plain _ N1).
    change (Str.starts_with "/" (".." +:+ String "/" name)) with false.
    cbn [List.filter String.eqb Ascii.eqb Bool.eqb negb andb fst snd].
    rewrite (string_eqb_false _ _ N3), (string_eqb_false _ _ N4).
    cbn [negb andb Fs.resolve String.eqb Ascii.eqb Bool.eqb].
    assert (Hd : Fs.get (DATA_DIR E) (Some (fs w1)) = Some (Dir files))
      by (unfold DATA_DIR; rewrite get_app; simpl; rewrite Hroot; simpl;
          now rewrite Hdata).
    rewrite Hd. unfold DATA_DIR. rewrite removelast_last.
    rewrite (string_eqb_false _ _ N5).
    change (fs w1) with (fs w). rewrite Hroot.
    apply Nat.ltb_ge in Hn. rewrite Hn. exact Hw.
  - simpl. rewrite get_app, Ht'. simpl. now rewrite entries_get_put_same.
  - unfold DATA_DIR. simpl. rewrite !get_app, Ht', Hroot. simpl.
    now rewrite entries_get_put_ne.
Qed.

(** ** The renderer *)

Lemma seq3_run {A} (a b c : M unit) (k : M A) (w : world) :
  (a;; b;; c;; k) w =
  match (a;; b;; c;; ret tt) w with
  | (Ok _, w1) => k w1
  | (Raise e, w1) => (Raise e, w1)
  end.
Proof.
  rewrite !bind_run. destruct (a w) as [[[]|e] w1]; [| reflexivity].
  rewrite !bind_run. destruct (b w1) as [[[]|e] w2]; [| reflexivity].
  rewrite !bind_run. now destruct (c w2) as [[[]|e] w3].
Qed.

(** The reset of the site directory and the copy of the template, in a
    module installed as [site_prepared] says: the site directory holds the
    copied entries, and the disk is otherwise as it was. *)
Lemma site_prepared_frame (E : env) (w : world) res tes :
  Fs.get (ROOT_DIR E) (Some (fs w)) = Some (Dir res) ->
  (forall d, Entries.get "site" res <> Some (File d)) ->
  Entries.get "template" res = Some (Dir tes) ->
  List.NoDup (Entries.names tes) ->
  exists t,
    (forall A (k : M A),
        (rmtree_ignore_errors (SITE_DIR E);; mkdir (SITE_DIR E);;
         copy_template E;; k) w = k (with_fs w t)) /\
    Fs.get (SITE_DIR E) (Some t) = Some (Dir (List.filter copied tes)) /\
    forall q, diverge (SITE_DIR E) q ->
              Fs.get q (Some t) = Fs.get q (Some (fs w)).
Proof.
  intros Hroot Hsite Htpl Hnd.
  destruct (site_prepared E (ret tt) w res tes Hroot Hsite Htpl Hnd)
    as (t & Hrun & Ht).
  exists t. split; [| split; [exact Ht |]].
  - intros A k. rewrite seq3_run, Hrun. reflexivity.
  - assert (Hp : preserves (same_outside (SITE_DIR E))
                   (rmtree_ignore_errors (SITE_DIR E);; mkdir (SITE_DIR E);;
                    copy_template E;; ret tt)).
    { apply preserves_bind; [apply same_outside_trans | | intros _].
      { rewrite <- (app_nil_r (SITE_DIR E)) at 2. apply rmtree_same_outside. }
      apply preserves_bind; [apply same_outside_trans | | intros _].
      { rewrite <- (app_nil_r (SITE_DIR E)) at 2. apply mkdir_same_outside. }
      apply preserves_bind; [apply same_outside_trans | | intros _].
      { apply copy_template_same_outside. }
      apply preserves_ret, same_outside_refl. }
    specialize (Hp w). rewrite Hrun in Hp. destruct Hp as (_ & _ & F). exact F.
Qed.

Lemma constant_ret {A} (a : A) : constant (ret a).
Proof. intros w w'. reflexivity. Qed.

Lemma constant_raise {A} (e : exn) : constant (@raise A e).
Proof. intros w w'. reflexivity. Qed.

Lemma constant_lift {A} (r : result A) : constant (lift r).
Proof. intros w w'. reflexivity. Qed.

Lemma constant_bind {A B} (m : M A) (k : A -> M B) :
  constant m -> preserves eq m -> (forall a, constant (k a)) ->
  constant (m ≫= k).
Proof.
  intros Hm Hr Hk w w'. rewrite !bind_run.
  rewrite (reads_run m w Hr), (reads_run m w' Hr), (Hm w w').
  destruct (fst (m w')) as [a|e]; [apply Hk | reflexivity].
Qed.

Lemma constant_map_each {A B} (l : list A) (f : A -> M B) :
  (forall x, constant (f x)) -> (forall x, preserves eq (f x)) ->
  constant (map_each l f).
Proof.
  intros Hc Hr. induction l as [|x l IH]; simpl.
  - apply constant_ret.
  - apply constant_bind; [apply Hc | apply Hr | intros y].
    apply constant_bind; [exact IH | | intros ys; apply constant_ret].
    apply preserves_map_each; [reflexivity | exact eq_world_trans | exact Hr].
Qed.

Lemma read_list_constant (E : env) (csv_file : string * node) :
  constant (read_list E csv_file).
Proof.
  unfold read_list, original_name_of, read_entry.
  apply constant_bind.
  - destruct (Re.search (fst csv_file)); [apply constant_ret | apply constant_raise].
  - destruct (Re.search (fst csv_file)); reads_only.
  - intros key. apply constant_bind.
    + destruct (snd csv_file); [apply constant_ret | apply constant_raise].
    + destruct (snd csv_file); reads_only.
    + intros text. apply constant_bind;
        [apply constant_lift | reads_only | intros rows; apply constant_ret].
Qed.

Lemma csv_files_depends (E : env) (w1 w2 : world) :
  Fs.get (DATA_DIR E) (Some (fs w1)) = Fs.get (DATA_DIR E) (Some (fs w2)) ->
  fst (csv_files E w1) = fst (csv_files E w2).
Proof.
  intros H. unfold csv_files. rewrite !bind_run. unfold iterdir. rewrite H.
  now destruct (Fs.get (DATA_DIR E) (Some (fs w2))) as [[|]|].
Qed.

Lemma get_template_depends (E : env) (name : string) (w1 w2 : world) :
  Fs.get (TEMPLATE_DIR E) (Some (fs w1)) = Fs.get (TEMPLATE_DIR E) (Some (fs w2)) ->
  fst (get_template E name w1) = fst (get_template E name w2).
Proof.
  intros H. unfold get_template. rewrite !bind_run. unfold lookup_path.
  rewrite H. destruct (Fs.get (TEMPLATE_DIR E) (Some (fs w2))) as [[|es]|];
    try reflexivity.
  destruct (Entries.get name es) as [[src|]|]; try reflexivity.
  rewrite !bind_run. unfold lift. now destruct (jinja2_compile E (Dir es) src).
Qed.

(** The page, or the error, is a function of the template directory and of
    the sorted list of the data files. *)
Lemma render_index_depends (E : env) (w1 w2 : world) :
  Fs.get (TEMPLATE_DIR E) (Some (fs w1)) = Fs.get (TEMPLATE_DIR E) (Some (fs w2)) ->
  fst (csv_files E w1) = fst (csv_files E w2) ->
  fst (render_index E w1) = fst (render_index E w2).
Proof.
  intros Ht Hf. unfold render_index. rewrite !bind_run.
  rewrite (reads_run _ w1 (get_template_reads E "template.html")).
  rewrite (reads_run _ w2 (get_template_reads E "template.html")).
  rewrite (get_template_depends E _ w1 w2 Ht).
  destruct (fst (get_template E "template.html" w2)) as [template|e];
    [| reflexivity].
  rewrite !bind_run. unfold collect_lists. rewrite !bind_run.
  rewrite (reads_run _ w1 (csv_files_reads E)).
  rewrite (reads_run _ w2 (csv_files_reads E)), Hf.
  destruct (fst (csv_files E w2)) as [files|e]; [| reflexivity].
  pose proof (constant_map_each files (read_list E)
                (read_list_constant E) (read_list_reads E) w1 w2) as Hm.
  pose proof (preserves_map_each eq (fun w => eq_refl) eq_world_trans files
                (read_list E) (read_list_reads E)) as Hr.
  rewrite (reads_run _ w1 Hr), (reads_run _ w2 Hr), Hm.
  now destruct (fst (map_each files (read_list E) w2)).
Qed.

(** The site directory after a run of [generate_site] that returns, in the
    listing of the model. *)
Lemma site_after_run
    (E : env) (w w' : world) res tes :
  Fs.get (ROOT_DIR E) (Some (fs w)) = Some (Dir res) ->
  (forall d, Entries.get "site" res <> Some (File d)) ->
  Entries.get "template" res = Some (Dir tes) ->
  List.NoDup (Entries.names tes) ->
  generate_site E w = (Ok tt, w') ->
  exists html,
    fst (render_index E w) = Ok html /\
    Fs.get (SITE_DIR E) (Some (fs w'))
    = Some (Dir (Entries.set "index.html" (File html)
                   (List.filter copied tes))).
Proof.
  intros Hroot Hsite Htpl Hnd Hrun.
  destruct (site_prepared_frame E w res tes Hroot Hsite Htpl Hnd)
    as (t & Hprep & Ht & Hframe).
  unfold generate_site in Hrun. rewrite Hprep in Hrun.
  apply bind_ok_inv in Hrun as (html & w1 & Hr & Hw).
  assert (w1 = with_fs w t).
  { pose proof (render_index_reads E (with_fs w t)) as Hp.
    rewrite Hr in Hp. now symmetry. }
  subst w1. exists html. split.
  - rewrite <- (render_index_depends E (with_fs w t) w).
    + now rewrite Hr.
    + pose proof (site_template_diverge E []) as Hdv.
      rewrite app_nil_r in Hdv. now apply Hframe.
    + apply csv_files_depends. pose proof (site_data_diverge E []) as Hdv.
      rewrite app_nil_r in Hdv. now apply Hframe.
  - pose proof (change_child false (SITE_DIR E) "index.html"
      (fun o => match o with
                | Some (Dir _) => Raise IsADirectoryError
                | _ => Ok (Some (File html))
                end) (with_fs w t) _ Ht) as Hc.
    unfold write_file in Hw.
    destruct (Entries.get "index.html" (List.filter copied tes)) as [[d|sub]|].
    + destruct Hc as (t' & Hc & Ht'). rewrite Hc in Hw. injection Hw as <-.
      exact Ht'.
    + rewrite Hc in Hw. discriminate.
    + destruct Hc as (t' & Hc & Ht'). rewrite Hc in Hw. injection Hw as <-.
      exact Ht'.
Qed.

Lemma entries_get_filter (f : string * node -> bool) (name : string) es :
  List.NoDup (Entries.names es) ->
  Entries.get name (List.filter f es)
  = match Entries.get name es with
    | Some x => if f (name, x) then Some x else None
    | None => None
    end.
Proof.
  induction es as [|[n x] es IH]; intros Hnd; [reflexivity |].
  simpl in Hnd. apply NoDup_cons_iff in Hnd as [Hn Hnd].
  cbn [List.filter Entries.get].
  destruct (String.eqb n name) eqn:Heq.
  - apply String.eqb_eq in Heq. subst n.
    destruct (f (name, x)).
    + cbn [Entries.get]. now rewrite String.eqb_refl.
    + rewrite (IH Hnd).
      destruct (Entries.get name es) as [y|] eqn:Hg; [| reflexivity].
      exfalso. apply Hn. apply entries_get_some_in in Hg.
      now apply (in_map fst) in Hg.
  - destruct (f (n, x)).
    + cbn [Entries.get]. rewrite Heq. now apply IH.
    + now apply IH.
Qed.

(** X8.  Every run starts from an empty site directory.  When
    [generate_site] returns, [site] is a directory in which [index.html] is
    the page; under every other name it holds what the template directory
    holds under that name, the same at every path below it, when the
    template has that name as a directory or as a file not called
    [template.html] or [.DS_Store]; and it holds nothing under a name that
    the template has not or that is one of these two files.  Whatever the
    site directory held before is gone.  The order of the listings is left
    open. *)
Theorem site_is_the_template_copy_and_the_page
    (E : env) (w w' : world) res tes :
  Fs.get (ROOT_DIR E) (Some (fs w)) = Some (Dir res) ->
  (forall d, Entries.get "site" res <> Some (File d)) ->
  Entries.get "template" res = Some (Dir tes) ->
  List.NoDup (Entries.names tes) ->
  generate_site E w = (Ok tt, w') ->
  exists html,
    fst (render_index E w) = Ok html /\
    look (SITE_DIR E) (fs w') = Directory /\
    look (SITE_DIR E ++ ["index.html"]) (fs w') = Regular html /\
    forall name q,
      name <> "index.html" ->
      look (SITE_DIR E ++ name :: q) (fs w')
      = match look (TEMPLATE_DIR E ++ [name]) (fs w) with
        | Directory => look (TEMPLATE_DIR E ++ name :: q) (fs w)
        | Regular _ =>
            if String.eqb name "template.html" || String.eqb name ".DS_Store"
            then Nothing
            else look (TEMPLATE_DIR E ++ name :: q) (fs w)
        | Nothing => Nothing
        end.
Proof.
  intros Hroot Hsite Htpl Hnd Hrun.
  destruct (site_after_run E w w' res tes Hroot Hsite Htpl Hnd Hrun)
    as (html & Hr & Hs).
  exists html. split; [exact Hr |].
  assert (Hsl : forall name q,
            Fs.get (SITE_DIR E ++ name :: q) (Some (fs w'))
            = Fs.get q (Entries.get name
                          (Entries.set "index.html" (File html)
                             (List.filter copied tes)))).
  { intros name q. now rewrite get_app, Hs. }
  assert (Htl : forall name q,
            Fs.get (TEMPLATE_DIR E ++ name :: q) (Some (fs w))
            = Fs.get q (Entries.get name tes)).
  { intros name q. unfold TEMPLATE_DIR. rewrite <- app_assoc.
    rewrite get_app, Hroot. simpl. now rewrite Htpl. }
  split; [| split].
  - unfold look. now rewrite Hs.
  - unfold look. rewrite Hsl, entries_get_set_same. reflexivity.
  - intros name q Hne. unfold look. rewrite Hsl, !Htl.
    rewrite entries_get_set_ne by congruence.
    rewrite (entries_get_filter copied name tes Hnd).
    destruct (Entries.get name tes) as [[d|sub]|]; cbn [Fs.get].
    + unfold copied. cbn [fst snd].
      destruct (String.eqb name "template.html"); cbn [negb andb orb];
        [now rewrite get_none |].
      destruct (String.eqb name ".DS_Store"); cbn [negb andb orb];
        [now rewrite get_none | reflexivity].
    + reflexivity.
    + now rewrite get_none.
Qed.

(** X9.  [generate_site] writes below the site directory and nowhere else:
    whatever the outcome of the run, the template directory, the data
    directory and every other part of the disk away from [site] are as they
    were, nothing is printed, and the bucket and the record of the calls are
    untouched. *)
Theorem renderer_writes_only_below_site (E : env) (w : world) :
  bucket (snd (generate_site E w)) = bucket w /\
  requests (snd (generate_site E w)) = requests w /\
  stdout (snd (generate_site E w)) = stdout w /\
  (forall q, Fs.get (TEMPLATE_DIR E ++ q) (Some (fs (snd (generate_site E w))))
             = Fs.get (TEMPLATE_DIR E ++ q) (Some (fs w))) /\
  (forall q, Fs.get (DATA_DIR E ++ q) (Some (fs (snd (generate_site E w))))
             = Fs.get (DATA_DIR E ++ q) (Some (fs w))) /\
  (forall q, diverge (SITE_DIR E) q ->
             Fs.get q (Some (fs (snd (generate_site E w))))
             = Fs.get q (Some (fs w))).
Proof.
  destruct (generate_site_same_outside E w) as ([Hb Hr] & Ho & F).
  repeat split; try assumption.
  - intros q. apply F, site_template_diverge.
  - intros q. apply F, site_data_diverge.
Qed.

(** X10.  The template is looked up after the assets were copied: when the
    template directory has no regular file [template.html],
    [generate_site] raises [TemplateNotFound] and leaves a site directory
    that holds the copied entries and no page. *)
Theorem missing_template_leaves_site_without_page
    (E : env) (w : world) res tes :
  Fs.get (ROOT_DIR E) (Some (fs w)) = Some (Dir res) ->
  (forall d, Entries.get "site" res <> Some (File d)) ->
  Entries.get "template" res = Some (Dir tes) ->
  List.NoDup (Entries.names tes) ->
  (forall src, Entries.get "template.html" tes <> Some (File src)) ->
  exists w',
    generate_site E w = (Raise TemplateNotFound, w') /\
    Fs.get (SITE_DIR E) (Some (fs w')) = Some (Dir (List.filter copied tes)).
Proof.
  intros Hroot Hsite Htpl Hnd Hmiss.
  destruct (site_prepared_frame E w res tes Hroot Hsite Htpl Hnd)
    as (t & Hprep & Ht & Hframe).
  exists (with_fs w t). split; [| exact Ht].
  unfold generate_site. rewrite Hprep. eapply bind_raise.
  unfold render_index. eapply bind_raise.
  unfold get_template. rewrite bind_run. unfold lookup_path.
  assert (Htd : Fs.get (TEMPLATE_DIR E) (Some (fs (with_fs w t)))
                = Some (Dir tes)).
  { simpl. pose proof (site_template_diverge E []) as Hdv.
    rewrite app_nil_r in Hdv. rewrite (Hframe _ Hdv).
    unfold TEMPLATE_DIR. rewrite get_app, Hroot. simpl. now rewrite Htpl. }
  rewrite Htd.
  destruct (Entries.get "template.html" tes) as [[src|sub]|] eqn:Hg;
    try reflexivity.
  now destruct (Hmiss src).
Qed.

(** X11.  The [.csv] entries of the data directory are not tested for being
    files: a directory whose name ends in [.csv] is taken for a data file,
    and the run raises instead of skipping it. *)
Theorem directory_named_csv_aborts
    (E : env) (w : world) ddir (name : string) sub :
  Fs.get (DATA_DIR E) (Some (fs w)) = Some (Dir ddir) ->
  In (name, Dir sub) ddir ->
  suffix name = ".csv" ->
  exists e, fst (generate_site E w) = Raise e.
Proof.
  intros Hd Hin Hsuf.
  destruct (generate_site E w) as [[[]|e] w'] eqn:Hrun; [| now exists e].
  exfalso.
  destruct (generate_site_ok_inv E w w' ddir Hd Hrun)
    as (tdir & src & cats & html & _ & _ & Hc & _).
  assert (Hfile : In (name, Dir sub) (sort (List.filter is_csv ddir))).
  { eapply Permutation_in; [symmetry; apply sort_perm |].
    apply filter_In. split; [exact Hin |].
    unfold is_csv. simpl. rewrite Hsuf. reflexivity. }
  destruct (Forall2_pick _ _ _ _ Hc Hfile) as (c & key & text & rows & _ & Hx & _).
  discriminate.
Qed.

Lemma csv_files_of_listing (E : env) (w : world) ddir :
  Fs.get (DATA_DIR E) (Some (fs w)) = Some (Dir ddir) ->
  fst (csv_files E w) = Ok (sort (List.filter is_csv ddir)).
Proof.
  intros H. unfold csv_files. rewrite bind_run. unfold iterdir. now rewrite H.
Qed.

(** X12.  Entries of the data directory whose suffix is not [.csv] are
    skipped, silently: two installations with the same template directory
    whose data directories have the same [.csv] entries end in the same
    outcome of [generate_site] and with the same site directory, whatever
    else the data directories hold. *)
Theorem entries_without_csv_suffix_are_skipped
    (E : env) (w1 w2 : world) res1 res2 tes d1 d2 :
  Fs.get (ROOT_DIR E) (Some (fs w1)) = Some (Dir res1) ->
  Fs.get (ROOT_DIR E) (Some (fs w2)) = Some (Dir res2) ->
  (forall d, Entries.get "site" res1 <> Some (File d)) ->
  (forall d, Entries.get "site" res2 <> Some (File d)) ->
  Entries.get "template" res1 = Some (Dir tes) ->
  Entries.get "template" res2 = Some (Dir tes) ->
  List.NoDup (Entries.names tes) ->
  Entries.get "data" res1 = Some (Dir d1) ->
  Entries.get "data" res2 = Some (Dir d2) ->
  List.filter is_csv d1 = List.filter is_csv d2 ->
  fst (generate_site E w1) = fst (generate_site E w2) /\
  Fs.get (SITE_DIR E) (Some (fs (snd (generate_site E w1))))
  = Fs.get (SITE_DIR E) (Some (fs (snd (generate_site E w2)))).
Proof.
  intros Hr1 Hr2 Hs1 Hs2 Ht1 Ht2 Hnd Hd1 Hd2 Hcsv.
  destruct (site_prepared_frame E w1 res1 tes Hr1 Hs1 Ht1 Hnd)
    as (t1 & Hp1 & Hsite1 & F1).
  destruct (site_prepared_frame E w2 res2 tes Hr2 Hs2 Ht2 Hnd)
    as (t2 & Hp2 & Hsite2 & F2).
  unfold generate_site. rewrite Hp1, Hp2, !bind_run.
  rewrite (reads_run _ (with_fs w1 t1) (render_index_reads E)).
  rewrite (reads_run _ (with_fs w2 t2) (render_index_reads E)).
  pose proof (site_template_diverge E []) as Hdt.
  pose proof (site_data_diverge E []) as Hdd.
  rewrite app_nil_r in Hdt, Hdd.
  assert (Hsame : fst (render_index E (with_fs w1 t1))
                  = fst (render_index E (with_fs w2 t2))).
  { apply render_index_depends.
    - simpl. rewrite (F1 _ Hdt), (F2 _ Hdt). unfold TEMPLATE_DIR.
      rewrite !get_app, Hr1, Hr2. simpl. now rewrite Ht1, Ht2.
    - rewrite (csv_files_of_listing E (with_fs w1 t1) d1),
              (csv_files_of_listing E (with_fs w2 t2) d2).
      + now rewrite Hcsv.
      + simpl. rewrite (F2 _ Hdd). unfold DATA_DIR.
        rewrite get_app, Hr2. simpl. now rewrite Hd2.
      + simpl. rewrite (F1 _ Hdd). unfold DATA_DIR.
        rewrite get_app, Hr1. simpl. now rewrite Hd1. }
  rewrite Hsame.
  destruct (fst (render_index E (with_fs w2 t2))) as [html|e].
  - pose proof (change_child false (SITE_DIR E) "index.html"
      (fun o => match o with
                | Some (Dir _) => Raise IsADirectoryError
                | _ => Ok (Some (File html))
                end) (with_fs w1 t1) _ Hsite1) as C1.
    pose proof (change_child false (SITE_DIR E) "index.html"
      (fun o => match o with
                | Some (Dir _) => Raise IsADirectoryError
                | _ => Ok (Some (File html))
                end) (with_fs w2 t2) _ Hsite2) as C2.
    unfold write_file.
    destruct (Entries.get "index.html" (List.filter copied tes)) as [[d|sub]|].
    + destruct C1 as (u1 & -> & U1). destruct C2 as (u2 & -> & U2).
      simpl. now rewrite U1, U2.
    + rewrite C1, C2. simpl. now rewrite Hsite1, Hsite2.
    + destruct C1 as (u1 & -> & U1). destruct C2 as (u2 & -> & U2).
      simpl. now rewrite U1, U2.
  - simpl. now rewrite Hsite1, Hsite2.
Qed.

(** ** The publisher *)

(** X13.  The publisher reads the disk and never writes it: whatever the
    outcome of [upload_recursively_to_s3] on the site directory, the local
    disk is as it was and nothing was printed. *)
Theorem publisher_leaves_the_disk_alone (E : env) (w : world) :
  fs (snd (upload_site E w)) = fs w /\
  stdout (snd (upload_site E w)) = stdout w.
Proof.
  destruct (Fs.get (SITE_DIR E) (Some (fs w))) as [[data|ses]|] eqn:Hs.
  - unfold upload_site. rewrite bind_run. unfold lookup_path. rewrite Hs.
    now split.
  - rewrite (upload_site_run E w ses Hs).
    destruct (run_calls E (site_requests E (Dir ses)) w)
      as (acc & tried & rest & _ & _ & _ & _ & Hf & Ho & _).
    now split.
  - unfold upload_site. rewrite bind_run. unfold lookup_path. rewrite Hs.
    now split.
Qed.

Lemma run_calls_rejected (E : env) (before after : list s3_call)
    (c : s3_call) (e : exn) (w : world) :
  (forall b, In b before -> s3_accepts E b = Ok tt) ->
  s3_accepts E c = Raise e ->
  exists w',
    for_each (before ++ c :: after) (upload_file E) w = (Raise e, w') /\
    requests w' = requests w ++ before ++ [c] /\
    bucket w' = store before (bucket w).
Proof.
  revert w. induction before as [|b before IH]; intros w Hacc Hrej.
  - simpl. rewrite bind_run. unfold upload_file at 1. rewrite Hrej.
    eexists. split; [reflexivity |]. now split.
  - simpl app. simpl for_each. rewrite bind_run. unfold upload_file at 1.
    rewrite (Hacc b) by now left.
    match goal with
    | |- context [for_each (before ++ c :: after) (upload_file E) ?w1] =>
        destruct (IH w1) as (w' & Hrun & Hr & Hb)
    end.
    { intros b' Hb'. apply Hacc. now right. }
    { exact Hrej. }
    exists w'. split; [exact Hrun |]. simpl in Hr, Hb. split.
    + rewrite Hr, <- app_assoc. reflexivity.
    + rewrite Hb. reflexivity.
Qed.

(** X14.  A call that the storage service rejects ends the run at once:
    [upload_recursively_to_s3] raises the error of the first rejected call,
    the files before it in the walk are stored, and no call is made for the
    files after it. *)
Theorem rejected_upload_stops_the_publisher
    (E : env) (w : world) ses (before after : list s3_call)
    (c : s3_call) (e : exn) :
  Fs.get (SITE_DIR E) (Some (fs w)) = Some (Dir ses) ->
  site_requests E (Dir ses) = before ++ c :: after ->
  (forall b, In b before -> s3_accepts E b = Ok tt) ->
  s3_accepts E c = Raise e ->
  fst (upload_site E w) = Raise e /\
  requests (snd (upload_site E w)) = requests w ++ before ++ [c] /\
  bucket (snd (upload_site E w)) = store before (bucket w).
Proof.
  intros Hs Hreq Hacc Hrej. rewrite (upload_site_run E w ses Hs), Hreq.
  destruct (run_calls_rejected E before after c e w Hacc Hrej)
    as (w' & -> & Hr & Hb).
  now repeat split.
Qed.

(** *** Keys of a well-formed site *)

Lemma well_formed_unfold es :
  well_formed (Dir es) <->
  List.NoDup (Entries.names es) /\ well_formed_entries es.
Proof.
  simpl. enough (H : forall l,
    (fix all (es : list (string * node)) : Prop :=
       match es with
       | [] => True
       | (name, y) :: rest =>
           Str.mem "/" name = false /\ well_formed y /\ all rest
       end) l <-> well_formed_entries l) by (now rewrite H).
  induction l as [|[name y] l IH]; simpl; [tauto | now rewrite IH].
Qed.

Lemma split_join (p : list string) :
  p <> [] -> Forall (fun c => Str.mem "/" c = false) p ->
  Str.split_slash (Str.join "/" p) = p.
Proof.
  induction p as [|a p IH]; intros Hne Hp; [congruence |].
  apply Forall_cons_iff in Hp as [Ha Hp].
  destruct p as [|b p].
  - simpl. now apply split_slash_plain.
  - rewrite join_cons by discriminate.
    change (a +:+ "/" +:+ Str.join "/" (b :: p))
      with (a +:+ String "/" (Str.join "/" (b :: p))).
    rewrite split_slash_app by exact Ha. f_equal.
    apply IH; [discriminate | exact Hp].
Qed.

Lemma files_in_heads es (f : list string * string) :
  In f (files_in es) ->
  exists name rest, fst f = name :: rest /\ In name (Entries.names es).
Proof.
  induction es as [|[name y] es IH]; [contradiction |].
  rewrite files_in_cons. intros Hin.
  apply in_app_or in Hin as [Hin|Hin].
  - destruct y as [data|sub].
    + destruct Hin as [<-|[]]. exists name, []. split; [reflexivity | now left].
    + apply in_map_iff in Hin as (g & <- & _).
      exists name, (fst g). split; [reflexivity | now left].
  - destruct (IH Hin) as (n & rest & Hf & Hn).
    exists n, rest. split; [exact Hf | now right].
Qed.

Lemma files_under_plain (x : node) :
  well_formed x ->
  forall f, In f (files_under x) ->
            Forall (fun c => Str.mem "/" c = false) (fst f).
Proof.
  induction x as [data|es IH] using node_nested_ind; [contradiction |].
  intros Hwf f Hin. rewrite files_under_unfold in Hin.
  apply well_formed_unfold in Hwf as [_ Hwf].
  induction es as [|[name y] es IHes]; [contradiction |].
  apply Forall_cons_iff in IH as [Hy Hes].
  destruct Hwf as (Hname & Hywf & Hrest).
  rewrite files_in_cons in Hin. apply in_app_or in Hin as [Hin|Hin].
  - destruct y as [data|sub].
    + destruct Hin as [<-|[]]. simpl. now constructor.
    + apply in_map_iff in Hin as (g & <- & Hg). simpl.
      constructor; [exact Hname | now apply Hy].
  - now apply IHes.
Qed.

Lemma files_under_paths_nodup (x : node) :
  well_formed x -> List.NoDup (map fst (files_under x)).
Proof.
  induction x as [data|es IH] using node_nested_ind; [constructor |].
  intros Hwf. rewrite files_under_unfold.
  apply well_formed_unfold in Hwf as [Hnd Hwf].
  induction es as [|[name y] es IHes]; [constructor |].
  apply Forall_cons_iff in IH as [Hy Hes].
  destruct Hwf as (Hname & Hywf & Hrest).
  simpl in Hnd. apply NoDup_cons_iff in Hnd as [Hfresh Hnd].
  rewrite files_in_cons, List.map_app. apply List.NoDup_app.
  - destruct y as [data|sub].
    + simpl. constructor; [intros [] | constructor].
    + rewrite List.map_map. simpl.
      rewrite <- (List.map_map fst (cons name)).
      apply NoDup_map_NoDup_ForallPairs; [| now apply Hy].
      intros p q _ _ Heq. now injection Heq as ->.
  - now apply IHes.
  - intros p Hp Hq.
    apply in_map_iff in Hq as (g & Hgp & Hg).
    destruct (files_in_heads es g Hg) as (n & rest & Hfst & Hn).
    assert (Hhead : exists tl, p = name :: tl).
    { destruct y as [data|sub].
      - destruct Hp as [<-|[]]. now exists [].
      - rewrite List.map_map in Hp. apply in_map_iff in Hp as (h & <- & _).
        now eexists. }
    destruct Hhead as [tl ->]. rewrite Hfst in Hgp. injection Hgp as -> _.
    contradiction.
Qed.

Lemma nodup_map_injective {A B} (f : A -> B) (l : list A) :
  List.NoDup (map f l) ->
  forall x y, In x l -> In y l -> f x = f y -> x = y.
Proof.
  induction l as [|a l IH]; intros Hnd x y Hx Hy Heq; [contradiction |].
  simpl in Hnd. apply NoDup_cons_iff in Hnd as [Ha Hnd].
  destruct Hx as [->|Hx], Hy as [->|Hy].
  - reflexivity.
  - exfalso. apply Ha. rewrite Heq. now apply in_map.
  - exfalso. apply Ha. rewrite <- Heq. now apply in_map.
  - now apply IH.
Qed.

Lemma join_injective (p q : list string) :
  p <> [] -> q <> [] ->
  Forall (fun c => Str.mem "/" c = false) p ->
  Forall (fun c => Str.mem "/" c = false) q ->
  Str.join "/" p = Str.join "/" q -> p = q.
Proof.
  intros Hp Hq Pp Pq Heq.
  rewrite <- (split_join p Hp Pp), <- (split_join q Hq Pq). now rewrite Heq.
Qed.

(** In a well-formed site no two files have the same key. *)
Lemma site_keys_nodup (E : env) es :
  well_formed (Dir es) -> List.NoDup (map Key (site_requests E (Dir es))).
Proof.
  intros Hwf. unfold site_requests. rewrite List.map_map.
  pose proof (files_under_paths_nodup (Dir es) Hwf) as Hpaths.
  apply NoDup_map_NoDup_ForallPairs.
  - intros f g Hf Hg Heq. simpl in Heq.
    apply filter_In in Hf as [Hf _]. apply filter_In in Hg as [Hg _].
    apply (nodup_map_injective fst _ Hpaths f g Hf Hg).
    apply join_injective; try assumption.
    + rewrite files_under_unfold in Hf. now apply files_in_nonempty in Hf.
    + rewrite files_under_unfold in Hg. now apply files_in_nonempty in Hg.
    + now apply (files_under_plain (Dir es)).
    + now apply (files_under_plain (Dir es)).
  - apply List.NoDup_filter. now apply NoDup_map_inv in Hpaths.
Qed.

Lemma store_lookup_in (cs : list s3_call) (b : gmap string s3_object)
    (c : s3_call) :
  List.NoDup (map Key cs) -> In c cs ->
  store cs b !! Key c = Some (object_of c).
Proof.
  revert b. induction cs as [|a cs IH]; intros b Hnd Hin; [contradiction |].
  simpl in Hnd. apply NoDup_cons_iff in Hnd as [Ha Hnd].
  rewrite store_cons. destruct Hin as [->|Hin].
  - rewrite store_lookup_other by exact Ha.
    unfold put_object. apply lookup_insert_eq.
  - now apply IH.
Qed.

(** X15.  In a site directory as a file system has it (no two entries of a
    directory with the same name, no slash in a name) no two files have the
    same key, and after a run in which the storage service accepts the calls
    every file whose name is not ignored is in the bucket at its key, with
    the bytes it has on the local disk and the content type of its suffix,
    in the place of whatever object the key had. *)
Theorem published_objects_hold_the_local_bytes (E : env) (w : world) ses :
  Fs.get (SITE_DIR E) (Some (fs w)) = Some (Dir ses) ->
  well_formed (Dir ses) ->
  (forall c, In c (site_requests E (Dir ses)) -> s3_accepts E c = Ok tt) ->
  List.NoDup (map Key (site_requests E (Dir ses))) /\
  forall p data,
    In (p, data) (files_under (Dir ses)) ->
    in_list (List.last p "") IGNORED_FILES = false ->
    bucket (snd (upload_site E w)) !! Str.join "/" p
    = Some {| obj_body := data;
              obj_content_type := content_type_of (List.last p "") |}.
Proof.
  intros Hs Hwf Hacc.
  pose proof (site_keys_nodup E ses Hwf) as Hkeys.
  split; [exact Hkeys |]. intros p data Hf Hi.
  rewrite (upload_site_run E w ses Hs).
  pose proof (run_calls_accepted E _ w Hacc) as Hok.
  destruct (run_calls E (site_requests E (Dir ses)) w)
    as (acc & tried & rest & _ & _ & _ & Hb & _ & _ & Hall).
  destruct (Hall Hok) as [_ ->]. rewrite Hb.
  apply (store_lookup_in _ _ (request_for (SITE_DIR E) (p, data)) Hkeys).
  unfold site_requests. apply in_map. apply filter_In. split; [exact Hf |].
  unfold ignored. simpl. now rewrite Hi.
Qed.

(** ** Runs that return *)

Lemma download_sheets_ok (E : env) (w : world) res (sheets : list sheet) :
  Fs.get (ROOT_DIR E) (Some (fs w)) = Some (Dir res) ->
  (forall d, Entries.get "data" res <> Some (File d)) ->
  open_workbook E = Ok sheets ->
  (forall s, In s sheets -> exists values, get_all_values s = Ok values) ->
  List.NoDup (map title sheets) ->
  (forall s, In s sheets ->
     Str.mem "/" (title s) = false /\ Str.mem "000" (title s) = false) ->
  (forall s, In s sheets -> within_limits E s) ->
  exists w',
    download_sheets E w = (Ok tt, w') /\
    Fs.get (DATA_DIR E) (Some (fs w'))
      = Some (Dir (map (sheet_file E) sheets)).
Proof.
  intros Hroot Hdata Hwb Hread Hnd Htitles Hlimits.
  destruct (reset_dir (ROOT_DIR E) "data" w res Hroot Hdata) as (t0 & Hreset & Ht0).
  assert (Hd0 : Fs.get (DATA_DIR E) (Some (fs (with_fs w t0))) = Some (Dir [])).
  { unfold DATA_DIR. simpl. rewrite get_app, Ht0. simpl.
    now rewrite entries_get_set_same. }
  destruct (write_sheets E sheets Hnd
              (fun s H =>
                 conj (Hread s H)
                   (conj (proj1 (Htitles s H))
                      (conj (proj2 (Htitles s H)) (Hlimits s H))))
              (with_fs w t0) [] Hd0 (fun _ _ => eq_refl)) as (w' & Hloop & Hd').
  exists w'. split; [| exact Hd'].
  unfold download_sheets. rewrite seq_assoc.
  erewrite bind_ok; [| exact Hreset].
  erewrite bind_ok; [exact Hloop |]. unfold lift. now rewrite Hwb.
Qed.

Lemma get_parent_dir (R : path) (name : string) (o : option node) (x : node) :
  Fs.get (R ++ [name]) o = Some x ->
  exists es, Fs.get R o = Some (Dir es) /\ Entries.get name es = Some x.
Proof.
  rewrite get_app. destruct (Fs.get R o) as [[d|es]|]; simpl; try discriminate.
  intros H. now exists es.
Qed.

Lemma map_each_ok {A B} (f : A -> M B) (l : list A) (w : world) :
  (forall x, In x l -> exists y, f x w = (Ok y, w)) ->
  exists ys, map_each l f w = (Ok ys, w).
Proof.
  induction l as [|x l IH]; intros H.
  - now exists [].
  - destruct (H x (or_introl eq_refl)) as [y Hy].
    destruct IH as [ys Hys]; [intros x' Hx'; apply H; now right |].
    exists (y :: ys). simpl.
    erewrite bind_ok; [| exact Hy]. erewrite bind_ok; [| exact Hys].
    reflexivity.
Qed.

Lemma read_list_ok (E : env) (name text key : string) (rows : list row)
    (w : world) :
  Re.search name = Some key ->
  csv_DictReader E text = Ok rows ->
  read_list E (name, File text) w
  = (Ok (key, dict_get LISTS_MAPPING key key, rows), w).
Proof.
  intros Hk Hr. unfold read_list, original_name_of, read_entry. simpl.
  rewrite Hk. rewrite bind_run. simpl. rewrite bind_run. simpl.
  rewrite bind_run. unfold lift. now rewrite Hr.
Qed.

(** The data files can all be listed: each [.csv] entry is a regular file
    whose name the pattern matches and whose text the reader accepts. *)
Lemma render_index_ok (E : env) (w : world) tes (src : string) ddir :
  Fs.get (TEMPLATE_DIR E) (Some (fs w)) = Some (Dir tes) ->
  Entries.get "template.html" tes = Some (File src) ->
  jinja2_compile E (Dir tes) src = Ok tt ->
  Fs.get (DATA_DIR E) (Some (fs w)) = Some (Dir ddir) ->
  (forall name x, In (name, x) ddir -> suffix name = ".csv" ->
     exists key text rows,
       Re.search name = Some key /\ x = File text /\
       csv_DictReader E text = Ok rows) ->
  (forall cats, exists html,
     jinja2_render E (Dir tes) src cats INTRO_TEXT
       (strftime_B_d_Y (now E)) META_CONTENT = Ok html) ->
  exists html, render_index E w = (Ok html, w).
Proof.
  intros Ht Hsrc Hcomp Hd Hfiles Hrender.
  assert (Hlists : exists cats, collect_lists E w = (Ok cats, w)).
  { unfold collect_lists.
    destruct (map_each_ok (read_list E) (sort (List.filter is_csv ddir)) w)
      as [cats Hcats].
    - intros [name x] Hin.
      apply (Permutation_in _ (sort_perm _)) in Hin.
      apply filter_In in Hin as [Hin Hcsv]. unfold is_csv in Hcsv. simpl in Hcsv.
      apply String.eqb_eq in Hcsv.
      destruct (Hfiles name x Hin Hcsv) as (key & text & rows & Hk & -> & Hr).
      eexists. eapply read_list_ok; eassumption.
    - exists cats. erewrite bind_ok; [exact Hcats |].
      unfold csv_files. erewrite bind_ok; [reflexivity |].
      unfold iterdir. now rewrite Hd. }
  destruct Hlists as [cats Hcats].
  destruct (Hrender cats) as [html Hhtml].
  exists html. unfold render_index.
  erewrite bind_ok.
  2:{ unfold get_template. erewrite bind_ok; [| unfold lookup_path; reflexivity].
      rewrite Ht, Hsrc. erewrite bind_ok; [reflexivity |].
      unfold lift. now rewrite Hcomp. }
  erewrite bind_ok; [| exact Hcats].
  unfold lift. simpl. now rewrite Hhtml.
Qed.

Lemma generate_site_ok (E : env) (w : world) res tes (src : string) ddir :
  Fs.get (ROOT_DIR E) (Some (fs w)) = Some (Dir res) ->
  (forall d, Entries.get "site" res <> Some (File d)) ->
  Entries.get "template" res = Some (Dir tes) ->
  List.NoDup (Entries.names tes) ->
  Entries.get "template.html" tes = Some (File src) ->
  (forall sub, Entries.get "index.html" tes <> Some (Dir sub)) ->
  jinja2_compile E (Dir tes) src = Ok tt ->
  Entries.get "data" res = Some (Dir ddir) ->
  (forall name x, In (name, x) ddir -> suffix name = ".csv" ->
     exists key text rows,
       Re.search name = Some key /\ x = File text /\
       csv_DictReader E text = Ok rows) ->
  (forall cats, exists html,
     jinja2_render E (Dir tes) src cats INTRO_TEXT
       (strftime_B_d_Y (now E)) META_CONTENT = Ok html) ->
  exists html t,
    generate_site E w = (Ok tt, with_fs w t) /\
    Fs.get (SITE_DIR E) (Some t)
      = Some (Dir (Entries.set "index.html" (File html)
                     (List.filter copied tes))) /\
    forall q, diverge (SITE_DIR E ++ ["index.html"]) q ->
              diverge (SITE_DIR E) q ->
              Fs.get q (Some t) = Fs.get q (Some (fs w)).
Proof.
  intros Hroot Hsite Htpl Hnd Hsrc Hidx Hcomp Hdata Hfiles Hrender.
  destruct (site_prepared_frame E w res tes Hroot Hsite Htpl Hnd)
    as (t0 & Hprep & Ht0 & F0).
  pose proof (site_template_diverge E []) as Hdt.
  pose proof (site_data_diverge E []) as Hdd.
  rewrite app_nil_r in Hdt, Hdd.
  destruct (render_index_ok E (with_fs w t0) tes src ddir) as [html Hr];
    try assumption.
  { simpl. rewrite (F0 _ Hdt). unfold TEMPLATE_DIR.
    rewrite get_app, Hroot. simpl. now rewrite Htpl. }
  { simpl. rewrite (F0 _ Hdd). unfold DATA_DIR.
    rewrite get_app, Hroot. simpl. now rewrite Hdata. }
  pose proof (change_child false (SITE_DIR E) "index.html"
    (fun o => match o with
              | Some (Dir _) => Raise IsADirectoryError
              | _ => Ok (Some (File html))
              end) (with_fs w t0) _ Ht0) as Hc.
  assert (Hw : exists t,
            write_file (SITE_DIR E ++ ["index.html"]) html (with_fs w t0)
              = (Ok tt, with_fs w t) /\
            Fs.get (SITE_DIR E) (Some t)
              = Some (Dir (Entries.set "index.html" (File html)
                             (List.filter copied tes)))).
  { destruct (Entries.get "index.html" (List.filter copied tes))
      as [[d|sub]|] eqn:Hg.
    - destruct Hc as (t & Hc & Ht). now exists t.
    - exfalso. apply entries_get_some_in in Hg. apply filter_In in Hg as [Hg _].
      apply (Hidx sub). now apply entries_get_in.
    - destruct Hc as (t & Hc & Ht). now exists t. }
  destruct Hw as (t & Hw & Ht).
  exists html, t. split; [| split; [exact Ht |]].
  - unfold generate_site. rewrite Hprep.
    erewrite bind_ok; [exact Hw | exact Hr].
  - intros q _ Hq. rewrite <- (F0 q Hq).
    pose proof (write_file_same_outside (SITE_DIR E) ["index.html"] html
                  (with_fs w t0)) as (_ & _ & F).
    rewrite Hw in F. simpl in F. now apply F.
Qed.

(** X16.  [generate_site] returns whenever its inputs are sound: the module
    is installed with a template directory that has a regular file
    [template.html] that compiles and renders, [site] is not a regular file,
    [index.html] is not a directory of the template, and every [.csv] entry
    of the data directory is a regular file whose name the pattern matches
    and whose text the reader accepts.  The page is then in [index.html]. *)
Theorem renderer_returns_on_sound_inputs
    (E : env) (w : world) res tes (src : string) ddir :
  Fs.get (ROOT_DIR E) (Some (fs w)) = Some (Dir res) ->
  (forall d, Entries.get "site" res <> Some (File d)) ->
  Entries.get "template" res = Some (Dir tes) ->
  List.NoDup (Entries.names tes) ->
  Entries.get "template.html" tes = Some (File src) ->
  (forall sub, Entries.get "index.html" tes <> Some (Dir sub)) ->
  jinja2_compile E (Dir tes) src = Ok tt ->
  Entries.get "data" res = Some (Dir ddir) ->
  (forall name x, In (name, x) ddir -> suffix name = ".csv" ->
     exists key text rows,
       Re.search name = Some key /\ x = File text /\
       csv_DictReader E text = Ok rows) ->
  (forall cats, exists html,
     jinja2_render E (Dir tes) src cats INTRO_TEXT
       (strftime_B_d_Y (now E)) META_CONTENT = Ok html) ->
  exists html w',
    generate_site E w = (Ok tt, w') /\
    Fs.get (SITE_DIR E ++ ["index.html"]) (Some (fs w')) = Some (File html).
Proof.
  intros Hroot Hsite Htpl Hnd Hsrc Hidx Hcomp Hdata Hfiles Hrender.
  destruct (generate_site_ok E w res tes src ddir Hroot Hsite Htpl Hnd Hsrc
              Hidx Hcomp Hdata Hfiles Hrender) as (html & t & Hrun & Ht & _).
  exists html, (with_fs w t). split; [exact Hrun |].
  simpl. rewrite get_app, Ht. simpl. now rewrite entries_get_set_same.
Qed.

(** *** Well-formed directories under the operations *)

Lemma entries_names_set_in (name m : string) (y : node) es :
  In m (Entries.names (Entries.set name y es)) ->
  m = name \/ In m (Entries.names es).
Proof.
  induction es as [|[n x] es IH]; simpl.
  - intros [<-|[]]. now left.
  - destruct (String.eqb n name); simpl.
    + intros [<-|H]; right; [now left | now right].
    + intros [<-|H]; [right; now left |].
      destruct (IH H) as [->|H']; [now left | right; now right].
Qed.

Lemma entries_names_set_nodup (name : string) (y : node) es :
  List.NoDup (Entries.names es) ->
  List.NoDup (Entries.names (Entries.set name y es)).
Proof.
  induction es as [|[n x] es IH]; simpl; intros Hnd.
  - constructor; [intros [] | constructor].
  - apply NoDup_cons_iff in Hnd as [Hn Hnd].
    destruct (String.eqb n name) eqn:Hq; simpl.
    + now constructor.
    + constructor; [| now apply IH].
      intros Hin. apply entries_names_set_in in Hin as [->|Hin];
        [| contradiction].
      rewrite String.eqb_refl in Hq. discriminate.
Qed.

Lemma well_formed_entries_set (name : string) (y : node) es :
  Str.mem "/" name = false -> well_formed y ->
  well_formed_entries es -> well_formed_entries (Entries.set name y es).
Proof.
  intros Hname Hy. induction es as [|[n x] es IH]; simpl.
  - tauto.
  - intros (Hn & Hx & Hes). destruct (String.eqb n name) eqn:Hq; simpl.
    + tauto.
    + repeat split; try assumption. now apply IH.
Qed.

Lemma well_formed_entries_filter (f : string * node -> bool) es :
  well_formed_entries es -> well_formed_entries (List.filter f es).
Proof.
  induction es as [|[n x] es IH]; simpl; [tauto |].
  intros (Hn & Hx & Hes). destruct (f (n, x)); simpl; [| now apply IH].
  repeat split; try assumption. now apply IH.
Qed.

Lemma files_in_of_entry (name data : string) es :
  In (name, File data) es -> In ([name], data) (files_in es).
Proof.
  induction es as [|[n x] es IH]; [contradiction |].
  rewrite files_in_cons. intros [[= -> ->]|Hin]; apply in_or_app.
  - left. now left.
  - right. now apply IH.
Qed.

(** X17.  The whole pipeline returns on sound inputs.  When the module is
    installed with a well-formed template directory that has a
    [template.html] that compiles and renders and no directory
    [index.html], [data] and [site] are not regular files, the workbook
    opens, its sheets can be read, have pairwise different titles without
    slash or NUL that the pattern matches and whose files are within the
    limits of the system, and are read back by the reader, and the storage
    service answers, then [build_site] returns; the entries of the data
    directory are the files of the sheets, one for each, in some order,
    [site/index.html] holds the page, and the bucket holds that page at the
    key [index.html] with the content type [text/html]. *)
Theorem pipeline_publishes_the_page
    (E : env) (w : world) res tes (src : string) (sheets : list sheet) :
  Fs.get (ROOT_DIR E) (Some (fs w)) = Some (Dir res) ->
  (forall d, Entries.get "data" res <> Some (File d)) ->
  (forall d, Entries.get "site" res <> Some (File d)) ->
  Entries.get "template" res = Some (Dir tes) ->
  well_formed (Dir tes) ->
  Entries.get "template.html" tes = Some (File src) ->
  (forall sub, Entries.get "index.html" tes <> Some (Dir sub)) ->
  jinja2_compile E (Dir tes) src = Ok tt ->
  (forall cats, exists html,
     jinja2_render E (Dir tes) src cats INTRO_TEXT
       (strftime_B_d_Y (now E)) META_CONTENT = Ok html) ->
  open_workbook E = Ok sheets ->
  List.NoDup (map title sheets) ->
  (forall s, In s sheets ->
     Str.mem "/" (title s) = false /\ Str.mem "000" (title s) = false /\
     (exists key, Re.search (title s +:+ ".csv") = Some key) /\
     exists values rows,
       get_all_values s = Ok values /\
       csv_DictReader E (csv_writerows E values) = Ok rows) ->
  (forall s, In s sheets -> within_limits E s) ->
  s3_resource E = Ok tt ->
  (forall c, s3_accepts E c = Ok tt) ->
  exists html w' files,
    build_site E w = (Ok tt, w') /\
    Fs.get (DATA_DIR E) (Some (fs w')) = Some (Dir files) /\
    Permutation files (map (sheet_file E) sheets) /\
    Fs.get (SITE_DIR E ++ ["index.html"]) (Some (fs w')) = Some (File html) /\
    bucket w' !! "index.html"
    = Some {| obj_body := html; obj_content_type := "text/html" |}.
Proof.
  intros Hroot Hdata Hsite Htpl Hwf Hsrc Hidx Hcomp Hrender Hwb Hndt Hsheets
         Hlimits Hs3 Hacc.
  pose proof Hwf as Hwf'. apply well_formed_unfold in Hwf' as [Hnd Hwfe].
  (* the fetcher *)
  destruct (download_sheets_ok E w res sheets Hroot Hdata Hwb) as (w1 & Hfetch & Hd1);
    try assumption.
  { intros s Hs. destruct (Hsheets s Hs) as (_ & _ & _ & values & rows & Hv & _).
    now exists values. }
  { intros s Hs. destruct (Hsheets s Hs) as (H1 & H2 & _). now split. }
  pose proof (download_sheets_disk_frame E w) as [_ F1].
  { intros sheets' s Heq Hs. rewrite Hwb in Heq. injection Heq as <-.
    destruct (Hsheets s Hs) as (H1 & H2 & _). now split. }
  rewrite Hfetch in F1. simpl in F1.
  destruct (get_parent_dir _ _ _ _ Hd1) as (res1 & Hroot1 & Hdata1).
  assert (Hsib : forall name, name <> "data" ->
                   Entries.get name res1 = Entries.get name res).
  { intros name Hne.
    assert (Hdv : diverge (DATA_DIR E) (ROOT_DIR E ++ [name]))
      by (unfold DATA_DIR; apply diverge_siblings; congruence).
    specialize (F1 _ Hdv). rewrite !get_app, Hroot1, Hroot in F1.
    simpl in F1.
    destruct (Entries.get name res1), (Entries.get name res); congruence. }
  (* the renderer *)
  destruct (generate_site_ok E w1 res1 tes src (map (sheet_file E) sheets))
    as (html & t2 & Hrender2 & Hsite2 & F2); try assumption.
  { intros d. rewrite Hsib by discriminate. apply Hsite. }
  { rewrite Hsib by discriminate. exact Htpl. }
  { intros name x Hin _. apply in_map_iff in Hin as (s & Heq & Hs).
    destruct (Hsheets s Hs) as (_ & _ & [key Hk] & values & rows & Hv & Hr).
    unfold sheet_file in Heq. rewrite Hv in Heq. injection Heq as <- <-.
    now exists key, (csv_writerows E values), rows. }
  (* the publisher *)
  set (ses := Entries.set "index.html" (File html) (List.filter copied tes)) in *.
  set (w2 := with_fs w1 t2) in *.
  assert (Hs2 : Fs.get (SITE_DIR E) (Some (fs w2)) = Some (Dir ses)) by exact Hsite2.
  assert (Hwf2 : well_formed (Dir ses)).
  { apply well_formed_unfold. split.
    - apply entries_names_set_nodup. now apply entries_names_filter.
    - apply well_formed_entries_set; [reflexivity | exact I |].
      now apply well_formed_entries_filter. }
  pose proof (run_calls_accepted E (site_requests E (Dir ses)) w2
                (fun c _ => Hacc c)) as Hok.
  destruct (run_calls E (site_requests E (Dir ses)) w2)
    as (acc & tried & rest & _ & _ & _ & Hb & Hfs & _ & Hall).
  destruct (Hall Hok) as [_ ->].
  exists html, (snd (for_each (site_requests E (Dir ses)) (upload_file E) w2)),
         (map (sheet_file E) sheets).
  assert (Hbuild : build_site E w
                   = for_each (site_requests E (Dir ses)) (upload_file E) w2).
  { unfold build_site. erewrite bind_ok; [| exact Hfetch].
    erewrite bind_ok; [| exact Hrender2].
    erewrite bind_ok; [| unfold lift; rewrite Hs3; reflexivity].
    now apply upload_site_run. }
  split; [| split; [| split; [apply Permutation_refl | split]]].
  - rewrite Hbuild.
    destruct (for_each _ _ w2) as [r w']. simpl in *. now subst r.
  - rewrite Hfs. unfold w2. simpl.
    rewrite F2.
    + exact Hd1.
    + unfold SITE_DIR, DATA_DIR. rewrite <- app_assoc. simpl.
      replace (ROOT_DIR E ++ ["data"]) with (ROOT_DIR E ++ "data" :: []) by reflexivity.
      now apply diverge_siblings.
    + pose proof (site_data_diverge E []) as Hdv.
      now rewrite app_nil_r in Hdv.
  - rewrite Hfs, get_app, Hs2. simpl. unfold ses.
    now rewrite entries_get_set_same.
  - rewrite Hb.
    change "index.html" with (Key (request_for (SITE_DIR E) (["index.html"], html))).
    rewrite (store_lookup_in _ _ _ (site_keys_nodup E ses Hwf2)).
    + unfold object_of, request_for. simpl. now rewrite content_type_lookup.
    + unfold site_requests. apply in_map. apply filter_In. split; [| reflexivity].
      rewrite files_under_unfold. apply files_in_of_entry.
      apply entries_get_some_in. unfold ses. apply entries_get_set_same.
Qed.

(** ** The order of the lists *)

Lemma compare_common_prefix (p : string) (c1 c2 : ascii) (r1 r2 : string) :
  Ascii.compare c1 c2 = Lt ->
  String.compare (p +:+ String c1 r1) (p +:+ String c2 r2) = Lt.
Proof.
  intros Hc. induction p as [|c p IH]; simpl.
  - now rewrite Hc.
  - unfold Ascii.compare at 1. now rewrite N.compare_refl.
Qed.

Lemma sorted_before (l : list (string * node)) (a b : string * node) :
  StronglySorted name_le l -> In a l -> In b l -> ~ name_le b a ->
  exists l1 l2 l3, l = l1 ++ a :: l2 ++ b :: l3.
Proof.
  induction 1 as [|x l Hs IH Hx]; intros Ha Hb Hnot; [contradiction |].
  rewrite List.Forall_forall in Hx.
  destruct Hb as [->|Hb].
  - exfalso. apply Hnot. destruct Ha as [->|Ha].
    + unfold name_le. reflexivity.
    + now apply Hx.
  - destruct Ha as [->|Ha].
    + apply in_split in Hb as (l2 & l3 & ->). now exists [], l2, l3.
    + destruct (IH Ha Hb Hnot) as (l1 & l2 & l3 & ->).
      now exists (x :: l1), l2, l3.
Qed.

(** X18.  The data files are sorted as strings, not by the number they
    start with: of two [.csv] entries whose names differ first in the
    characters [c1] and [c2], with [c1] before [c2] in the order of the
    character codes, the one with [c1] is listed first, whatever follows.
    So [10_...] is listed before [2_...]. *)
Theorem order_is_by_first_differing_character
    (E : env) (w : world) ddir (a b : string * node)
    (p : string) (c1 c2 : ascii) (r1 r2 : string) :
  Fs.get (DATA_DIR E) (Some (fs w)) = Some (Dir ddir) ->
  In a ddir -> In b ddir ->
  suffix (fst a) = ".csv" -> suffix (fst b) = ".csv" ->
  fst a = p +:+ String c1 r1 ->
  fst b = p +:+ String c2 r2 ->
  Ascii.compare c1 c2 = Lt ->
  exists l1 l2 l3, csv_files E w = (Ok (l1 ++ a :: l2 ++ b :: l3), w).
Proof.
  intros Hd Ha Hb Sa Sb Na Nb Hc.
  assert (Hin : forall x, In x ddir -> suffix (fst x) = ".csv" ->
                          In x (sort (List.filter is_csv ddir))).
  { intros x Hx Sx. eapply Permutation_in; [symmetry; apply sort_perm |].
    apply filter_In. split; [exact Hx |]. unfold is_csv. now rewrite Sx. }
  destruct (sorted_before _ a b (sort_sorted _) (Hin a Ha Sa) (Hin b Hb Sb))
    as (l1 & l2 & l3 & Hsplit).
  - unfold name_le, String.le, String.leb. rewrite Na, Nb.
    rewrite String.compare_antisym, (compare_common_prefix p c1 c2 r1 r2 Hc).
    simpl. tauto.
  - exists l1, l2, l3. rewrite <- Hsplit.
    unfold csv_files. erewrite bind_ok; [reflexivity |].
    unfold iterdir. now rewrite Hd.
Qed.

(** ** A title with a slash *)

Lemma update_missing_directory (D : path) (a name : string)
    (f : option node -> result (option node)) (o : option node) es :
  Fs.get D o = Some (Dir es) ->
  Entries.get a es = None ->
  Fs.update false (D ++ [a; name]) f o = Raise FileNotFoundError.
Proof.
  revert o. induction D as [|c D IH]; intros o HD Ha; simpl in HD.
  - subst o. simpl. now rewrite Ha.
  - destruct o as [[|es0]|]; try discriminate.
    simpl. now rewrite (IH _ HD Ha).
Qed.

(** X19.  A title with a slash in it names a file in a subdirectory of the
    data directory, which [download_sheets] never makes: for a title
    [a/b], with [a] and [b] free of slashes, [a] a name of at most
    [NAME_MAX] bytes that the data directory does not have, and a path
    shorter than [PATH_MAX], the sheet is read and announced, [open] raises
    [FileNotFoundError] and nothing is written. *)
Theorem slash_title_raises_file_not_found
    (E : env) (w : world) (s : sheet) (a b : string)
    (values : list (list string)) files :
  title s = a +:+ "/" +:+ b ->
  Str.mem "/" a = false -> Str.mem "000" a = false ->
  Str.mem "/" b = false -> Str.mem "000" b = false ->
  a <> "" -> a <> "." -> a <> ".." ->
  String.length a <= Fs.NAME_MAX ->
  String.length (path_text (DATA_DIR E) (title s +:+ ".csv")) < Fs.PATH_MAX ->
  get_all_values s = Ok values ->
  Fs.get (DATA_DIR E) (Some (fs w)) = Some (Dir files) ->
  Entries.get a files = None ->
  download_sheet E s w
  = (Raise FileNotFoundError,
     {| fs := fs w; bucket := bucket w; requests := requests w;
        stdout := stdout w ++ ["Downloading: " +:+ title s] |}).
Proof.
  intros Ht Ha Hza Hb Hzb A0 A1 A2 Hn Hpath Hv Hd Hmiss.
  destruct (csv_name_plain _ Hb Hzb) as (N1 & N2 & N3 & N4 & N5).
  unfold download_sheet.
  erewrite bind_ok; [| unfold lift; rewrite Hv; reflexivity].
  erewrite bind_ok; [| reflexivity].
  rewrite Ht in Hpath |- *.
  assert (Hname : (a +:+ "/" +:+ b) +:+ ".csv"
                  = a +:+ String "/" (b +:+ ".csv")).
  { rewrite append_assoc. reflexivity. }
  rewrite Hname in Hpath |- *.
  assert (Hz : Str.mem "000" (a +:+ String "/" (b +:+ ".csv")) = false).
  { rewrite mem_app, Hza. simpl. exact N2. }
  rewrite (write_file_at_run _ _ _ _ Hz Hpath).
  unfold path_div, path_parts.
  rewrite (split_slash_app a _ Ha), (split_slash_plain _ N1).
  assert (Hs : Str.starts_with "/" (a +:+ String "/" (b +:+ ".csv")) = false).
  { destruct a as [|c a]; [congruence |]. simpl in Ha |- *.
    apply orb_false_iff in Ha as [Hc _].
    now rewrite Ascii.eqb_sym, Hc. }
  rewrite Hs.
  cbn [List.filter].
  rewrite (string_eqb_false _ _ A0), (string_eqb_false _ _ A1).
  rewrite (string_eqb_false _ _ N3), (string_eqb_false _ _ N4).
  cbn [negb andb fst snd Fs.resolve fs].
  rewrite (string_eqb_false _ _ A2), (string_eqb_false _ _ N5).
  rewrite Hd. apply Nat.ltb_ge in Hn. rewrite Hn.
  assert (Hnone : Fs.get (DATA_DIR E ++ [a]) (Some (fs w)) = None).
  { rewrite get_app, Hd. simpl. now rewrite Hmiss. }
  rewrite Hnone. rewrite <- app_assoc. simpl app.
  unfold write_file, change. cbn [fs].
  now rewrite (update_missing_directory _ _ _ _ _ files Hd Hmiss).
Qed.

(** ** A title that is too long *)

(** X20.  The title of a sheet is not shortened.  When the title of a sheet
    that can be read, without slash or NUL, gives a file name of more than
    [NAME_MAX] bytes, the sheet is read and announced, [open] raises
    [OSError] for the name that is too long, and nothing is written. *)
Theorem long_title_raises_name_too_long
    (E : env) (w : world) (s : sheet) (values : list (list string)) files :
  Str.mem "/" (title s) = false -> Str.mem "000" (title s) = false ->
  Fs.NAME_MAX < String.length (title s +:+ ".csv") ->
  get_all_values s = Ok values ->
  Fs.get (DATA_DIR E) (Some (fs w)) = Some (Dir files) ->
  download_sheet E s w
  = (Raise OSError_ENAMETOOLONG,
     {| fs := fs w; bucket := bucket w; requests := requests w;
        stdout := stdout w ++ ["Downloading: " +:+ title s] |}).
Proof.
  intros Hslash Hnul Hlong Hv Hd.
  destruct (csv_name_plain _ Hslash Hnul) as (N1 & N2 & N3 & N4 & N5).
  unfold download_sheet.
  erewrite bind_ok; [| unfold lift; rewrite Hv; reflexivity].
  erewrite bind_ok; [| reflexivity].
  unfold write_file_at.
  rewrite (path_div_plain _ _ N1 N3 N4), N2.
  destruct (Fs.PATH_MAX <=? _); [reflexivity |].
  rewrite (resolve_plain _ _ _ N5). cbn [fs]. rewrite Hd.
  apply Nat.ltb_lt in Hlong. now rewrite Hlong.
Qed.

(** * The further statements on the sample installation *)

Lemma extracted_key_is_leftmost_shortest_witness :
  exists pre d post,
    "12_a_b.csv" = pre +:+ String d ("_" +:+ "a_b" +:+ ".csv" +:+ post) /\
    Re.digit d = true /\
    Str.mem "010" "a_b" = false /\
    Str.contains ".csv" "a_b" = false /\
    forall pre1 c pre2,
      pre = pre1 +:+ String c pre2 ->
      Re.match_here
        (String c pre2 +:+ String d ("_" +:+ "a_b" +:+ ".csv" +:+ post)) = None.
Proof.
  apply (extracted_key_is_leftmost_shortest "12_a_b.csv" "a_b"
           sample_world sample_world).
  reflexivity.
Defined.

Lemma ordinal_may_have_several_digits_witness :
  original_name_of "2020_a_b.csv" sample_world = (Ok "a_b", sample_world).
Proof.
  apply (ordinal_may_have_several_digits "202" "0"%char "a_b" sample_world);
    reflexivity.
Defined.

Lemma regular_file_blocks_the_reset_witness :
  let w := world_of (Dir [("app", Dir [("data", File "x"); ("site", File "y")])]) in
  download_sheets sample_env w = (Raise FileExistsError, w) /\
  generate_site sample_env w = (Raise FileExistsError, w).
Proof.
  intros w.
  destruct (regular_file_blocks_the_reset sample_env w
              [("data", File "x"); ("site", File "y")] eq_refl) as [Hd Hs].
  split; [apply (Hd "x") | apply (Hs "y")]; reflexivity.
Defined.

Lemma failed_fetch_leaves_data_empty_witness :
  let E := sample_env_with (Raise (LibraryError "APIError")) in
  let w := world_of (sample_disk sample_template (Some [("old.csv", File "o")])) in
  exists t,
    download_sheets E w = (Raise (LibraryError "APIError"), with_fs w t) /\
    Fs.get (DATA_DIR E) (Some t) = Some (Dir []).
Proof.
  intros E w.
  apply (failed_fetch_leaves_data_empty E w
           [("template", Dir sample_template); ("lambda_function.py", File "py");
            ("data", Dir [("old.csv", File "o")])]).
  - reflexivity.
  - intros d. discriminate.
  - reflexivity.
Defined.

Lemma unreadable_sheet_stops_the_fetch_witness :
  let good := {| title := "1_a"; get_all_values := Ok [["h"]] |} in
  let bad := {| title := "2_b";
                get_all_values := Raise (LibraryError "APIError") |} in
  let E := sample_env_with (Ok [good; bad; good]) in
  exists w' files,
    download_sheets E sample_world = (Raise (LibraryError "APIError"), w') /\
    Fs.get (DATA_DIR E) (Some (fs w')) = Some (Dir files) /\
    Permutation files [sheet_file E good].
Proof.
  intros good bad E.
  apply (unreadable_sheet_stops_the_fetch E sample_world
           [("template", Dir sample_template); ("lambda_function.py", File "py")]
           [good] [good] bad).
  - reflexivity.
  - intros d. discriminate.
  - reflexivity.
  - intros s' [<-|[]]. eexists. reflexivity.
  - repeat constructor. intros [].
  - intros s' [<-|[]]. split; reflexivity.
  - intros s' [<-|[]]. split; vm_compute; lia.
  - reflexivity.
Defined.

Lemma fetcher_writes_only_below_data_witness :
  Fs.get (TEMPLATE_DIR sample_env ++ ["template.html"])
    (Some (fs (snd (download_sheets sample_env sample_world))))
  = Some (File "T").
Proof.
  destruct (fetcher_writes_only_below_data sample_env sample_world)
    as (_ & _ & Ht & _).
  - intros sheets s [= <-] [<-|[<-|[]]]; split; reflexivity.
  - rewrite Ht. reflexivity.
Defined.

Lemma dotdot_title_escapes_the_data_directory_witness :
  let s := {| title := "../x"; get_all_values := Ok [["h"]] |} in
  let w := world_of (sample_disk sample_template (Some [])) in
  exists w',
    download_sheet sample_env s w = (Ok tt, w') /\
    Fs.get (ROOT_DIR sample_env ++ ["x.csv"]) (Some (fs w'))
      = Some (File (csv_writerows sample_env [["h"]])) /\
    Fs.get (DATA_DIR sample_env) (Some (fs w'))
      = Fs.get (DATA_DIR sample_env) (Some (fs w)).
Proof.
  intros s w.
  apply (dotdot_title_escapes_the_data_directory sample_env w s "x" [["h"]]
           [("template", Dir sample_template); ("lambda_function.py", File "py");
            ("data", Dir [])]).
  - reflexivity.
  - reflexivity.
  - reflexivity.
  - reflexivity.
  - reflexivity.
  - now exists [].
  - intros sub. discriminate.
  - vm_compute. lia.
  - vm_compute. lia.
Defined.

Lemma site_is_the_template_copy_and_the_page_witness :
  let w := world_of
             (Dir [("app",
                    Dir [("template", Dir sample_template);
                         ("data", Dir [("1_a.csv", File "h")]);
                         ("site", Dir [("stale.html", File "s")])])]) in
  let w' := snd (generate_site sample_env w) in
  exists html,
    fst (render_index sample_env w) = Ok html /\
    look (SITE_DIR sample_env ++ ["index.html"]) (fs w') = Regular html /\
    look (SITE_DIR sample_env ++ ["css"; "style.css"]) (fs w') = Regular "c" /\
    look (SITE_DIR sample_env ++ ["logo.jpg"]) (fs w') = Regular "j" /\
    look (SITE_DIR sample_env ++ ["template.html"]) (fs w') = Nothing /\
    look (SITE_DIR sample_env ++ ["stale.html"]) (fs w') = Nothing.
Proof.
  intros w w'.
  destruct (site_is_the_template_copy_and_the_page sample_env w w'
              [("template", Dir sample_template);
               ("data", Dir [("1_a.csv", File "h")]);
               ("site", Dir [("stale.html", File "s")])] sample_template)
    as (html & Hr & _ & Hpage & Hrest).
  - reflexivity.
  - intros d. discriminate.
  - reflexivity.
  - repeat constructor; simpl; intuition discriminate.
  - vm_compute. reflexivity.
  - exists html. split; [exact Hr |]. split; [exact Hpage |].
    split; [| split; [| split]].
    + now rewrite (Hrest "css" ["style.css"]) by discriminate.
    + now rewrite (Hrest "logo.jpg" []) by discriminate.
    + now rewrite (Hrest "template.html" []) by discriminate.
    + now rewrite (Hrest "stale.html" []) by discriminate.
Defined.

Lemma missing_template_leaves_site_without_page_witness :
  let tes := [("css", Dir [("style.css", File "c")])] in
  let w := world_of (sample_disk tes (Some [])) in
  exists w',
    generate_site sample_env w = (Raise TemplateNotFound, w') /\
    Fs.get (SITE_DIR sample_env) (Some (fs w'))
    = Some (Dir (List.filter copied tes)).
Proof.
  intros tes w.
  apply (missing_template_leaves_site_without_page sample_env w
           [("template", Dir tes); ("lambda_function.py", File "py");
            ("data", Dir [])]).
  - reflexivity.
  - intros d. discriminate.
  - reflexivity.
  - repeat constructor. intros [].
  - intros src. discriminate.
Defined.

Lemma directory_named_csv_aborts_witness :
  exists e,
    fst (generate_site sample_env
           (world_of (sample_disk sample_template
                        (Some [("1_a.csv", Dir [])])))) = Raise e.
Proof.
  apply (directory_named_csv_aborts sample_env _ [("1_a.csv", Dir [])]
           "1_a.csv" []).
  - reflexivity.
  - now left.
  - reflexivity.
Defined.

Lemma entries_without_csv_suffix_are_skipped_witness :
  let w1 := world_of (sample_disk sample_template
                        (Some [("1_a.csv", File "h")])) in
  let w2 := world_of (sample_disk sample_template
                        (Some [("notes.txt", File "n"); ("1_a.csv", File "h");
                               (".csv", File "hidden")])) in
  fst (generate_site sample_env w1) = fst (generate_site sample_env w2) /\
  Fs.get (SITE_DIR sample_env) (Some (fs (snd (generate_site sample_env w1))))
  = Fs.get (SITE_DIR sample_env) (Some (fs (snd (generate_site sample_env w2)))).
Proof.
  intros w1 w2.
  apply (entries_without_csv_suffix_are_skipped sample_env w1 w2
           [("template", Dir sample_template); ("lambda_function.py", File "py");
            ("data", Dir [("1_a.csv", File "h")])]
           [("template", Dir sample_template); ("lambda_function.py", File "py");
            ("data", Dir [("notes.txt", File "n"); ("1_a.csv", File "h");
                          (".csv", File "hidden")])]
           sample_template
           [("1_a.csv", File "h")]
           [("notes.txt", File "n"); ("1_a.csv", File "h"); (".csv", File "hidden")]).
  - reflexivity.
  - reflexivity.
  - intros d. discriminate.
  - intros d. discriminate.
  - reflexivity.
  - reflexivity.
  - repeat constructor; simpl; intuition discriminate.
  - reflexivity.
  - reflexivity.
  - reflexivity.
Defined.

Lemma rejected_upload_stops_the_publisher_witness :
  let E := sample_env_rejecting "b.txt" in
  let w := world_of (Dir [("app", Dir [("site",
             Dir [("a.txt", File "1"); ("b.txt", File "2"); ("c.txt", File "3")])])]) in
  fst (upload_site E w) = Raise (LibraryError "S3UploadFailedError") /\
  map Key (requests (snd (upload_site E w))) = ["a.txt"; "b.txt"] /\
  bucket (snd (upload_site E w)) !! "c.txt" = None.
Proof.
  intros E w.
  destruct (rejected_upload_stops_the_publisher E w
              [("a.txt", File "1"); ("b.txt", File "2"); ("c.txt", File "3")]
              [request_for (SITE_DIR E) (["a.txt"], "1")]
              [request_for (SITE_DIR E) (["c.txt"], "3")]
              (request_for (SITE_DIR E) (["b.txt"], "2"))
              (LibraryError "S3UploadFailedError"))
    as (Hr & Hq & Hb).
  - reflexivity.
  - reflexivity.
  - intros b [<-|[]]. reflexivity.
  - reflexivity.
  - split; [exact Hr |]. rewrite Hq, Hb. split; reflexivity.
Defined.

Lemma published_objects_hold_the_local_bytes_witness :
  let ses := [("css", Dir [("style.css", File "c")]); ("index.html", File "page")] in
  let w := {| fs := Dir [("app", Dir [("site", Dir ses)])];
              bucket := <["index.html" := {| obj_body := "old";
                                             obj_content_type := "text/plain" |}]> ∅;
              requests := []; stdout := [] |} in
  bucket (snd (upload_site sample_env w)) !! "css/style.css"
  = Some {| obj_body := "c"; obj_content_type := "text/css" |} /\
  bucket (snd (upload_site sample_env w)) !! "index.html"
  = Some {| obj_body := "page"; obj_content_type := "text/html" |}.
Proof.
  intros ses w.
  destruct (published_objects_hold_the_local_bytes sample_env w ses)
    as [_ Hobj].
  - reflexivity.
  - simpl. repeat split; repeat constructor; simpl; intuition discriminate.
  - intros c _. reflexivity.
  - split.
    + apply (Hobj ["css"; "style.css"] "c"); [simpl; tauto | reflexivity].
    + apply (Hobj ["index.html"] "page"); [simpl; tauto | reflexivity].
Defined.

Lemma renderer_returns_on_sound_inputs_witness :
  exists html w',
    generate_site sample_env
      (world_of (sample_disk sample_template (Some [("1_a.csv", File "h")])))
    = (Ok tt, w') /\
    Fs.get (SITE_DIR sample_env ++ ["index.html"]) (Some (fs w'))
    = Some (File html).
Proof.
  apply (renderer_returns_on_sound_inputs sample_env _
           [("template", Dir sample_template); ("lambda_function.py", File "py");
            ("data", Dir [("1_a.csv", File "h")])]
           sample_template "T" [("1_a.csv", File "h")]).
  - reflexivity.
  - intros d. discriminate.
  - reflexivity.
  - repeat constructor; simpl; intuition discriminate.
  - reflexivity.
  - intros sub. discriminate.
  - reflexivity.
  - reflexivity.
  - intros name x [[= <- <-]|[]] _. now exists "a", "h", [[("text", "h")]].
  - intros cats. eexists. reflexivity.
Defined.

Lemma pipeline_publishes_the_page_witness :
  exists html w' files,
    build_site sample_env sample_world = (Ok tt, w') /\
    Fs.get (DATA_DIR sample_env) (Some (fs w')) = Some (Dir files) /\
    Permutation files (map (sheet_file sample_env) sample_sheets) /\
    Fs.get (SITE_DIR sample_env ++ ["index.html"]) (Some (fs w'))
    = Some (File html) /\
    bucket w' !! "index.html"
    = Some {| obj_body := html; obj_content_type := "text/html" |}.
Proof.
  apply (pipeline_publishes_the_page sample_env sample_world
           [("template", Dir sample_template); ("lambda_function.py", File "py")]
           sample_template "T" sample_sheets).
  - reflexivity.
  - intros d. discriminate.
  - intros d. discriminate.
  - reflexivity.
  - simpl. repeat split; repeat constructor; simpl; intuition discriminate.
  - reflexivity.
  - intros sub. discriminate.
  - reflexivity.
  - intros cats. eexists. reflexivity.
  - reflexivity.
  - repeat constructor; simpl; intuition discriminate.
  - intros s [<-|[<-|[]]]; repeat split; try reflexivity;
      try (eexists; reflexivity); do 2 eexists; split; reflexivity.
  - intros s [<-|[<-|[]]]; split; vm_compute; lia.
  - reflexivity.
  - intros c. reflexivity.
Defined.

Lemma order_is_by_first_differing_character_witness :
  exists l1 l2 l3,
    csv_files sample_env
      (world_of (sample_disk sample_template
                   (Some [("2_y.csv", File "y"); ("10_x.csv", File "x")])))
    = (Ok (l1 ++ ("10_x.csv", File "x") :: l2 ++ ("2_y.csv", File "y") :: l3),
       world_of (sample_disk sample_template
                   (Some [("2_y.csv", File "y"); ("10_x.csv", File "x")]))).
Proof.
  apply (order_is_by_first_differing_character sample_env _
           [("2_y.csv", File "y"); ("10_x.csv", File "x")]
           ("10_x.csv", File "x") ("2_y.csv", File "y")
           "" "1"%char "2"%char "0_x.csv" "_y.csv").
  - reflexivity.
  - simpl. tauto.
  - simpl. tauto.
  - reflexivity.
  - reflexivity.
  - reflexivity.
  - reflexivity.
  - reflexivity.
Defined.

Lemma slash_title_raises_file_not_found_witness :
  let s := {| title := "Q1/Q2"; get_all_values := Ok [["h"]] |} in
  let w := world_of (sample_disk sample_template (Some [])) in
  download_sheet sample_env s w
  = (Raise FileNotFoundError,
     {| fs := fs w; bucket := bucket w; requests := requests w;
        stdout := stdout w ++ ["Downloading: " +:+ title s] |}).
Proof.
  intros s w.
  apply (slash_title_raises_file_not_found sample_env w s "Q1" "Q2" [["h"]] []);
    try reflexivity; try discriminate; vm_compute; lia.
Defined.

Lemma long_title_raises_name_too_long_witness :
  let w := world_of (sample_disk sample_template (Some [])) in
  String.length (title long_sheet) = 300 /\
  download_sheet sample_env long_sheet w
  = (Raise OSError_ENAMETOOLONG,
     {| fs := fs w; bucket := bucket w; requests := requests w;
        stdout := stdout w ++ ["Downloading: " +:+ title long_sheet] |}).
Proof.
  intros w. split; [reflexivity |].
  apply (long_title_raises_name_too_long sample_env w long_sheet
           [["title"; "url"]] []).
  - reflexivity.
  - reflexivity.
  - vm_compute. lia.
  - reflexivity.
  - reflexivity.
Defined.
